(** * PyExecJS: runtime selection and the execution protocol of [execjs/__init__.py]

    A shallow embedding of the module [execjs] (file [execjs/__init__.py],
    with the tables of [execjs/runtimes_config.py]) and the properties of
    its selector, binary locator, registry construction, execution context
    and result extraction.

    Conventions of the embedding.
    - A Python [str] is a sequence of Unicode code points: [text := list N].
      ASCII literals of the source are written [u "..."].
    - [bytes] are [list Byte.byte].
    - A Python call that may raise is a value of [outcome]: [Return v] or
      [Raise e]; code that also mutates objects or files threads a [world]
      through the monad [M].
    - What the module asks of the host (environment variables, [os.stat],
      [os.path.join], the codecs, [tempfile.mkstemp], [subprocess.Popen]) is
      a field of the record [host]: every theorem holds for every host. *)

From Stdlib Require Import NArith ZArith Lia Ascii String.
From Stdlib.Strings Require Import Byte.
From stdpp Require Import base option list gmap.

Local Open Scope N_scope.

(** ** Text *)

Abbreviation text := (list N).

(** The code points of an ASCII literal. *)
Definition u (s : string) : text :=
  List.map N_of_ascii (list_ascii_of_string s).

(** The double quote U+0022 and the characters the source writes with an
    escape. *)
Definition dq : N := 34.
Definition LF : N := 10.
Definition CR : N := 13.
Definition backslash : N := 92.

(** [s.startswith(p)] *)
Fixpoint startswith (p s : text) : bool :=
  match p, s with
  | [], _ => true
  | _ :: _, [] => false
  | a :: p', b :: s' => (a =? b) && startswith p' s'
  end.

(** *** [format(n, 'x')] and [format(n, '04x')] *)

Definition hex_digit (d : N) : N :=
  if d <? 10 then 48 + d else 87 + d.

Fixpoint hex_aux (fuel : nat) (n : N) (acc : text) : text :=
  match fuel with
  | O => acc
  | S f =>
      let acc' := hex_digit (n mod 16) :: acc in
      if n / 16 =? 0 then acc' else hex_aux f (n / 16) acc'
  end.

(** Lowercase hexadecimal digits of [n], most significant first, no
    padding: [format(n, 'x')]. *)
Definition format_x (n : N) : text :=
  hex_aux (S (N.to_nat (N.log2 n))) n [].

(** [format(n, '04x')]: zero-padded to a minimum width of four. *)
Definition format_04x (n : N) : text :=
  let d := format_x n in
  List.repeat 48 (4 - List.length d)%nat ++ d.

(** [is_lower_hex c]: [c] is one of [0-9a-f]. *)
Definition is_lower_hex (c : N) : bool :=
  ((48 <=? c) && (c <=? 57)) || ((97 <=? c) && (c <=? 102)).

Definition hex_val (c : N) : N :=
  if c <=? 57 then c - 48 else c - 87.

(** The number a string of hexadecimal digits denotes. *)
Definition hex_value (ds : text) : N :=
  fold_left (fun acc c => 16 * acc + hex_val c) ds 0.

(** ** [encode_unicode_codepoints]

    [re.sub('[^\x00-\x7f]', codepoint, str)] with
    [codepoint(m) = '\\u{0:04x}'.format(ord(m.group(0)))]. *)

Definition codepoint (c : N) : text :=
  u "\u" ++ format_04x c.

Definition encode_unicode_codepoints (str : text) : text :=
  flat_map (fun c => if c <=? 127 then [c] else codepoint c) str.

(** ** Outcomes of a call *)

(** The argument an exception was constructed with. *)
Inductive errarg :=
| NoArg
| TextArg (t : text)
| BytesArg (b : list Byte.byte).

(** The exception classes of the module ([Error] and its subclasses) and
    the built-in exceptions its code can let escape. *)
Inductive exn :=
| RuntimeError (arg : errarg)
| ProgramError (arg : errarg)
| RuntimeUnavailable (arg : errarg)
| AttributeError
| IndexError
| KeyError
| TypeError
| ValueError
| OSError
| LookupError
| UnicodeError.

(** [is_library_error e]: [e] is an instance of [execjs.Error]. *)
Definition is_library_error (e : exn) : bool :=
  match e with
  | RuntimeError _ | ProgramError _ | RuntimeUnavailable _ => true
  | _ => false
  end.

Inductive outcome (A : Type) :=
| Return (a : A)
| Raise (e : exn).
Arguments Return {A} a.
Arguments Raise {A} e.

(** ** Structured values: what [json.loads] returns *)

#[local] Set Warnings "-register-all".

Inductive json :=
| JNull
| JBool (b : bool)
| JInt (z : Z)
| JFloat (lexeme : text)
| JStr (s : text)
| JArr (items : list json)
| JObj (members : list (text * json)).

Definition text_eqb (a b : text) : bool := bool_decide (a = b).

(** [d[k] = v] on an insertion-ordered [dict]: a present key keeps its
    position and takes the new value, a new key goes last. *)
Fixpoint od_set {V} (d : list (text * V)) (k : text) (v : V) : list (text * V) :=
  match d with
  | [] => [(k, v)]
  | (k', v') :: d' =>
      if text_eqb k' k then (k, v) :: d' else (k', v') :: od_set d' k v
  end.

(** [d[k]], [None] standing for [KeyError]. *)
Fixpoint od_get {V} (d : list (text * V)) (k : text) : option V :=
  match d with
  | [] => None
  | (k', v) :: d' => if text_eqb k' k then Some v else od_get d' k
  end.

Definition od_keys {V} (d : list (text * V)) : list text := List.map fst d.
Definition od_values {V} (d : list (text * V)) : list V := List.map snd d.

(** *** The decoder of [json.loads]

    The standard library's [json.loads] on a [str], as its pure-Python
    scanner reads it: whitespace is [' \t\n\r']; a number with a fraction
    or an exponent, and [NaN], [Infinity], [-Infinity], decode to a float,
    kept here as its lexeme; strings are decoded in strict mode; an object
    becomes a [dict], so a repeated key keeps its first position and its
    last value.  [None] stands for [json.JSONDecodeError], a [ValueError]. *)

Definition is_json_ws (c : N) : bool :=
  (c =? 32) || (c =? 9) || (c =? 10) || (c =? 13).

Fixpoint skip_ws (s : text) : text :=
  match s with
  | c :: r => if is_json_ws c then skip_ws r else s
  | [] => []
  end.

Definition is_digit (c : N) : bool := (48 <=? c) && (c <=? 57).

Definition is_hex (c : N) : bool :=
  is_digit c || ((97 <=? c) && (c <=? 102)) || ((65 <=? c) && (c <=? 70)).

Definition hex_val_any (c : N) : N :=
  if c <=? 57 then c - 48 else if c <=? 70 then c - 55 else c - 87.

(** The longest prefix of decimal digits, and the rest. *)
Fixpoint span_digits (s : text) : text * text :=
  match s with
  | c :: r =>
      if is_digit c then let '(d, r') := span_digits r in (c :: d, r')
      else ([], s)
  | [] => ([], [])
  end.

Definition dec_value (ds : text) : N :=
  fold_left (fun acc c => 10 * acc + (c - 48)) ds 0.

(** Four hexadecimal digits after [\u]. *)
Definition scan_u4 (s : text) : option (N * text) :=
  match s with
  | a :: b :: c :: d :: r =>
      if is_hex a && is_hex b && is_hex c && is_hex d
      then Some (4096 * hex_val_any a + 256 * hex_val_any b
                 + 16 * hex_val_any c + hex_val_any d, r)
      else None
  | _ => None
  end.

(** [scanstring], entered after the opening quote. *)
Fixpoint scanstring (fuel : nat) (s : text) : option (text * text) :=
  match fuel with
  | O => None
  | S f =>
      match s with
      | [] => None
      | 34 :: r => Some ([], r)
      | 92 :: e :: r =>
          let plain (c : N) :=
            match scanstring f r with
            | Some (t, r') => Some (c :: t, r')
            | None => None
            end in
          if e =? 34 then plain 34
          else if e =? 92 then plain 92
          else if e =? 47 then plain 47
          else if e =? 98 then plain 8
          else if e =? 102 then plain 12
          else if e =? 110 then plain 10
          else if e =? 114 then plain 13
          else if e =? 116 then plain 9
          else if e =? 117 then
            match scan_u4 r with
            | None => None
            | Some (hi, r1) =>
                let lone :=
                  match scanstring f r1 with
                  | Some (t, r') => Some (hi :: t, r')
                  | None => None
                  end in
                if (55296 <=? hi) && (hi <=? 56319) then
                  match r1 with
                  | 92 :: 117 :: r2 =>
                      match scan_u4 r2 with
                      | Some (lo, r3) =>
                          if (56320 <=? lo) && (lo <=? 57343) then
                            match scanstring f r3 with
                            | Some (t, r') =>
                                Some (65536 + N.lor (N.shiftl (hi - 55296) 10)
                                                    (lo - 56320) :: t, r')
                            | None => None
                            end
                          else lone
                      | None => lone
                      end
                  | _ => lone
                  end
                else lone
            end
          else None
      | c :: r =>
          if c <? 32 then None
          else
            match scanstring f r with
            | Some (t, r') => Some (c :: t, r')
            | None => None
            end
      end
  end.

(** [match_number]: an optional minus sign and an integer part ([0], or
    a non-zero digit and further digits), then an optional fraction (a dot
    and one digit or more), then an optional exponent ([e] or [E], an
    optional sign, one digit or more). *)
Definition scan_number (s : text) : option (json * text) :=
  let '(neg, s1) :=
    match s with 45 :: r => (true, r) | _ => (false, s) end in
  match s1 with
  | c :: r =>
      if is_digit c then
        let '(ip, r1) := if c =? 48 then ([48], r) else span_digits s1 in
        let '(frac, r2) :=
          match r1 with
          | 46 :: r' =>
              match span_digits r' with
              | ([], _) => ([], r1)
              | (d, r'') => (46 :: d, r'')
              end
          | _ => ([], r1)
          end in
        let '(ex, r3) :=
          match r2 with
          | e :: r' =>
              if (e =? 101) || (e =? 69) then
                let '(sg, r'') :=
                  match r' with
                  | g :: t => if (g =? 43) || (g =? 45) then ([g], t) else ([], r')
                  | [] => ([], r')
                  end in
                match span_digits r'' with
                | ([], _) => ([], r2)
                | (d, r4) => (e :: sg ++ d, r4)
                end
              else ([], r2)
          | [] => ([], r2)
          end in
        match frac, ex with
        | [], [] =>
            let v := Z.of_N (dec_value ip) in
            Some (JInt (if neg then (- v)%Z else v), r3)
        | _, _ =>
            Some (JFloat ((if neg then [45] else []) ++ ip ++ frac ++ ex), r3)
        end
      else None
  | [] => None
  end.

(** [s] without the prefix [p], when it starts with it. *)
Definition strip_prefix (p s : text) : option text :=
  if startswith p s then Some (drop (List.length p) s) else None.

(** The literals and numbers of [_scan_once], in the order it tries them. *)
Definition scan_atom (s : text) : option (json * text) :=
  match strip_prefix (u "null") s with
  | Some r => Some (JNull, r)
  | None =>
  match strip_prefix (u "true") s with
  | Some r => Some (JBool true, r)
  | None =>
  match strip_prefix (u "false") s with
  | Some r => Some (JBool false, r)
  | None =>
  match scan_number s with
  | Some v => Some v
  | None =>
  match strip_prefix (u "NaN") s with
  | Some r => Some (JFloat (u "NaN"), r)
  | None =>
  match strip_prefix (u "Infinity") s with
  | Some r => Some (JFloat (u "Infinity"), r)
  | None =>
  match strip_prefix (u "-Infinity") s with
  | Some r => Some (JFloat (u "-Infinity"), r)
  | None => None
  end end end end end end end.

(** [_scan_once], [JSONArray] after its first value position and
    [JSONObject] after the opening quote of a key. *)
Fixpoint scan_once (fuel : nat) (s : text) : option (json * text) :=
  match fuel with
  | O => None
  | S f =>
      match s with
      | 34 :: r =>
          match scanstring (S (List.length r)) r with
          | Some (t, r') => Some (JStr t, r')
          | None => None
          end
      | 123 :: r =>
          match skip_ws r with
          | 125 :: r' => Some (JObj [], r')
          | 34 :: r' =>
              match scan_members f r' with
              | Some (ms, r'') =>
                  Some (JObj (fold_left (fun d kv => od_set d (fst kv) (snd kv)) ms []), r'')
              | None => None
              end
          | _ => None
          end
      | 91 :: r =>
          match skip_ws r with
          | 93 :: r' => Some (JArr [], r')
          | r' =>
              match scan_items f r' with
              | Some (vs, r'') => Some (JArr vs, r'')
              | None => None
              end
          end
      | _ => scan_atom s
      end
  end
with scan_items (fuel : nat) (s : text) : option (list json * text) :=
  match fuel with
  | O => None
  | S f =>
      match scan_once f s with
      | None => None
      | Some (v, r) =>
          match skip_ws r with
          | 93 :: r' => Some ([v], r')
          | 44 :: r' =>
              match scan_items f (skip_ws r') with
              | Some (vs, r'') => Some (v :: vs, r'')
              | None => None
              end
          | _ => None
          end
      end
  end
with scan_members (fuel : nat) (s : text) : option (list (text * json) * text) :=
  match fuel with
  | O => None
  | S f =>
      match scanstring (S (List.length s)) s with
      | None => None
      | Some (k, r) =>
          match skip_ws r with
          | 58 :: r1 =>
              match scan_once f (skip_ws r1) with
              | None => None
              | Some (v, r2) =>
                  match skip_ws r2 with
                  | 125 :: r3 => Some ([(k, v)], r3)
                  | 44 :: r3 =>
                      match skip_ws r3 with
                      | 34 :: r4 =>
                          match scan_members f r4 with
                          | Some (ms, r5) => Some ((k, v) :: ms, r5)
                          | None => None
                          end
                      | _ => None
                      end
                  | _ => None
                  end
              end
          | _ => None
          end
      end
  end.

(** [json.loads(s)] for a [str]. *)
Definition json_loads (s : text) : outcome json :=
  match s with
  | 65279 :: _ => Raise ValueError
  | _ =>
      match scan_once (2 * List.length s + 2) (skip_ws s) with
      | Some (v, r) =>
          match skip_ws r with
          | [] => Return v
          | _ :: _ => Raise ValueError
          end
      | None => Raise ValueError
      end
  end.

(** *** [json.dumps(s, ensure_ascii=True)] for a [str]

    The standard library's [encode_basestring_ascii]: the backslash, the
    double quote and every character outside the range from the space to
    the tilde are replaced, the seven of [ESCAPE_DCT] by their short
    escape, the others by [\uXXXX], a code point above U+FFFF by its
    surrogate pair. *)
Definition escape_ascii (c : N) : text :=
  if c =? 92 then [92; 92]
  else if c =? 34 then [92; 34]
  else if c =? 8 then u "\b"
  else if c =? 12 then u "\f"
  else if c =? 10 then u "\n"
  else if c =? 13 then u "\r"
  else if c =? 9 then u "\t"
  else if (32 <=? c) && (c <=? 126) then [c]
  else if c <? 65536 then u "\u" ++ format_04x c
  else
    let n := c - 65536 in
    let s1 := N.lor 55296 (N.land (N.shiftr n 10) 1023) in
    let s2 := N.lor 56320 (N.land n 1023) in
    u "\u" ++ format_04x s1 ++ u "\u" ++ format_04x s2.

Definition json_dumps_str (s : text) : text :=
  dq :: flat_map escape_ascii s ++ [dq].

(** *** More of [str] *)

(** [s.split(sep)] for a separator of one character. *)
Fixpoint split (sep : N) (s : text) : list text :=
  match s with
  | [] => [[]]
  | c :: r =>
      if c =? sep then [] :: split sep r
      else
        match split sep r with
        | w :: ws => (c :: w) :: ws
        | [] => [[c]]
        end
  end.

(** [s.replace("\r\n", "\n")] and [s.replace("\r", "\n")]. *)
Fixpoint replace_crlf (s : text) : text :=
  match s with
  | [] => []
  | c :: r =>
      match r with
      | d :: r' =>
          if (c =? CR) && (d =? LF) then LF :: replace_crlf r'
          else c :: replace_crlf r
      | [] => [c]
      end
  end.

Definition replace_cr (s : text) : text :=
  List.map (fun c => if c =? CR then LF else c) s.

(** [l[-2]], [None] standing for [IndexError]. *)
Definition second_to_last {A} (l : list A) : option A :=
  if (List.length l <? 2)%nat then None
  else l !! (List.length l - 2)%nat.

(** The characters [str.strip()] removes: those [str.isspace()] accepts. *)
Definition py_isspace (c : N) : bool :=
  ((9 <=? c) && (c <=? 13)) || ((28 <=? c) && (c <=? 32))
  || (c =? 133) || (c =? 160) || (c =? 5760)
  || ((8192 <=? c) && (c <=? 8202))
  || (c =? 8232) || (c =? 8233) || (c =? 8239) || (c =? 8287) || (c =? 12288).

Fixpoint lstrip (s : text) : text :=
  match s with
  | c :: r => if py_isspace c then lstrip r else s
  | [] => []
  end.

Definition strip (s : text) : text := rev (lstrip (rev (lstrip s))).

(** Truth value of a [str]: [not s] holds of the empty string only. *)
Definition is_empty (s : text) : bool :=
  match s with [] => true | _ :: _ => false end.

(** ** The host

    What the module reads from, and does to, the machine it runs on. *)

Abbreviation bytes := (list Byte.byte).

Record host := Host {
  (** [os.environ] *)
  environ : text -> option text;
  (** [platform.system() == 'Windows'] *)
  is_windows : bool;
  (** [os.pathsep] *)
  pathsep : N;
  (** [os.path.join] *)
  path_join : text -> text -> text;
  (** [os.stat(filename).st_mode], [None] when [os.stat] raises [os.error] *)
  os_stat : text -> option N;
  (** [import PyV8] succeeds *)
  pyv8_importable : bool;
  (** [tempfile.mkstemp(prefix='execjs', suffix='.js')]: the name of the
      file it creates among the existing ones, or the error it raises *)
  mkstemp : gmap text bytes -> outcome text;
  (** [io.open(filename, "w+", encoding=e)] and [fp.write(s)]: the bytes
      written, or the error of the codec *)
  str_encode : text -> text -> outcome bytes;
  (** [output.decode(e)] *)
  bytes_decode : text -> bytes -> outcome text;
  (** [Popen(cmd, stdout=PIPE, stderr=STDOUT)], [communicate()] and
      [wait()]: the captured output and the exit status, or the error
      raised; the process may change the files *)
  popen : list text -> gmap text bytes -> outcome (bytes * Z) * gmap text bytes;
  (** [execjs._json2._json2_source()], a module that is not part of the
      sources at hand *)
  _json2_source : text;
}.

(** [os.environ.get(k, default)] *)
Definition environ_get (h : host) (k default : text) : text :=
  match environ h k with
  | Some v => v
  | None => default
  end.

(** ** Binary locator *)

(** [stat.S_ISREG], [stat.S_IMODE]. *)
Definition S_ISREG (mode : N) : bool := N.land mode 61440 =? 32768.
Definition S_IMODE (mode : N) : N := N.land mode 4095.

(** [stat.S_ISREG(st.st_mode) and (stat.S_IMODE(st.st_mode) & 0o111)] *)
Definition regular_executable (mode : N) : bool :=
  S_ISREG mode && negb (N.land (S_IMODE mode) 73 =? 0).

(** The inner loop of [_find_executable]: [for ext in pathext]. *)
Fixpoint find_in_dir (h : host) (prog dir : text) (pathext : list text)
  : option text :=
  match pathext with
  | [] => None
  | ext :: rest =>
      let filename := path_join h dir (prog ++ ext) in
      match os_stat h filename with
      | None => find_in_dir h prog dir rest
      | Some mode =>
          if regular_executable mode then Some filename
          else find_in_dir h prog dir rest
      end
  end.

(** The outer loop of [_find_executable]: [for dir in pathlist]. *)
Fixpoint find_in_path (h : host) (prog : text) (pathext : list text)
  (pathlist : list text) : option text :=
  match pathlist with
  | [] => None
  | dir :: rest =>
      match find_in_dir h prog dir pathext with
      | Some filename => Some filename
      | None => find_in_path h prog pathext rest
      end
  end.

Definition _find_executable (h : host) (prog : text) (pathext : list text)
  : option text :=
  let pathlist := split (pathsep h) (environ_get h (u "PATH") []) in
  find_in_path h prog pathext pathlist.

(** A command of the configuration: [None], a [str] or a list of [str]. *)
Inductive command :=
| CmdNone
| CmdStr (s : text)
| CmdList (l : list text).

(** [list(command)] after [if isinstance(command, str): command = [command]];
    [list(None)] raises [TypeError]. *)
Definition command_tokens (c : command) : outcome (list text) :=
  match c with
  | CmdNone => Raise TypeError
  | CmdStr s => Return [s]
  | CmdList l => Return l
  end.

Definition _which (h : host) (c : command) : outcome (option (list text)) :=
  match command_tokens c with
  | Raise e => Raise e
  | Return [] => Raise IndexError
  | Return (name :: args) =>
      let path :=
        if is_windows h then
          let pathext := environ_get h (u "PATHEXT") [] in
          _find_executable h name (split (pathsep h) pathext)
        else _find_executable h name [[]] in
      match path with
      | None | Some [] => Return None
      | Some p => Return (Some (p :: args))
      end
  end.

(** ** Objects, the registry and the files *)

(** An instance of one of the two runtime classes, with its attributes.
    [_binary_cache] is [None] until [_binary] has set the attribute. *)
Inductive runtime :=
| ExternalRuntime (_name : text) (_command : command) (_runner_source : text)
    (_encoding : text) (_binary_cache : option (option (list text)))
| PyV8Runtime (_is_available : bool).

(** [heap]: the runtime objects, a reference being an index; a reference
    outside the heap stands for an object that is not a runtime, on which
    attribute access raises [AttributeError].
    [_runtimes]: the module's [OrderedDict] from names to runtime objects.
    [files]: the files and their contents. *)
Record world := World {
  heap : list runtime;
  _runtimes : list (text * nat);
  files : gmap text bytes;
}.

Definition set_heap (w : world) (hp : list runtime) : world :=
  World hp (_runtimes w) (files w).
Definition set_runtimes (w : world) (d : list (text * nat)) : world :=
  World (heap w) d (files w).
Definition set_files (w : world) (fs : gmap text bytes) : world :=
  World (heap w) (_runtimes w) fs.

(** Calls that may raise and change the world. *)
Definition M (A : Type) : Type := world -> outcome A * world.

Definition ret {A} (a : A) : M A := fun w => (Return a, w).
Definition raise {A} (e : exn) : M A := fun w => (Raise e, w).
Definition bind {A B} (c : M A) (k : A -> M B) : M B :=
  fun w =>
    match c w with
    | (Return a, w') => k a w'
    | (Raise e, w') => (Raise e, w')
    end.
Definition lift {A} (o : outcome A) : M A := fun w => (o, w).

Notation "x <- c ;; k" := (bind c (fun x => k))
  (at level 62, c at next level, right associativity).
Notation "c ;;; k" := (bind c (fun _ => k))
  (at level 62, right associativity).

(** [try: body finally: cleanup]: the cleanup runs after the body however
    it ends; an exception of the cleanup replaces the outcome of the body. *)
Definition try_finally {A} (body : M A) (cleanup : M unit) : M A :=
  fun w =>
    let '(r, w1) := body w in
    match cleanup w1 with
    | (Return _, w2) => (r, w2)
    | (Raise e, w2) => (Raise e, w2)
    end.

Definition get_object (r : nat) : M runtime :=
  fun w =>
    match heap w !! r with
    | Some o => (Return o, w)
    | None => (Raise AttributeError, w)
    end.

Definition set_object (r : nat) (o : runtime) : M unit :=
  fun w => (Return tt, set_heap w (<[r := o]> (heap w))).

(** Construction of an object: its reference is the next free index. *)
Definition alloc (o : runtime) : M nat :=
  fun w => (Return (List.length (heap w)), set_heap w (heap w ++ [o])).

(** ** The runtime classes *)

Inductive runtime_class := ClsExternalRuntime | ClsPyV8Runtime.

(** The keyword arguments of a configuration entry. *)
Record keyword_args := Kwargs {
  kw_name : option text;
  kw_runner_source : option text;
  kw_encoding : option text;
}.

(** [if isinstance(command, str): command = [command]] *)
Definition as_list (c : command) : command :=
  match c with
  | CmdStr s => CmdList [s]
  | _ => c
  end.

(** The attributes [__init__] sets, for [cls(command=command, **kwargs)];
    [None] stands for the [TypeError] of a missing argument.
    [ExternalRuntime.__init__(self, name, command, runner_source,
    encoding='utf8')] requires [name] and [runner_source] and keeps a [str]
    command as a list of one; [PyV8Runtime.__init__(self, *args, **kwargs)]
    ignores its arguments and records whether [import PyV8] succeeds. *)
Definition init_runtime (h : host) (cls : runtime_class) (c : command)
  (kw : keyword_args) : option runtime :=
  match cls with
  | ClsExternalRuntime =>
      match kw_name kw, kw_runner_source kw with
      | Some name, Some runner_source =>
          Some (ExternalRuntime name (as_list c) runner_source
                  (default (u "utf8") (kw_encoding kw)) None)
      | _, _ => None
      end
  | ClsPyV8Runtime => Some (PyV8Runtime (pyv8_importable h))
  end.

Definition new_runtime (h : host) (cls : runtime_class) (c : command)
  (kw : keyword_args) : M nat :=
  match init_runtime h cls c kw with
  | Some o => alloc o
  | None => raise TypeError
  end.

(** The property [name]. *)
Definition name (o : runtime) : text :=
  match o with
  | ExternalRuntime _name _ _ _ _ => _name
  | PyV8Runtime _ => u "PyV8"
  end.

(** [ExternalRuntime._binary]: the located command, computed by [_which]
    at the first call and kept in [_binary_cache]. *)
Definition _binary (h : host) (r : nat) : M (option (list text)) :=
  o <- get_object r ;;
  match o with
  | ExternalRuntime n c rs enc None =>
      b <- lift (_which h c) ;;
      set_object r (ExternalRuntime n c rs enc (Some b)) ;;;
      ret b
  | ExternalRuntime _ _ _ _ (Some b) => ret b
  | PyV8Runtime _ => raise AttributeError
  end.

(** [is_available] of either class. *)
Definition is_available (h : host) (r : nat) : M bool :=
  o <- get_object r ;;
  match o with
  | ExternalRuntime _ _ _ _ _ =>
      b <- _binary h r ;;
      ret (bool_decide (b <> None))
  | PyV8Runtime a => ret a
  end.

(** [ExternalRuntime.runner_source] *)
Definition runner_source (r : nat) : M text :=
  o <- get_object r ;;
  match o with
  | ExternalRuntime _ _ rs _ _ => ret rs
  | PyV8Runtime _ => raise AttributeError
  end.

(** The attribute [_encoding]. *)
Definition get_encoding (r : nat) : M text :=
  o <- get_object r ;;
  match o with
  | ExternalRuntime _ _ _ enc _ => ret enc
  | PyV8Runtime _ => raise AttributeError
  end.

(** [ExternalRuntime._execfile]: [self._binary() + [filename]] raises
    [TypeError] when no binary was located; a non-zero exit status raises
    [RuntimeError] with the captured output. *)
Definition _execfile (h : host) (r : nat) (filename : text) : M bytes :=
  b <- _binary h r ;;
  match b with
  | None => raise TypeError
  | Some binary =>
      let cmd := binary ++ [filename] in
      res <- (fun w =>
                let '(o, fs) := popen h cmd (files w) in (o, set_files w fs)) ;;
      let '(stdoutdata, status) := res in
      if (status =? 0)%Z then ret stdoutdata
      else raise (RuntimeError (BytesArg stdoutdata))
  end.

(** ** The configuration of [runtimes_config.py] *)

Module RuntimeNames.
Definition javascriptcore : text := u "JavaScriptCore".
Definition jscript : text := u "JScript".
Definition node : text := u "Node".
Definition phantomjs : text := u "PhantomJS".
Definition pyv8 : text := u "PyV8".
Definition slimerjs : text := u "SlimerJS".
Definition spidermonkey : text := u "SpiderMonkey".
End RuntimeNames.

(** The runner templates of [runner_source.py], texts that the registry
    only stores and that [_compile] renders. *)
Record runner_sources := RunnerSources {
  javascriptcore : text;
  jscript : text;
  node : text;
  phantomjs : text;
  spidermonkey : text;
}.

Definition slimerjs (rs : runner_sources) : text := phantomjs rs.

Definition runtime_preferred_order : list text :=
  [ RuntimeNames.pyv8;
    RuntimeNames.node;
    RuntimeNames.javascriptcore;
    RuntimeNames.spidermonkey;
    RuntimeNames.jscript;
    RuntimeNames.phantomjs;
    RuntimeNames.slimerjs ].

(** An entry of [config]; the keys ['runtime_type'] and
    ['alternate_names'] may be absent. *)
Record family_config := FamilyConfig {
  commands_to_try : list command;
  kwargs : keyword_args;
  runtime_type : option runtime_class;
  alternate_names : option (list text);
}.

Definition config (rs : runner_sources) : list (text * family_config) :=
  [ (RuntimeNames.javascriptcore,
     FamilyConfig
       [CmdStr (u "/System/Library/Frameworks/JavaScriptCore.framework/Versions/A/Resources/jsc")]
       (Kwargs (Some RuntimeNames.javascriptcore) (Some (javascriptcore rs)) None)
       None None);
    (RuntimeNames.jscript,
     FamilyConfig
       [CmdList [u "cscript"; u "//E:jscript"; u "//Nologo"]]
       (Kwargs (Some RuntimeNames.jscript) (Some (jscript rs)) (Some (u "ascii")))
       None None);
    (RuntimeNames.node,
     FamilyConfig
       [CmdStr (u "nodejs"); CmdStr (u "node")]
       (Kwargs (Some (u "Node.js (V8)")) (Some (node rs)) (Some (u "UTF-8")))
       None None);
    (RuntimeNames.phantomjs,
     FamilyConfig
       [CmdStr (u "phantomjs")]
       (Kwargs (Some RuntimeNames.phantomjs) (Some (phantomjs rs)) None)
       None None);
    (RuntimeNames.pyv8,
     FamilyConfig [CmdNone] (Kwargs None None None) (Some ClsPyV8Runtime) None);
    (RuntimeNames.slimerjs,
     FamilyConfig
       [CmdStr (u "slimerjs")]
       (Kwargs (Some RuntimeNames.slimerjs) (Some (slimerjs rs)) None)
       None None);
    (RuntimeNames.spidermonkey,
     FamilyConfig
       [CmdStr (u "js")]
       (Kwargs (Some RuntimeNames.spidermonkey) (Some (spidermonkey rs)) None)
       None (Some [u "Spidermonkey"])) ].

(** ** Registry construction *)

(** [for name in names: __runtimes[name] = r] *)
Definition bind_names (names : list text) (r : nat) (d : list (text * nat))
  : list (text * nat) :=
  fold_left (fun d' n => od_set d' n r) names d.

(** The loop [for command_to_try in config['commands_to_try']] of
    [_setup_runtimes]: an object is built for the candidate and bound to
    every name of the family, and the loop is left when the object is
    available. *)
Fixpoint try_commands (h : host) (cls : runtime_class) (kw : keyword_args)
  (names : list text) (commands : list command) (d : list (text * nat))
  : M (list (text * nat)) :=
  match commands with
  | [] => ret d
  | command_to_try :: rest =>
      r <- new_runtime h cls command_to_try kw ;;
      let d' := bind_names names r d in
      a <- is_available h r ;;
      if a then ret d' else try_commands h cls kw names rest d'
  end.

(** The names a family is registered under:
    [[runtime_name] + config.get('alternate_names', [])]. *)
Definition family_names (runtime_name : text) (c : family_config) : list text :=
  runtime_name :: default [] (alternate_names c).

(** The loop [for runtime_name in runtime_preferred_order]; a name without
    an entry in [config] raises [KeyError]. *)
Fixpoint setup_families (h : host) (cfg : list (text * family_config))
  (order : list text) (d : list (text * nat)) : M (list (text * nat)) :=
  match order with
  | [] => ret d
  | runtime_name :: rest =>
      match od_get cfg runtime_name with
      | None => raise KeyError
      | Some c =>
          let cls := default ClsExternalRuntime (runtime_type c) in
          d' <- try_commands h cls (kwargs c) (family_names runtime_name c)
                  (commands_to_try c) d ;;
          setup_families h cfg rest d'
      end
  end.

(** [_setup_runtimes], over the tables it reads. *)
Definition setup_runtimes_with (h : host) (cfg : list (text * family_config))
  (order : list text) : M (list (text * nat)) :=
  setup_families h cfg order [].

Definition _setup_runtimes (h : host) (rs : runner_sources)
  : M (list (text * nat)) :=
  setup_runtimes_with h (config rs) runtime_preferred_order.

(** The module-level statement [_runtimes = _setup_runtimes()]. *)
Definition module_init (h : host) (rs : runner_sources) : M unit :=
  d <- _setup_runtimes h rs ;;
  fun w => (Return tt, set_runtimes w d).

(** ** Selector *)

(** [register(name, runtime)] *)
Definition register (nm : text) (r : nat) : M unit :=
  fun w => (Return tt, set_runtimes w (od_set (_runtimes w) nm r)).

(** [runtimes()]: a copy of the registry. *)
Definition runtimes : M (list (text * nat)) :=
  fun w => (Return (_runtimes w), w).

(** The body of [get(name)] for a name that is not [None]. *)
Definition get_named (h : host) (nm : text) : M nat :=
  d <- runtimes ;;
  match od_get d nm with
  | None =>
      raise (RuntimeUnavailable (TextArg (nm ++ u " runtime is not defined")))
  | Some r =>
      a <- is_available h r ;;
      if negb a then
        o <- get_object r ;;
        raise (RuntimeUnavailable
                 (TextArg (name o ++ u " runtime is not available on this system")))
      else ret r
  end.

(** [get_from_environment()]; its call [get(name)] has a non-empty name. *)
Definition get_from_environment (h : host) : M (option nat) :=
  match environ h (u "EXECJS_RUNTIME") with
  | None => ret None
  | Some nm =>
      if is_empty nm then ret None
      else r <- get_named h nm ;; ret (Some r)
  end.

(** The loop [for runtime in _runtimes.values()] of [_auto_detect]. *)
Fixpoint first_available (h : host) (values : list nat) : M nat :=
  match values with
  | [] =>
      raise (RuntimeUnavailable (TextArg (u "Could not find a JavaScript runtime.")))
  | r :: rest =>
      a <- is_available h r ;;
      if a then ret r else first_available h rest
  end.

Definition _auto_detect (h : host) : M nat :=
  r <- get_from_environment h ;;
  match r with
  | Some r' => ret r'
  | None => fun w => first_available h (od_values (_runtimes w)) w
  end.

(** [get(name=None)] *)
Definition get (h : host) (nm : option text) : M nat :=
  match nm with
  | None => _auto_detect h
  | Some n => get_named h n
  end.

(** ** Execution context: [ExternalRuntime.Context] *)

(** An instance: the runtime it is bound to and its preamble. *)
Record context := MkContext {
  _runtime : nat;
  _source : text;
}.

Module Context.

(** [len(ret)] of a decoded value. *)
Definition py_len (v : json) : outcome nat :=
  match v with
  | JArr l => Return (List.length l)
  | JStr s => Return (List.length s)
  | JObj m => Return (List.length m)
  | JNull | JBool _ | JInt _ | JFloat _ => Raise TypeError
  end.

(** [ret[0]] of a decoded value of length one: the keys of a decoded
    object are strings, so [ret[0]] raises [KeyError] on it. *)
Definition first_item (v : json) : outcome json :=
  match v with
  | JArr (x :: _) => Return x
  | JArr [] => Raise IndexError
  | JStr (c :: _) => Return (JStr [c])
  | JStr [] => Raise IndexError
  | JObj _ => Raise KeyError
  | JNull | JBool _ | JInt _ | JFloat _ => Raise TypeError
  end.

(** [status, value = ret]: unpacking iterates a list over its items, a
    string over its characters and a dict over its keys. *)
Definition unpack2 (v : json) : outcome (json * json) :=
  match v with
  | JArr [a; b] => Return (a, b)
  | JStr [a; b] => Return (JStr [a], JStr [b])
  | JObj [(k1, _); (k2, _)] => Return (JStr k1, JStr k2)
  | JArr _ | JStr _ | JObj _ => Raise ValueError
  | JNull | JBool _ | JInt _ | JFloat _ => Raise TypeError
  end.

(** [status == "ok"] *)
Definition is_ok (status : json) : bool :=
  match status with
  | JStr s => text_eqb s (u "ok")
  | _ => false
  end.

(** [_extract_result(self, output_last_line)]; Python's [None] is
    [JNull], the value [null] decodes to. *)
Definition _extract_result (output_last_line : text) : outcome json :=
  let decoded : outcome (json * json) :=
    if is_empty output_last_line then Return (JNull, JNull)
    else
      match json_loads output_last_line with
      | Raise e => Raise e
      | Return ret0 =>
          match py_len ret0 with
          | Raise e => Raise e
          | Return n =>
              if (n =? 1)%nat then
                match first_item ret0 with
                | Raise e => Raise e
                | Return x => unpack2 (JArr [x; JNull])
                end
              else unpack2 ret0
          end
      end in
  match decoded with
  | Raise e => Raise e
  | Return (status, value) =>
      if is_ok status then Return value
      else
        match value with
        | JStr s =>
            if startswith (u "SyntaxError:") s
            then Raise (RuntimeError (TextArg s))
            else Raise (ProgramError (TextArg s))
        | _ => Raise AttributeError
        end
  end.

(** [re.sub(pattern, ...)] over the runner template: each occurrence of
    a slot is replaced by its text, which is not scanned again.  [skip]
    counts the characters of a matched slot still to be passed over. *)
Fixpoint render (source encoded json2 : text) (skip : nat) (s : text) : text :=
  match s with
  | [] => []
  | c :: r =>
      match skip with
      | S k => render source encoded json2 k r
      | O =>
          if startswith (u "#{source}") s then
            source ++ render source encoded json2 8 r
          else if startswith (u "#{encoded_source}") s then
            encoded ++ render source encoded json2 16 r
          else if startswith (u "#{json2_source}") s then
            json2 ++ render source encoded json2 14 r
          else c :: render source encoded json2 0 r
      end
  end.

(** [_compile(self, source)] *)
Definition _compile (h : host) (self : context) (source : text) : M text :=
  rs <- runner_source (_runtime self) ;;
  let encoded :=
    json_dumps_str
      (u "(function(){ " ++ encode_unicode_codepoints source ++ u " })()") in
  ret (render source encoded (_json2_source h) 0 rs).

(** [tempfile.mkstemp(prefix='execjs', suffix='.js')] and [os.close(fd)]:
    the file exists, empty, when the call returns. *)
Definition make_tempfile (h : host) : M text :=
  fun w =>
    match mkstemp h (files w) with
    | Return filename => (Return filename, set_files w (<[filename := []]> (files w)))
    | Raise e => (Raise e, w)
    end.

(** [with io.open(filename, "w+", encoding=e) as fp: fp.write(s)] *)
Definition write_file (h : host) (filename encoding s : text) : M unit :=
  fun w =>
    match str_encode h encoding s with
    | Return b => (Return tt, set_files w (<[filename := b]> (files w)))
    | Raise e => (Raise e, set_files w (<[filename := []]> (files w)))
    end.

(** [os.remove(filename)]: raises [OSError] when there is no such file. *)
Definition os_remove (filename : text) : M unit :=
  fun w =>
    match files w !! filename with
    | Some _ => (Return tt, set_files w (delete filename (files w)))
    | None => (Raise OSError, w)
    end.

(** The selection [output.split("\n")[-2]] of [exec_], after the
    replacement of the line endings. *)
Definition normalize (output : text) : text :=
  replace_cr (replace_crlf output).

Definition last_line (output : text) : option text :=
  second_to_last (split LF (normalize output)).

(** The first statement of [exec_]: the preamble of the context, when it
    has one, goes before the program. *)
Definition with_preamble (self : context) (source : text) : text :=
  if is_empty (_source self) then source
  else _source self ++ [LF] ++ source.

(** The middle of [exec_], from [tempfile.mkstemp] to the end of
    [try ... finally]: the output of the engine. *)
Definition engine_output (h : host) (self : context) (source : text) : M bytes :=
  filename <- make_tempfile h ;;
  try_finally
    (encoding <- get_encoding (_runtime self) ;;
     compiled <- _compile h self source ;;
     write_file h filename encoding compiled ;;;
     _execfile h (_runtime self) filename)
    (os_remove filename).

(** [exec_(self, source)] *)
Definition exec_ (h : host) (self : context) (source : text) : M json :=
  output <- engine_output h self (with_preamble self source) ;;
  encoding <- get_encoding (_runtime self) ;;
  output <- lift (bytes_decode h encoding output) ;;
  match last_line output with
  | None => raise IndexError
  | Some line => lift (_extract_result line)
  end.

(** The program [eval] synthesizes: [code] in the source. *)
Definition eval_code (source : text) : text :=
  let data :=
    if is_empty (strip source) then u "''"
    else u "'('+" ++ json_dumps_str source ++ u "+')'" in
  u "return eval(" ++ data ++ u ")".

(** [eval(self, source)] *)
Definition eval (h : host) (self : context) (source : text) : M json :=
  exec_ h self (eval_code source).

End Context.

(** ** A POSIX host, to run the definitions on *)

(** [posixpath.join(a, b)] *)
Definition posix_join (a b : text) : text :=
  match b with
  | 47 :: _ => b
  | _ =>
      match rev a with
      | [] => b
      | 47 :: _ => a ++ b
      | _ => a ++ 47 :: b
      end
  end.

(** The codec [ascii]. *)
Definition ascii_encode (s : text) : outcome bytes :=
  fold_right
    (fun c acc =>
       match acc, Byte.of_N c with
       | Return bs, Some b => if c <? 128 then Return (b :: bs) else Raise UnicodeError
       | _, _ => Raise UnicodeError
       end)
    (Return []) s.

Definition ascii_decode (b : bytes) : outcome text :=
  if forallb (fun x => Byte.to_N x <? 128) b
  then Return (List.map Byte.to_N b)
  else Raise UnicodeError.

(** A machine with [/usr/bin/node] and [/usr/bin/js] installed; a
    directory named [js] and a [node] that is not executable come earlier
    on the search path, whose first directory does not exist. *)
Definition demo_stat (f : text) : option N :=
  if text_eqb f (u "/usr/bin/node") then Some 33261
  else if text_eqb f (u "/usr/local/bin/js") then Some 16877
  else if text_eqb f (u "/usr/bin/js") then Some 33261
  else if text_eqb f (u "/usr/local/bin/node") then Some 33188
  else None.

Definition demo_tempfile : text := u "/tmp/execjs4f2a9c.js".

(** The machine, given the value of [EXECJS_RUNTIME] and what the engine
    process prints and returns. *)
Definition demo_host (override : option text) (output : bytes) (status : Z)
  : host :=
  {| environ := fun k =>
       if text_eqb k (u "PATH") then Some (u "/opt/missing:/usr/local/bin:/usr/bin")
       else if text_eqb k (u "EXECJS_RUNTIME") then override
       else None;
     is_windows := false;
     pathsep := 58;
     path_join := posix_join;
     os_stat := demo_stat;
     pyv8_importable := false;
     mkstemp := fun _ => Return demo_tempfile;
     str_encode := fun _ s => ascii_encode s;
     bytes_decode := fun _ b => ascii_decode b;
     popen := fun _ fs => (Return (output, status), fs);
     _json2_source := [] |}.

Definition demo_templates : runner_sources :=
  {| javascriptcore := u "run(#{encoded_source})";
     jscript := u "#{json2_source} run(#{encoded_source})";
     node := u "run(function() { #{source} })";
     phantomjs := u "run(#{encoded_source}); phantom.exit();";
     spidermonkey := u "#{json2_source} run(function() { #{source} })" |}.

Definition empty_world : world := World [] [] empty.

(** A token between double quotes. *)
Definition q (s : string) : text := dq :: u s ++ [dq].

(** ** The locator as the specification words it

    The files the locator may return, directory by directory in the order
    of the search path and, within a directory, suffix by suffix; and what
    makes one of them a match. *)

Definition candidate_files (h : host) (prog : text) (pathext : list text)
  : list text :=
  flat_map
    (fun dir => List.map (fun ext => path_join h dir (prog ++ ext)) pathext)
    (split (pathsep h) (environ_get h (u "PATH") [])).

Definition is_match (h : host) (filename : text) : bool :=
  match os_stat h filename with
  | Some mode => regular_executable mode
  | None => false
  end.

(** The suffixes [_which] passes on. *)
Definition executable_suffixes (h : host) : list text :=
  if is_windows h then split (pathsep h) (environ_get h (u "PATHEXT") [])
  else [[]].

Definition demo : host := demo_host None [] 0.

(** ** What [is_available] computes, as a function of the object *)

(** The result of [_binary()] on an object. *)
Definition located (h : host) (o : runtime) : outcome (option (list text)) :=
  match o with
  | ExternalRuntime _ c _ _ None => _which h c
  | ExternalRuntime _ _ _ _ (Some b) => Return b
  | PyV8Runtime _ => Raise AttributeError
  end.

(** The result of [is_available()] on an object. *)
Definition available (h : host) (o : runtime) : outcome bool :=
  match o with
  | ExternalRuntime _ _ _ _ _ =>
      match located h o with
      | Return b => Return (bool_decide (b <> None))
      | Raise e => Raise e
      end
  | PyV8Runtime a => Return a
  end.

(** The object after the call: [_binary_cache] is set once [_which] has
    returned. *)
Definition probed (h : host) (o : runtime) : runtime :=
  match o with
  | ExternalRuntime n c rs enc None =>
      match _which h c with
      | Return b => ExternalRuntime n c rs enc (Some b)
      | Raise _ => o
      end
  | _ => o
  end.

(** The result of [is_available()] on the object a reference denotes. *)
Definition available_at (h : host) (w : world) (r : nat) : outcome bool :=
  match heap w !! r with
  | Some o => available h o
  | None => Raise AttributeError
  end.

(** The world after the module is imported on the POSIX host. *)
Definition demo_world : world :=
  snd (module_init demo demo_templates empty_world).

(** The POSIX host with [EXECJS_RUNTIME] set. *)
Definition demo_with (override : string) : host :=
  demo_host (Some (u override)) [] 0.

(** The bytes of an ASCII text. *)
Definition ascii_bytes (s : text) : bytes := omap Byte.of_N s.

(** A context on the Node runtime of [demo_world], and one on its
    PhantomJS runtime, which is not installed. *)
Definition node_context : context := MkContext 2 [].
Definition phantomjs_context : context := MkContext 6 [].

(** The POSIX host with an engine that prints [output] and exits with
    [status]. *)
Definition demo_engine (output : text) (status : Z) : host :=
  demo_host None (ascii_bytes output) status.

(** What a runner prints for the value [3]: a blank line, then the
    envelope. *)
Definition ok3_output : text := [LF] ++ u "[" ++ q "ok" ++ u ", 3]" ++ [LF].

(** The attribute [_encoding] of the object a reference denotes, when it
    has one. *)
Definition encoding_at (w : world) (r : nat) : option text :=
  match heap w !! r with
  | Some (ExternalRuntime _ _ _ enc _) => Some enc
  | _ => None
  end.

(** A call that changes the [_encoding] of no object. *)
Definition keeps_encodings {A} (c : M A) : Prop :=
  forall w r, encoding_at (snd (c w)) r = encoding_at w r.

(** ** Registry construction, as the specification words it *)

(** The object built for a candidate command, once it has been probed. *)
Definition candidate_object (h : host) (cls : runtime_class) (kw : keyword_args)
  (c : command) : option runtime :=
  probed h <$> init_runtime h cls c kw.

(** The candidate is found available: [is_available()] of its object
    returns true. *)
Definition candidate_available (h : host) (cls : runtime_class)
  (kw : keyword_args) (c : command) : bool :=
  match candidate_object h cls kw c with
  | Some o =>
      match available h o with
      | Return true => true
      | _ => false
      end
  | None => false
  end.

(** The candidates that get probed: those up to the first available one,
    included. *)
Fixpoint probed_candidates (avail : command -> bool) (commands : list command)
  : list command :=
  match commands with
  | [] => []
  | c :: rest => if avail c then [c] else c :: probed_candidates avail rest
  end.

Definition class_of (c : family_config) : runtime_class :=
  default ClsExternalRuntime (runtime_type c).

(** The objects built for a family, in the order of their construction. *)
Definition family_objects (h : host) (cfg : list (text * family_config))
  (runtime_name : text) : list runtime :=
  match od_get cfg runtime_name with
  | Some c =>
      omap (candidate_object h (class_of c) (kwargs c))
        (probed_candidates (candidate_available h (class_of c) (kwargs c))
           (commands_to_try c))
  | None => []
  end.

(** An entry the constructors accept: it has a candidate, and for an
    [ExternalRuntime] a name, a runner template and commands that are a
    [str] or a list with a first token. *)
Definition well_formed_command (cls : runtime_class) (c : command) : bool :=
  match cls, c with
  | ClsPyV8Runtime, _ => true
  | ClsExternalRuntime, CmdStr _ => true
  | ClsExternalRuntime, CmdList (_ :: _) => true
  | ClsExternalRuntime, _ => false
  end.

Definition well_formed_kwargs (cls : runtime_class) (kw : keyword_args) : bool :=
  match cls, kw_name kw, kw_runner_source kw with
  | ClsPyV8Runtime, _, _ => true
  | ClsExternalRuntime, Some _, Some _ => true
  | ClsExternalRuntime, _, _ => false
  end.

Definition well_formed_family (c : family_config) : bool :=
  match commands_to_try c with [] => false | _ :: _ => true end
  && forallb (well_formed_command (class_of c)) (commands_to_try c)
  && well_formed_kwargs (class_of c) (kwargs c).

(** Every name, primary or alternate, the families are registered under. *)
Definition all_names (cfg : list (text * family_config)) (order : list text)
  : list text :=
  flat_map
    (fun runtime_name =>
       match od_get cfg runtime_name with
       | Some c => family_names runtime_name c
       | None => [runtime_name]
       end)
    order.

(** The tables are well formed: every family of the order has an entry the
    constructors accept, and no name is used twice. *)
Definition well_formed (cfg : list (text * family_config)) (order : list text)
  : Prop :=
  Forall (fun nm => exists c, od_get cfg nm = Some c /\ well_formed_family c = true)
    order
  /\ NoDup (all_names cfg order).

(** A printable ASCII character, from the space to the tilde. *)
Definition printable (c : N) : Prop := 32 <= c /\ c <= 126.

(** ASCII: below U+0080. *)
Definition is_ascii (c : N) : Prop := c < 128.

(** [sep.join(pieces)] *)
Fixpoint join (sep : text) (pieces : list text) : text :=
  match pieces with
  | [] => []
  | [p] => p
  | p :: rest => p ++ sep ++ join sep rest
  end.

(** A character that ends no line. *)
Definition inline (c : N) : Prop := c <> CR /\ c <> LF.

(** ** The runner templates of [runner_source.py]

    Each is the raw string of the source, cut at its double quotes. *)

Definition javascriptcore_template : text :=
  u "(function(program, execJS) { execJS(program) })(function() {
  return eval(#{encoded_source});
}, function(program) {
  var output;
  try {
    result = program();
    print("
  ++ [dq]
  ++ [dq]
  ++ u ");
    if (typeof result == 'undefined' && result !== null) {
      print('["
  ++ [dq]
  ++ u "ok"
  ++ [dq]
  ++ u "]');
    } else {
      try {
        print(JSON.stringify(['ok', result]));
      } catch (err) {
        print('["
  ++ [dq]
  ++ u "err"
  ++ [dq]
  ++ u "]');
      }
    }
  } catch (err) {
    print(JSON.stringify(['err', '' + err]));
  }
});
".

Definition jscript_template : text :=
  u "(function(program, execJS) { execJS(program) })(function() {
  return eval(#{encoded_source});
}, function(program) {
  #{json2_source}
  var output, print = function(string) {
    string = string.replace(/[^\x00-\x7f]/g, function(ch){
      return '\\u' + ('0000' + ch.charCodeAt(0).toString(16)).slice(-4);
    });
    WScript.Echo(string);
  };
  try {
    result = program();
    print("
  ++ [dq]
  ++ [dq]
  ++ u ")
    if (typeof result == 'undefined' && result !== null) {
      print('["
  ++ [dq]
  ++ u "ok"
  ++ [dq]
  ++ u "]');
    } else {
      try {
        print(JSON.stringify(['ok', result]));
      } catch (err) {
        print('["
  ++ [dq]
  ++ u "err"
  ++ [dq]
  ++ u "]');
      }
    }
  } catch (err) {
    print(JSON.stringify(['err', err.name + ': ' + err.message]));
  }
});
".

Definition node_template : text :=
  u "(function(program, execJS) { execJS(program) })(function() { #{source}
}, function(program) {
  var output;
  var print = function(string) {
    process.stdout.write('' + string + '\n');
  };
  try {
    result = program();
    print('')
    if (typeof result == 'undefined' && result !== null) {
      print('["
  ++ [dq]
  ++ u "ok"
  ++ [dq]
  ++ u "]');
    } else {
      try {
        print(JSON.stringify(['ok', result]));
      } catch (err) {
        print('["
  ++ [dq]
  ++ u "err"
  ++ [dq]
  ++ u "]');
      }
    }
  } catch (err) {
    print(JSON.stringify(['err', '' + err]));
  }
});".

Definition phantomjs_template : text :=
  u "
(function(program, execJS) { execJS(program) })(function() {
  return eval(#{encoded_source});
}, function(program) {
  var output;
  var print = function(string) {
    console.log('' + string);
  };
  try {
    result = program();
    print('')
    if (typeof result == 'undefined' && result !== null) {
      print('["
  ++ [dq]
  ++ u "ok"
  ++ [dq]
  ++ u "]');
    } else {
      try {
        print(JSON.stringify(['ok', result]));
      } catch (err) {
        print('["
  ++ [dq]
  ++ u "err"
  ++ [dq]
  ++ u "]');
      }
    }
  } catch (err) {
    print(JSON.stringify(['err', '' + err]));
  }
});
phantom.exit();
".

Definition spidermonkey_template : text :=
  u "(function(program, execJS) { execJS(program) })(function() { #{source}
}, function(program) {
  #{json2_source}
  var output;
  try {
    result = program();
    print("
  ++ [dq]
  ++ [dq]
  ++ u ");
    if (typeof result == 'undefined' && result !== null) {
      print('["
  ++ [dq]
  ++ u "ok"
  ++ [dq]
  ++ u "]');
    } else {
      try {
        print(JSON.stringify(['ok', result]));
      } catch (err) {
        print('["
  ++ [dq]
  ++ u "err"
  ++ [dq]
  ++ u "]');
      }
    }
  } catch (err) {
    print(JSON.stringify(['err', '' + err]));
  }
});
".

(** [slimerjs = phantomjs] *)
Definition runner_source_py : runner_sources :=
  {| javascriptcore := javascriptcore_template;
     jscript := jscript_template;
     node := node_template;
     phantomjs := phantomjs_template;
     spidermonkey := spidermonkey_template |}.

(** The string literal [_compile] puts in the slot [#{encoded_source}]. *)
Definition encoded_source (source : text) : text :=
  json_dumps_str
    (u "(function(){ " ++ encode_unicode_codepoints source ++ u " })()").

(** No character [#]: no slot begins in such a text. *)
Definition slot_free (s : text) : Prop := Forall (fun c => c <> 35) s.

(** The world after the module is imported on the POSIX host, with the
    runner templates of the repository. *)
Definition repo_world : world :=
  snd (module_init demo runner_source_py empty_world).

(** The POSIX host without a search path. *)
Definition demo_no_path : host :=
  {| environ := fun _ => None;
     is_windows := false;
     pathsep := 58;
     path_join := posix_join;
     os_stat := fun f => if text_eqb f (u "node") then Some 33261 else None;
     pyv8_importable := false;
     mkstemp := fun _ => Return demo_tempfile;
     str_encode := fun _ s => ascii_encode s;
     bytes_decode := fun _ b => ascii_decode b;
     popen := fun _ fs => (Return ([], 0%Z), fs);
     _json2_source := [] |}.

(** An object whose availability is decided: a [PyV8Runtime], or an
    [ExternalRuntime] that has its attribute [_binary_cache]. *)
Definition settled (o : runtime) : Prop :=
  match o with
  | ExternalRuntime _ _ _ _ (Some _) => True
  | ExternalRuntime _ _ _ _ None => False
  | PyV8Runtime _ => True
  end.

(** Every runtime of the registry is an object whose availability is
    decided. *)
Definition registry_settled (w : world) : Prop :=
  forall k r, In (k, r) (_runtimes w) ->
              exists o, heap w !! r = Some o /\ settled o.

(** A world with one runtime for the command [js], not yet probed. *)
Definition fresh_js_world : world :=
  World [ExternalRuntime (u "SpiderMonkey") (CmdList [u "js"])
           spidermonkey_template (u "utf8") None] [] empty.

(** ** More of the selector *)

(** [dict(pairs)] *)
Definition dict_of {V} (pairs : list (text * V)) : list (text * V) :=
  fold_left (fun d kv => od_set d (fst kv) (snd kv)) pairs [].

(** The generator of [available_runtimes]:
    [(name, runtime) for name, runtime in _runtimes.items()
     if runtime.is_available()]. *)
Fixpoint available_items (h : host) (items : list (text * nat))
  : M (list (text * nat)) :=
  match items with
  | [] => ret []
  | (nm, r) :: rest =>
      a <- is_available h r ;;
      kept <- available_items h rest ;;
      ret (if a then (nm, r) :: kept else kept)
  end.

(** [available_runtimes()] *)
Definition available_runtimes (h : host) : M (list (text * nat)) :=
  fun w => (items <- available_items h (_runtimes w) ;; ret (dict_of items)) w.

(** Whether the runtime of a reference answers that it is available. *)
Definition is_usable (h : host) (w : world) (r : nat) : bool :=
  match available_at h w r with
  | Return true => true
  | _ => false
  end.

(** ** The methods of [ExternalRuntime] that run a program

    [self] is a reference to an [ExternalRuntime]; [self.Context(self)] is
    a context on it without preamble. *)

Module External.

(** [exec_(self, source)] *)
Definition exec_ (h : host) (self : nat) (source : text) : M json :=
  a <- is_available h self ;;
  if negb a then raise (RuntimeUnavailable NoArg)
  else Context.exec_ h (MkContext self []) source.

(** [eval(self, source)] *)
Definition eval (h : host) (self : nat) (source : text) : M json :=
  a <- is_available h self ;;
  if negb a then raise (RuntimeUnavailable NoArg)
  else Context.eval h (MkContext self []) source.

(** [compile(self, source)] *)
Definition compile (h : host) (self : nat) (source : text) : M context :=
  a <- is_available h self ;;
  if negb a then raise (RuntimeUnavailable NoArg)
  else ret (MkContext self source).

End External.

(** ** [ExternalRuntime.__str__] *)

(** A format string, cut at its replacement fields. *)
Inductive format_item :=
| Literal (t : text)
| Field (name : text).

(** [str.format] with keyword arguments, for replacement fields that are
    plain names: each field is replaced by the keyword argument of its name, and
    a name that is no keyword raises [KeyError]. *)
Fixpoint str_format (template : list format_item) (kwargs : list (text * text))
  : outcome text :=
  match template with
  | [] => Return []
  | Literal t :: rest =>
      match str_format rest kwargs with
      | Return s => Return (t ++ s)
      | Raise e => Raise e
      end
  | Field name :: rest =>
      match od_get kwargs name with
      | None => Raise KeyError
      | Some v =>
          match str_format rest kwargs with
          | Return s => Return (v ++ s)
          | Raise e => Raise e
          end
      end
  end.

(** [__str__(self)]: the keyword arguments are [class_name] and
    [uuntime_name]; an object without the attribute [_name] raises
    [AttributeError]. *)
Definition __str__ (o : runtime) : outcome text :=
  match o with
  | ExternalRuntime _name _ _ _ _ =>
      str_format
        [Field (u "class_name"); Literal (u "("); Field (u "runtime_name");
         Literal (u ")")]
        [(u "class_name", u "ExternalRuntime"); (u "uuntime_name", _name)]
  | PyV8Runtime _ => Raise AttributeError
  end.

(** ** The string literals of [json.dumps] *)

(** A code point the literal can carry: a code point of [str] that is not
    a high surrogate. *)
Definition carried (c : N) : Prop :=
  c < 1114112 /\ ~ (55296 <= c /\ c <= 56319).

(** * Properties *)

(** ** Hexadecimal formatting *)

Lemma hex_digit_lower d : d < 16 -> is_lower_hex (hex_digit d) = true.
Proof.
  intros Hd. unfold is_lower_hex, hex_digit.
  destruct (N.ltb_spec d 10);
    repeat match goal with
      | |- context [?a <=? ?b] => destruct (N.leb_spec a b)
      end; simpl; try reflexivity; lia.
Qed.

Lemma hex_val_digit d : d < 16 -> hex_val (hex_digit d) = d.
Proof.
  intros Hd. unfold hex_val, hex_digit.
  destruct (N.ltb_spec d 10);
    match goal with |- context [?a <=? ?b] => destruct (N.leb_spec a b) end; lia.
Qed.

Lemma hex_value_snoc ds c : hex_value (ds ++ [c]) = 16 * hex_value ds + hex_val c.
Proof. unfold hex_value. rewrite fold_left_app. reflexivity. Qed.

Lemma hex_aux_acc fuel : forall n acc, hex_aux fuel n acc = hex_aux fuel n [] ++ acc.
Proof.
  induction fuel as [|f IH]; intros n acc; simpl; [reflexivity|].
  destruct (n / 16 =? 0); [reflexivity|].
  rewrite IH, (IH _ [_]), <- app_assoc. reflexivity.
Qed.

Lemma hex_aux_step f n :
  hex_aux (S f) n [] =
  if n / 16 =? 0 then [hex_digit (n mod 16)]
  else hex_aux f (n / 16) [] ++ [hex_digit (n mod 16)].
Proof. simpl. destruct (n / 16 =? 0); [reflexivity|]. apply hex_aux_acc. Qed.

Lemma pow16_S f : 16 ^ N.of_nat (S f) = 16 * 16 ^ N.of_nat f.
Proof. rewrite Nat2N.inj_succ, N.pow_succ_r'. reflexivity. Qed.

(** With fuel for every digit, the digits are lowercase hexadecimal, denote
    the number, and none of them is superfluous. *)
Lemma hex_aux_spec f : forall n,
  n < 16 ^ N.of_nat f ->
  Forall (fun c => is_lower_hex c = true) (hex_aux f n [])
  /\ hex_value (hex_aux f n []) = n
  /\ forall k, n < 16 ^ N.of_nat (S k) -> (List.length (hex_aux f n []) <= S k)%nat.
Proof.
  induction f as [|f IH]; intros n Hn.
  - simpl in Hn. assert (n = 0) by lia. subst. simpl. repeat split; auto.
    intros; simpl; lia.
  - rewrite hex_aux_step. rewrite pow16_S in Hn.
    assert (Hm : n mod 16 < 16) by (apply N.mod_lt; lia).
    pose proof (N.div_mod n 16 ltac:(lia)) as Hdm.
    destruct (N.eqb_spec (n / 16) 0) as [Hz|Hz].
    + repeat split.
      * constructor; [apply hex_digit_lower; assumption|constructor].
      * unfold hex_value; simpl. rewrite hex_val_digit by assumption. lia.
      * intros; simpl; lia.
    + assert (Hq : n / 16 < 16 ^ N.of_nat f)
        by (apply N.Div0.div_lt_upper_bound; lia).
      destruct (IH _ Hq) as (Hall & Hval & Hlen).
      repeat split.
      * apply Forall_app; split; [assumption|].
        constructor; [apply hex_digit_lower; assumption|constructor].
      * rewrite hex_value_snoc, Hval, hex_val_digit by assumption. lia.
      * intros k Hk. rewrite length_app. simpl.
        destruct k as [|k].
        { simpl in Hk. exfalso. apply Hz. apply N.div_small. lia. }
        rewrite pow16_S in Hk.
        assert (n / 16 < 16 ^ N.of_nat (S k))
          by (apply N.Div0.div_lt_upper_bound; lia).
        specialize (Hlen k ltac:(assumption)). lia.
Qed.

Lemma format_x_fuel n : n < 16 ^ N.of_nat (S (N.to_nat (N.log2 n))).
Proof.
  destruct (N.eq_dec n 0) as [->|Hn]; [reflexivity|].
  destruct (N.log2_spec n ltac:(lia)) as [_ Hlt].
  rewrite Nat2N.inj_succ, N2Nat.id.
  eapply N.lt_le_trans; [exact Hlt|].
  apply N.pow_le_mono_l. lia.
Qed.

Lemma format_x_nonempty n : format_x n <> [].
Proof.
  unfold format_x. rewrite hex_aux_step.
  destruct (n / 16 =? 0); [discriminate|].
  intros H. apply app_eq_nil in H. destruct H; discriminate.
Qed.

Lemma hex_value_zeros k ds : hex_value (List.repeat 48 k ++ ds) = hex_value ds.
Proof.
  unfold hex_value. rewrite fold_left_app. f_equal.
  induction k as [|k IH]; [reflexivity|]. simpl. exact IH.
Qed.

Lemma hex_value_bound ds :
  Forall (fun c => is_lower_hex c = true) ds ->
  hex_value ds < 16 ^ N.of_nat (List.length ds).
Proof.
  induction ds as [|c ds IH] using rev_ind; intros Hall; [reflexivity|].
  apply Forall_app in Hall. destruct Hall as [Hds Hc].
  rewrite hex_value_snoc, length_app. simpl.
  replace (List.length ds + 1)%nat with (S (List.length ds)) by lia.
  rewrite pow16_S. specialize (IH Hds).
  assert (hex_val c < 16).
  { inversion Hc as [|? ? Hx _]; subst. unfold is_lower_hex in Hx. unfold hex_val.
    destruct (N.leb_spec c 57);
      repeat match type of Hx with
        | context [?a <=? ?b] => destruct (N.leb_spec a b)
        end; simpl in Hx; try discriminate; lia. }
  lia.
Qed.

(** [format(n, '04x')] of a number below 0x10000: exactly four lowercase
    hexadecimal digits, which denote the number. *)
Lemma format_04x_bmp n :
  n < 65536 ->
  List.length (format_04x n) = 4%nat
  /\ Forall (fun c => is_lower_hex c = true) (format_04x n)
  /\ hex_value (format_04x n) = n.
Proof.
  intros Hn. unfold format_04x, format_x.
  destruct (hex_aux_spec _ n (format_x_fuel n)) as (Hall & Hval & Hlen).
  specialize (Hlen 3%nat Hn).
  repeat split.
  - rewrite length_app, repeat_length. lia.
  - apply Forall_app; split; [|assumption].
    apply List.Forall_forall. intros x Hx. apply repeat_spec in Hx. subst. reflexivity.
  - rewrite hex_value_zeros. exact Hval.
Qed.

(** [format(n, '04x')] of a number from 0x10000 on: no padding, and more
    than four digits. *)
Lemma format_04x_astral n :
  65536 <= n ->
  format_04x n = format_x n /\ (4 < List.length (format_04x n))%nat.
Proof.
  intros Hn.
  destruct (hex_aux_spec _ n (format_x_fuel n)) as (Hall & Hval & _).
  fold (format_x n) in Hall, Hval.
  assert (Hlen : (4 < List.length (format_x n))%nat).
  { pose proof (hex_value_bound _ Hall) as Hb. rewrite Hval in Hb.
    destruct (le_lt_dec (List.length (format_x n)) 4) as [Hle|]; [|assumption].
    exfalso.
    assert (16 ^ N.of_nat (List.length (format_x n)) <= 16 ^ 4)
      by (apply N.pow_le_mono_r; lia).
    change (16 ^ 4) with 65536 in *. lia. }
  unfold format_04x.
  replace (4 - List.length (format_x n))%nat with 0%nat by lia.
  simpl. split; [reflexivity|assumption].
Qed.

(** ** [encode_unicode_codepoints] *)

(** Identity on the ASCII range. *)
Lemma encode_ascii_identity (s : text) :
  Forall (fun c => c < 128) s -> encode_unicode_codepoints s = s.
Proof.
  induction 1 as [|c s Hc _ IH]; [reflexivity|].
  unfold encode_unicode_codepoints in *. simpl.
  destruct (N.leb_spec c 127); [|lia]. simpl. f_equal. exact IH.
Qed.

(** What the function does to each character: an ASCII character is kept,
    any other becomes [codepoint c]. *)
Lemma encode_cons c s :
  encode_unicode_codepoints (c :: s) =
  (if c <=? 127 then [c] else codepoint c) ++ encode_unicode_codepoints s.
Proof. reflexivity. Qed.

(** A code point of the Basic Multilingual Plane outside ASCII becomes a
    backslash, [u] and exactly four lowercase hexadecimal digits that
    denote it. *)
Lemma codepoint_bmp c :
  c < 65536 ->
  exists h, codepoint c = u "\u" ++ h
            /\ List.length h = 4%nat
            /\ Forall (fun d => is_lower_hex d = true) h
            /\ hex_value h = c.
Proof.
  intros Hc. exists (format_04x c).
  destruct (format_04x_bmp c Hc) as (? & ? & ?). auto.
Qed.

(** A code point above U+FFFF becomes a backslash, [u] and more than four
    hexadecimal digits. *)
Lemma codepoint_astral c :
  65536 <= c ->
  exists h, codepoint c = u "\u" ++ h /\ (4 < List.length h)%nat.
Proof.
  intros Hc. exists (format_04x c). split; [reflexivity|].
  apply format_04x_astral. exact Hc.
Qed.

(** C3: on the string of the single code point U+1F600 the function returns
    a backslash, [u] and the five digits [1f600]: the output is not a
    four-digit escape, as the claim has it for every code point from 0x80
    on whatever its size.  (ASCII text is returned unchanged,
    [encode_ascii_identity], and up to U+FFFF the escape has exactly four
    digits, [codepoint_bmp].) *)
Theorem encode_unicode_codepoints_astral :
  encode_unicode_codepoints [128512] = u "\u1f600"
  /\ ~ (exists h, List.length h = 4%nat
                  /\ encode_unicode_codepoints [128512] = u "\u" ++ h).
Proof.
  split; [reflexivity|].
  intros (h & Hlen & Heq).
  apply (f_equal (@List.length N)) in Heq.
  rewrite length_app, Hlen in Heq. vm_compute in Heq. discriminate.
Qed.

(** ** Result extraction *)

(** C1, as the code has it: the lines [["ok", 3]] and [["ok"]] return [3]
    and [None], the lines [["err","SyntaxError: x"]] and
    [["err","ReferenceError: x"]] raise [RuntimeError] and [ProgramError],
    each with the message of the envelope; the empty line is no success:
    its [status] is [None], not ["ok"], and no value is returned for it. *)
Theorem extract_result_envelopes :
  Context._extract_result (u "[" ++ q "ok" ++ u ", 3]") = Return (JInt 3)
  /\ Context._extract_result (u "[" ++ q "ok" ++ u "]") = Return JNull
  /\ (forall v, Context._extract_result [] <> Return v)
  /\ Context._extract_result (u "[" ++ q "err" ++ u "," ++ q "SyntaxError: x" ++ u "]")
     = Raise (RuntimeError (TextArg (u "SyntaxError: x")))
  /\ Context._extract_result (u "[" ++ q "err" ++ u "," ++ q "ReferenceError: x" ++ u "]")
     = Raise (ProgramError (TextArg (u "ReferenceError: x"))).
Proof.
  split; [vm_compute; reflexivity|].
  split; [vm_compute; reflexivity|].
  split; [intros v; discriminate|].
  split; vm_compute; reflexivity.
Qed.

(** The empty line does not return [None]: [status == "ok"] is false for
    it, and the test [value.startswith('SyntaxError:')] that follows is
    made on [None], which raises [AttributeError]. *)
Lemma extract_result_empty_line :
  Context._extract_result [] = Raise AttributeError
  /\ Context._extract_result [] <> Return JNull.
Proof. split; [reflexivity|discriminate]. Qed.

(** C2: a line that decodes to an array of one element whose status is not
    ["ok"] raises [AttributeError], not [ProgramError]: the value is
    [None], which has no [startswith]. *)
Theorem extract_result_status_only (line : text) (status : json) :
  json_loads line = Return (JArr [status]) ->
  Context.is_ok status = false ->
  Context._extract_result line = Raise AttributeError.
Proof.
  intros Hload Hok. unfold Context._extract_result.
  destruct line as [|c line]; [discriminate Hload|].
  cbn [is_empty]. rewrite Hload. cbn. rewrite Hok. reflexivity.
Qed.

(** The fallback line [["err"]] of the runner templates. *)
Lemma extract_result_err_only :
  json_loads (u "[" ++ q "err" ++ u "]") = Return (JArr [JStr (u "err")])
  /\ Context.is_ok (JStr (u "err")) = false
  /\ Context._extract_result (u "[" ++ q "err" ++ u "]") = Raise AttributeError.
Proof.
  split; [reflexivity|]. split; [reflexivity|].
  apply (extract_result_status_only _ (JStr (u "err"))); reflexivity.
Defined.

(** ** Binary locator *)

Lemma find_in_dir_find h prog dir pathext :
  find_in_dir h prog dir pathext =
  List.find (is_match h) (List.map (fun ext => path_join h dir (prog ++ ext)) pathext).
Proof.
  induction pathext as [|ext rest IH]; [reflexivity|].
  cbn [find_in_dir List.map List.find]. unfold is_match at 1.
  destruct (os_stat h (path_join h dir (prog ++ ext))) as [mode|]; [|exact IH].
  destruct (regular_executable mode); [reflexivity|exact IH].
Qed.

Lemma find_app {A} (f : A -> bool) (l1 l2 : list A) :
  List.find f (l1 ++ l2) =
  match List.find f l1 with
  | Some x => Some x
  | None => List.find f l2
  end.
Proof.
  induction l1 as [|a l1 IH]; [reflexivity|].
  simpl. destruct (f a); [reflexivity|exact IH].
Qed.

(** [_find_executable] returns the first match among the candidate files,
    directories outermost and suffixes innermost. *)
Lemma find_executable_first_match h prog pathext :
  _find_executable h prog pathext =
  List.find (is_match h) (candidate_files h prog pathext).
Proof.
  unfold _find_executable, candidate_files.
  induction (split (pathsep h) (environ_get h (u "PATH") [])) as [|dir rest IH];
    [reflexivity|].
  cbn [find_in_path flat_map]. rewrite find_app, <- find_in_dir_find.
  destruct (find_in_dir h prog dir pathext); [reflexivity|exact IH].
Qed.

(** C8: for a command of at least one token, [_which] returns, without
    raising, the first match for the first token among the candidate files
    (search-path order outermost, suffix order innermost; a file whose
    [os.stat] fails is no match), followed by the remaining tokens
    unchanged; it returns [None] when no candidate matches. *)
Theorem which_first_match (h : host) (c : command) (name : text) (args : list text) :
  command_tokens c = Return (name :: args) ->
  _which h c =
  Return
    (match List.find (is_match h) (candidate_files h name (executable_suffixes h)) with
     | Some path => if is_empty path then None else Some (path :: args)
     | None => None
     end).
Proof.
  intros Hc. unfold _which. rewrite Hc.
  rewrite <- find_executable_first_match. unfold executable_suffixes.
  destruct (is_windows h);
    match goal with
    | |- context [_find_executable ?a ?b ?c] => destruct (_find_executable a b c) as [[|x p]|]
    end; reflexivity.
Qed.

(** On the POSIX host: [/usr/local/bin/node] is not executable, so the
    search goes on to [/usr/bin/node]; the flag is passed through. *)
Lemma which_first_match_witness :
  command_tokens (CmdList [u "node"; u "--harmony"])
  = Return [u "node"; u "--harmony"]
  /\ _which demo (CmdList [u "node"; u "--harmony"])
     = Return (Some [u "/usr/bin/node"; u "--harmony"]).
Proof.
  split; [reflexivity|].
  exact (which_first_match demo (CmdList [u "node"; u "--harmony"])
           (u "node") [u "--harmony"] eq_refl).
Defined.

(** ** [Context.eval] *)

Lemma lstrip_nil_iff s : lstrip s = [] <-> forallb py_isspace s = true.
Proof.
  induction s as [|c s IH]; [split; reflexivity|].
  simpl. destruct (py_isspace c); simpl; [exact IH|].
  split; discriminate.
Qed.

Lemma forallb_rev {A} (f : A -> bool) (l : list A) :
  forallb f (rev l) = forallb f l.
Proof.
  induction l as [|a l IH]; [reflexivity|].
  simpl. rewrite forallb_app, IH. simpl. rewrite andb_true_r. apply andb_comm.
Qed.

Lemma lstrip_head s : lstrip s = [] \/ exists c r, lstrip s = c :: r /\ py_isspace c = false.
Proof.
  induction s as [|c s IH]; [left; reflexivity|].
  simpl. destruct (py_isspace c) eqn:Hc; [exact IH|].
  right. exists c, s. auto.
Qed.

(** [not source.strip()] holds exactly of the strings made of whitespace. *)
Lemma strip_empty s : is_empty (strip s) = forallb py_isspace s.
Proof.
  unfold strip.
  destruct (forallb py_isspace s) eqn:Hs.
  - apply lstrip_nil_iff in Hs. rewrite Hs. reflexivity.
  - destruct (lstrip_head s) as [Hn|(c & r & Hl & Hc)].
    + apply lstrip_nil_iff in Hn. congruence.
    + destruct (rev (lstrip (rev (lstrip s)))) as [|x l] eqn:Hr; [|reflexivity].
      exfalso.
      apply (f_equal (@rev N)) in Hr. rewrite rev_involutive in Hr. simpl in Hr.
      apply lstrip_nil_iff in Hr. rewrite forallb_rev, Hl in Hr.
      simpl in Hr. rewrite Hc in Hr. discriminate.
Qed.

Lemma lower_hex_printable c : is_lower_hex c = true -> printable c.
Proof.
  unfold is_lower_hex, printable. intros H.
  repeat match type of H with
    | context [?a <=? ?b] => destruct (N.leb_spec a b)
    end; simpl in H; try discriminate; lia.
Qed.

Lemma format_04x_printable n : Forall printable (format_04x n).
Proof.
  unfold format_04x. apply Forall_app. split.
  - apply List.Forall_forall. intros x Hx. apply repeat_spec in Hx. subst.
    unfold printable. lia.
  - destruct (hex_aux_spec _ n (format_x_fuel n)) as (Hall & _ & _).
    unfold format_x. eapply Forall_impl; [exact Hall|].
    intros c Hc. apply lower_hex_printable. exact Hc.
Qed.

Lemma escape_ascii_printable c : Forall printable (escape_ascii c).
Proof.
  assert (Hu : Forall printable (u "\u")) by (repeat constructor; unfold printable; simpl; lia).
  unfold escape_ascii.
  repeat match goal with
    | |- context [if ?a =? ?b then _ else _] => destruct (N.eqb_spec a b)
    end; try (repeat constructor; unfold printable; simpl; lia).
  destruct ((32 <=? c) && (c <=? 126)) eqn:Hp.
  - apply andb_true_iff in Hp. destruct Hp as [H1 H2].
    apply N.leb_le in H1, H2. repeat constructor; assumption.
  - destruct (c <? 65536).
    + apply Forall_app. split; [exact Hu|apply format_04x_printable].
    + apply Forall_app. split; [exact Hu|].
      apply Forall_app. split; [apply format_04x_printable|].
      apply Forall_app. split; [exact Hu|apply format_04x_printable].
Qed.

(** The literal [json.dumps(source, ensure_ascii=True)] is made of
    printable ASCII characters only. *)
Lemma json_dumps_str_printable s : Forall printable (json_dumps_str s).
Proof.
  unfold json_dumps_str. constructor; [unfold printable, dq; lia|].
  apply Forall_app. split; [|repeat constructor; unfold printable, dq; lia].
  induction s as [|c s IH]; [constructor|].
  simpl. apply Forall_app. split; [apply escape_ascii_printable|exact IH].
Qed.

(** C7, as the code has it: [eval] calls [exec_] on [return eval('')] for
    an expression that is empty or made of whitespace, and otherwise on
    [return eval('('+L+')')], where [L] is the expression as a double-quoted
    literal of printable ASCII characters: the literal is put between
    parentheses by concatenation, it is not the argument of [eval] itself. *)
Theorem eval_delegates_to_exec (h : host) (self : context) (source : text) :
  (forallb py_isspace source = true ->
   Context.eval h self source = Context.exec_ h self (u "return eval('')"))
  /\ (forallb py_isspace source = false ->
      Context.eval h self source =
      Context.exec_ h self
        (u "return eval('('+" ++ json_dumps_str source ++ u "+')')"))
  /\ (exists body, json_dumps_str source = dq :: body ++ [dq])
  /\ Forall printable (json_dumps_str source).
Proof.
  unfold Context.eval, Context.eval_code. rewrite strip_empty.
  repeat split.
  - intros ->. reflexivity.
  - intros ->. f_equal. cbn [app u List.map list_ascii_of_string].
    rewrite <- !app_assoc. reflexivity.
  - eexists. reflexivity.
  - apply json_dumps_str_printable.
Qed.

(** For the expression [1] the program is [return eval('('+"1"+')')]: what
    stands between [return eval(] and the closing parenthesis is not a
    double-quoted literal. *)
Lemma eval_code_not_bare_literal :
  Context.eval_code (u "1")
  = u "return eval('('+" ++ q "1" ++ u "+')')"
  /\ ~ (exists body,
          Context.eval_code (u "1")
          = u "return eval(" ++ (dq :: body ++ [dq]) ++ u ")").
Proof.
  split; [reflexivity|].
  intros (body & H). vm_compute in H. discriminate H.
Qed.

(** ** Availability *)

Section Availability.

Variable h : host.

Lemma set_heap_same w r o :
  heap w !! r = Some o -> set_heap w (<[r := o]> (heap w)) = w.
Proof.
  intros H. destruct w as [hp d fs]. unfold set_heap. simpl in *.
  rewrite list_insert_id by exact H. reflexivity.
Qed.

(** [is_available] returns what [available] says of the object and leaves
    the object [probed]. *)
Lemma is_available_run r w o :
  heap w !! r = Some o ->
  is_available h r w
  = (available h o, set_heap w (<[r := probed h o]> (heap w))).
Proof.
  intros H. unfold is_available, bind, get_object. rewrite H.
  destruct o as [n c rs enc [b|]|a]; cbn [probed available located].
  - unfold _binary, bind, get_object. rewrite H. cbn.
    rewrite set_heap_same by exact H. reflexivity.
  - unfold _binary, bind, get_object, lift. rewrite H.
    destruct (_which h c) as [b|e]; cbn.
    + reflexivity.
    + rewrite set_heap_same by exact H. reflexivity.
  - cbn. rewrite set_heap_same by exact H. reflexivity.
Qed.

Lemma is_available_dangling r w :
  heap w !! r = None -> is_available h r w = (Raise AttributeError, w).
Proof. intros H. unfold is_available, bind, get_object. rewrite H. reflexivity. Qed.

Lemma available_probed o : available h (probed h o) = available h o.
Proof.
  destruct o as [n c rs enc [b|]|a]; cbn; try reflexivity.
  destruct (_which h c) eqn:Hw; cbn; [reflexivity|].
  rewrite Hw. reflexivity.
Qed.

Lemma name_probed o : name (probed h o) = name o.
Proof.
  destruct o as [n c rs enc [b|]|a]; cbn; try reflexivity.
  destruct (_which h c); reflexivity.
Qed.

(** A call of [is_available] returns [available_at], and changes neither
    the registry, nor the files, nor what any later call returns. *)
Lemma is_available_step r w :
  exists w',
    is_available h r w = (available_at h w r, w')
    /\ _runtimes w' = _runtimes w
    /\ files w' = files w
    /\ (forall x, available_at h w' x = available_at h w x)
    /\ (forall x, name <$> (heap w' !! x) = name <$> (heap w !! x)).
Proof.
  unfold available_at.
  destruct (heap w !! r) as [o|] eqn:Ho.
  - eexists. split; [apply is_available_run; exact Ho|].
    cbn. repeat split; intros x.
    + destruct (decide (x = r)) as [->|Hne].
      * rewrite list_lookup_insert_eq by (eapply lookup_lt_Some; exact Ho).
        rewrite Ho. apply available_probed.
      * rewrite list_lookup_insert_ne by congruence. reflexivity.
    + destruct (decide (x = r)) as [->|Hne].
      * rewrite list_lookup_insert_eq by (eapply lookup_lt_Some; exact Ho).
        rewrite Ho. cbn. rewrite name_probed. reflexivity.
      * rewrite list_lookup_insert_ne by congruence. reflexivity.
  - exists w. split; [apply is_available_dangling; exact Ho|].
    repeat split.
Qed.

(** The loop of [_auto_detect] returns the first available runtime. *)
Lemma first_available_found pre : forall w r post,
  Forall (fun x => available_at h w x = Return false) pre ->
  available_at h w r = Return true ->
  exists w', first_available h (pre ++ r :: post) w = (Return r, w').
Proof.
  induction pre as [|x pre IH]; intros w r post Hpre Hr; cbn [app first_available].
  - destruct (is_available_step r w) as (w' & Hrun & _).
    exists w'. unfold bind. rewrite Hrun, Hr. reflexivity.
  - inversion Hpre as [|? ? Hx Hrest]; subst.
    destruct (is_available_step x w) as (w' & Hrun & _ & _ & Hav & _).
    unfold bind. rewrite Hrun, Hx.
    apply IH.
    + eapply Forall_impl; [exact Hrest|]. intros y Hy. cbn. rewrite Hav. exact Hy.
    + rewrite Hav. exact Hr.
Qed.

Lemma first_available_none vals : forall w,
  Forall (fun x => available_at h w x = Return false) vals ->
  exists w',
    first_available h vals w
    = (Raise (RuntimeUnavailable (TextArg (u "Could not find a JavaScript runtime."))), w').
Proof.
  induction vals as [|x vals IH]; intros w Hall; cbn [first_available].
  - exists w. reflexivity.
  - inversion Hall as [|? ? Hx Hrest]; subst.
    destruct (is_available_step x w) as (w' & Hrun & _ & _ & Hav & _).
    unfold bind. rewrite Hrun, Hx.
    apply IH. eapply Forall_impl; [exact Hrest|].
    intros y Hy. cbn. rewrite Hav. exact Hy.
Qed.

(** [get(name)] on a name of the registry. *)
Lemma get_named_known nm w r o :
  od_get (_runtimes w) nm = Some r ->
  heap w !! r = Some o ->
  fst (get_named h nm w) =
  match available h o with
  | Return true => Return r
  | Return false =>
      Raise (RuntimeUnavailable
               (TextArg (name o ++ u " runtime is not available on this system")))
  | Raise e => Raise e
  end.
Proof.
  intros Hreg Ho. unfold get_named, bind, runtimes. rewrite Hreg.
  destruct (is_available_step r w) as (w' & Hrun & _ & _ & _ & Hname).
  rewrite Hrun. unfold available_at. rewrite Ho.
  destruct (available h o) as [[|]|e]; cbn; try reflexivity.
  specialize (Hname r). rewrite Ho in Hname. cbn in Hname.
  unfold get_object. destruct (heap w' !! r) as [o'|]; [|discriminate].
  cbn in *. injection Hname as ->. reflexivity.
Qed.

Lemma get_named_unknown nm w :
  od_get (_runtimes w) nm = None ->
  get_named h nm w
  = (Raise (RuntimeUnavailable (TextArg (nm ++ u " runtime is not defined"))), w).
Proof. intros Hreg. unfold get_named, bind, runtimes. rewrite Hreg. reflexivity. Qed.

End Availability.

(** ** Selector *)

(** C5: for a name that is not in the registry, [get(name)] raises
    [RuntimeUnavailable] with the message [<name> runtime is not defined];
    for a name of the registry whose runtime is not available, it raises
    [RuntimeUnavailable] with the message [<runtime.name> runtime is not
    available on this system]. *)
Theorem get_unknown_or_unavailable (h : host) (w : world) (nm : text) :
  (od_get (_runtimes w) nm = None ->
   get h (Some nm) w
   = (Raise (RuntimeUnavailable (TextArg (nm ++ u " runtime is not defined"))), w))
  /\ (forall r o,
        od_get (_runtimes w) nm = Some r ->
        heap w !! r = Some o ->
        available h o = Return false ->
        fst (get h (Some nm) w)
        = Raise (RuntimeUnavailable
                   (TextArg (name o ++ u " runtime is not available on this system")))).
Proof.
  split.
  - apply get_named_unknown.
  - intros r o Hreg Ho Hav. cbn [get].
    rewrite (get_named_known h nm w r o Hreg Ho), Hav. reflexivity.
Qed.

(** On the POSIX host no family is called [Zzz], and PhantomJS is known
    but not installed. *)
Lemma get_unknown_or_unavailable_witness :
  fst (get demo (Some (u "Zzz")) demo_world)
  = Raise (RuntimeUnavailable (TextArg (u "Zzz runtime is not defined")))
  /\ fst (get demo (Some (u "PhantomJS")) demo_world)
     = Raise (RuntimeUnavailable
                (TextArg (u "PhantomJS runtime is not available on this system"))).
Proof.
  split.
  - rewrite (proj1 (get_unknown_or_unavailable demo demo_world (u "Zzz")) eq_refl).
    reflexivity.
  - exact (proj2 (get_unknown_or_unavailable demo demo_world (u "PhantomJS"))
             6%nat
             (ExternalRuntime (u "PhantomJS") (CmdList [u "phantomjs"])
                (phantomjs demo_templates) (u "utf8") (Some None))
             eq_refl eq_refl eq_refl).
Defined.

(** C4: [get()] without a name.  When [EXECJS_RUNTIME] is absent or empty,
    the first runtime of the registry, in its order, whose [is_available()]
    is true is returned, and [RuntimeUnavailable] is raised when none is
    available.  When the variable names an available runtime of the
    registry, that runtime is returned; when it names no runtime of the
    registry, or one that is not available, [RuntimeUnavailable] is raised
    with the message of [get(name)], whatever the other runtimes. *)
Theorem get_auto_detect (h : host) (w : world) :
  (environ h (u "EXECJS_RUNTIME") = None
   \/ environ h (u "EXECJS_RUNTIME") = Some [] ->
   (forall pre r post,
      od_values (_runtimes w) = pre ++ r :: post ->
      Forall (fun x => available_at h w x = Return false) pre ->
      available_at h w r = Return true ->
      fst (get h None w) = Return r)
   /\ (Forall (fun x => available_at h w x = Return false) (od_values (_runtimes w)) ->
       fst (get h None w)
       = Raise (RuntimeUnavailable (TextArg (u "Could not find a JavaScript runtime.")))))
  /\ (forall nm,
        environ h (u "EXECJS_RUNTIME") = Some nm -> nm <> [] ->
        (forall r,
           od_get (_runtimes w) nm = Some r ->
           available_at h w r = Return true ->
           fst (get h None w) = Return r)
        /\ (od_get (_runtimes w) nm = None ->
            fst (get h None w)
            = Raise (RuntimeUnavailable (TextArg (nm ++ u " runtime is not defined"))))
        /\ (forall r o,
              od_get (_runtimes w) nm = Some r ->
              heap w !! r = Some o ->
              available h o = Return false ->
              fst (get h None w)
              = Raise (RuntimeUnavailable
                         (TextArg (name o ++ u " runtime is not available on this system"))))).
Proof.
  split.
  - intros Henv.
    assert (Hnone : get_from_environment h w = (Return None, w)).
    { unfold get_from_environment. destruct Henv as [-> | ->]; reflexivity. }
    split.
    + intros pre r post Hvals Hpre Hr.
      cbn [get]. unfold _auto_detect, bind. rewrite Hnone, Hvals.
      destruct (first_available_found h pre w r post Hpre Hr) as (w' & ->).
      reflexivity.
    + intros Hall.
      cbn [get]. unfold _auto_detect, bind. rewrite Hnone.
      destruct (first_available_none h _ w Hall) as (w' & ->).
      reflexivity.
  - intros nm Henv Hnm.
    assert (Hget : fst (get h None w) = fst (get_named h nm w)).
    { cbn [get]. unfold _auto_detect, bind at 1. unfold get_from_environment.
      rewrite Henv. destruct nm as [|c nm]; [congruence|]. cbn [is_empty].
      unfold bind. destruct (get_named h (c :: nm) w) as [[r|e] w']; reflexivity. }
    rewrite Hget. repeat split.
    + intros r Hreg Hav. unfold available_at in Hav.
      destruct (heap w !! r) as [o|] eqn:Ho; [|discriminate].
      rewrite (get_named_known h nm w r o Hreg Ho), Hav. reflexivity.
    + intros Hreg. rewrite get_named_unknown by exact Hreg. reflexivity.
    + intros r o Hreg Ho Hav.
      rewrite (get_named_known h nm w r o Hreg Ho), Hav. reflexivity.
Qed.

(** On the POSIX host: without the variable, PyV8 is skipped and Node is
    returned; with it, SpiderMonkey is returned when named, and naming the
    missing PhantomJS or the unknown [Zzz] raises although Node is
    available. *)
Lemma get_auto_detect_witness :
  fst (get demo None demo_world) = Return 2%nat
  /\ fst (get (demo_with "SpiderMonkey") None demo_world) = Return 4%nat
  /\ fst (get (demo_with "PhantomJS") None demo_world)
     = Raise (RuntimeUnavailable
                (TextArg (u "PhantomJS runtime is not available on this system")))
  /\ fst (get (demo_with "Zzz") None demo_world)
     = Raise (RuntimeUnavailable (TextArg (u "Zzz runtime is not defined"))).
Proof.
  split; [|split; [|split]].
  - destruct (get_auto_detect demo demo_world) as [H _].
    destruct (H (or_introl eq_refl)) as [H1 _].
    apply (H1 [0%nat] 2%nat [3; 4; 4; 5; 6; 7]%nat);
      [reflexivity | repeat constructor | reflexivity].
  - destruct (get_auto_detect (demo_with "SpiderMonkey") demo_world) as [_ H].
    destruct (H (u "SpiderMonkey") eq_refl ltac:(discriminate)) as [H1 _].
    apply H1; reflexivity.
  - destruct (get_auto_detect (demo_with "PhantomJS") demo_world) as [_ H].
    destruct (H (u "PhantomJS") eq_refl ltac:(discriminate)) as (_ & _ & H3).
    exact (H3 6%nat
             (ExternalRuntime (u "PhantomJS") (CmdList [u "phantomjs"])
                (phantomjs demo_templates) (u "utf8") (Some None))
             eq_refl eq_refl eq_refl).
  - destruct (get_auto_detect (demo_with "Zzz") demo_world) as [_ H].
    destruct (H (u "Zzz") eq_refl ltac:(discriminate)) as (_ & H2 & _).
    rewrite (H2 eq_refl). reflexivity.
Defined.

(** ** [Context.exec_]: the temporary file *)

Section TemporaryFile.

Variable h : host.

Lemma get_encoding_world r w : snd (get_encoding r w) = w.
Proof.
  unfold get_encoding, bind, get_object.
  destruct (heap w !! r) as [[]|]; reflexivity.
Qed.

(** After [try: body finally: os.remove(filename)] there is no file of
    that name, however the body ends and whatever it did to the files. *)
Lemma try_finally_removes {A} (body : M A) filename w :
  files (snd (try_finally body (Context.os_remove filename) w)) !! filename = None.
Proof.
  unfold try_finally, Context.os_remove.
  destruct (body w) as [r w1].
  destruct (files w1 !! filename) eqn:Hf; cbn.
  - apply lookup_delete_eq.
  - exact Hf.
Qed.

(** What follows [try ... finally] in [exec_] does not touch the files. *)
Lemma exec_files self source w :
  files (snd (Context.exec_ h self source w))
  = files (snd (Context.engine_output h self (Context.with_preamble self source) w)).
Proof.
  unfold Context.exec_, bind.
  destruct (Context.engine_output h self (Context.with_preamble self source) w)
    as [[output|e] w1]; [|reflexivity].
  pose proof (get_encoding_world (_runtime self) w1) as Hw.
  destruct (get_encoding (_runtime self) w1) as [[encoding|e] w2];
    cbn in Hw; subst w2; [|reflexivity].
  unfold lift. destruct (bytes_decode h encoding output) as [decoded|e]; [|reflexivity].
  destruct (Context.last_line decoded); reflexivity.
Qed.

End TemporaryFile.

(** C9: when [exec_] returns or raises, the temporary file that
    [tempfile.mkstemp] created for it is no longer among the files. *)
Theorem exec_removes_tempfile (h : host) (self : context) (source : text)
  (w : world) (filename : text) :
  mkstemp h (files w) = Return filename ->
  files (snd (Context.exec_ h self source w)) !! filename = None.
Proof.
  intros Hmk. rewrite exec_files.
  unfold Context.engine_output, bind, Context.make_tempfile. rewrite Hmk.
  apply try_finally_removes.
Qed.

Lemma exec_removes_tempfile_witness :
  mkstemp (demo_engine ok3_output 0) (files demo_world) = Return demo_tempfile
  /\ (fst (Context.exec_ (demo_engine ok3_output 0) node_context (u "return 3") demo_world)
      = Return (JInt 3)
      /\ files (snd (Context.exec_ (demo_engine ok3_output 0) node_context
                       (u "return 3") demo_world)) !! demo_tempfile = None)
  /\ (fst (Context.exec_ (demo_engine (u "boom") 1) node_context (u "return 3") demo_world)
      = Raise (RuntimeError (BytesArg (ascii_bytes (u "boom"))))
      /\ files (snd (Context.exec_ (demo_engine (u "boom") 1) node_context
                       (u "return 3") demo_world)) !! demo_tempfile = None)
  /\ (fst (Context.exec_ demo phantomjs_context (u "return 3") demo_world)
      = Raise TypeError
      /\ files (snd (Context.exec_ demo phantomjs_context
                       (u "return 3") demo_world)) !! demo_tempfile = None).
Proof.
  split; [reflexivity|].
  split; [|split];
    (split; [vm_compute; reflexivity | apply exec_removes_tempfile; reflexivity]).
Defined.

(** ** [Context.exec_]: the line it reads *)

Lemma split_nonempty sep s : split sep s <> [].
Proof.
  destruct s as [|c r]; [discriminate|].
  simpl. destruct (c =? sep); [discriminate|].
  destruct (split sep r); discriminate.
Qed.

(** Without the separator there is one piece, the string itself. *)
Lemma split_without sep s : ~ In sep s -> split sep s = [s].
Proof.
  induction s as [|c r IH]; intros Hn; [reflexivity|].
  simpl. destruct (N.eqb_spec c sep) as [->|Hne].
  - exfalso. apply Hn. left. reflexivity.
  - rewrite IH; [reflexivity|]. intros Hin. apply Hn. right. exact Hin.
Qed.

(** With the separator there are two pieces at least. *)
Lemma split_with sep s : In sep s -> (2 <= List.length (split sep s))%nat.
Proof.
  induction s as [|c r IH]; intros Hin; [destruct Hin|].
  simpl. destruct (N.eqb_spec c sep) as [->|Hne].
  - pose proof (split_nonempty sep r). destruct (split sep r); [congruence|simpl; lia].
  - destruct Hin as [Heq|Hin]; [congruence|]. specialize (IH Hin).
    destruct (split sep r); simpl in *; lia.
Qed.

(** The replacement of the line endings puts a line feed only where the
    text had a line feed or a carriage return. *)
Lemma replace_crlf_in c : forall n s,
  (List.length s <= n)%nat -> In c (replace_crlf s) -> In c s.
Proof.
  induction n as [|n IH]; intros s Hlen.
  - destruct s; [auto|simpl in Hlen; exfalso; lia].
  - destruct s as [|a [|b r]]; [auto|auto|].
    cbn [replace_crlf].
    destruct ((a =? CR) && (b =? LF)) eqn:E.
    + apply andb_true_iff in E. destruct E as [Ha Hb].
      apply N.eqb_eq in Ha, Hb. subst a b.
      intros [<-|Hin]; [right; left; reflexivity|].
      right. right. apply IH; [simpl in Hlen; lia|exact Hin].
    + intros [<-|Hin]; [left; reflexivity|].
      right. apply IH; [simpl in Hlen |- *; lia|exact Hin].
Qed.

Lemma replace_cr_in s : In LF (replace_cr s) -> In LF s \/ In CR s.
Proof.
  induction s as [|c s IH]; [intros []|].
  cbn [replace_cr List.map]. fold (replace_cr s).
  destruct (N.eqb_spec c CR) as [->|Hne].
  - intros _. right. left. reflexivity.
  - intros [->|Hin]; [left; left; reflexivity|].
    destruct (IH Hin); [left|right]; right; assumption.
Qed.

Lemma normalize_newline s :
  In LF (Context.normalize s) -> In LF s \/ In CR s.
Proof.
  unfold Context.normalize. intros H.
  destruct (replace_cr_in _ H) as [Hin|Hin]; [left|right];
    eapply replace_crlf_in; eauto.
Qed.

Section Encodings.

Variable h : host.

Lemma keeps_bind {A B} (c : M A) (k : A -> M B) :
  keeps_encodings c -> (forall a, keeps_encodings (k a)) ->
  keeps_encodings (bind c k).
Proof.
  intros Hc Hk w r. unfold bind. specialize (Hc w r).
  destruct (c w) as [[a|e] w']; cbn in *; [|exact Hc].
  rewrite Hk. exact Hc.
Qed.

Lemma keeps_try_finally {A} (body : M A) (cleanup : M unit) :
  keeps_encodings body -> keeps_encodings cleanup ->
  keeps_encodings (try_finally body cleanup).
Proof.
  intros Hb Hc w r. unfold try_finally. specialize (Hb w r).
  destruct (body w) as [res w1]. specialize (Hc w1 r).
  destruct (cleanup w1) as [[[]|e] w2]; cbn in *; congruence.
Qed.

Lemma keeps_files {A} (c : M A) :
  (forall w, heap (snd (c w)) = heap w) -> keeps_encodings c.
Proof. intros H w r. unfold encoding_at. rewrite H. reflexivity. Qed.

Lemma keeps_get_object r : keeps_encodings (get_object r).
Proof.
  apply keeps_files. intros w. unfold get_object.
  destruct (heap w !! r); reflexivity.
Qed.

Lemma keeps_binary r : keeps_encodings (_binary h r).
Proof.
  intros w x. unfold _binary, bind, get_object, lift.
  destruct (heap w !! r) as [[n c rs enc [b|]|a]|] eqn:Ho; try reflexivity.
  destruct (_which h c) as [b|e]; [|reflexivity].
  cbn. unfold encoding_at. cbn.
  destruct (decide (x = r)) as [->|Hne].
  - rewrite list_lookup_insert_eq by (eapply lookup_lt_Some; exact Ho).
    rewrite Ho. reflexivity.
  - rewrite list_lookup_insert_ne by congruence. reflexivity.
Qed.

Lemma keeps_execfile r filename : keeps_encodings (_execfile h r filename).
Proof.
  unfold _execfile. apply keeps_bind; [apply keeps_binary|].
  intros [binary|]; [|apply keeps_files; reflexivity].
  apply keeps_bind.
  - apply keeps_files. intros w. destruct (popen h _ (files w)). reflexivity.
  - intros [stdoutdata status]. destruct (status =? 0)%Z; apply keeps_files; reflexivity.
Qed.

Lemma keeps_get_encoding r : keeps_encodings (get_encoding r).
Proof.
  apply keeps_files. intros w. rewrite get_encoding_world. reflexivity.
Qed.

Lemma keeps_compile self source : keeps_encodings (Context._compile h self source).
Proof.
  apply keeps_files. intros w. unfold Context._compile, runner_source, bind, get_object.
  destruct (heap w !! _runtime self) as [[]|]; reflexivity.
Qed.

Lemma keeps_engine_output self source :
  keeps_encodings (Context.engine_output h self source).
Proof.
  unfold Context.engine_output. apply keeps_bind.
  - apply keeps_files. intros w. unfold Context.make_tempfile.
    destruct (mkstemp h (files w)); reflexivity.
  - intros filename. apply keeps_try_finally.
    + apply keeps_bind; [apply keeps_get_encoding|]. intros encoding.
      apply keeps_bind; [apply keeps_compile|]. intros compiled.
      apply keeps_bind; [|intros _; apply keeps_execfile].
      apply keeps_files. intros w. unfold Context.write_file.
      destruct (str_encode h encoding compiled); reflexivity.
    + apply keeps_files. intros w. unfold Context.os_remove.
      destruct (files w !! filename); reflexivity.
Qed.

Lemma get_encoding_at r w e :
  encoding_at w r = Some e -> get_encoding r w = (Return e, w).
Proof.
  unfold encoding_at, get_encoding, bind, get_object.
  destruct (heap w !! r) as [[]|]; intros H; inversion H; reflexivity.
Qed.

(** After [engine_output] the attribute [_encoding] of the runtime of the
    context reads as before. *)
Lemma engine_output_encoding self source w e :
  encoding_at w (_runtime self) = Some e ->
  get_encoding (_runtime self) (snd (Context.engine_output h self source w))
  = (Return e, snd (Context.engine_output h self source w)).
Proof.
  intros He. apply get_encoding_at. rewrite keeps_engine_output. exact He.
Qed.

End Encodings.

(** C10: when the engine has run and its output has been decoded, [exec_]
    gives to [_extract_result] the element of index [len - 2] of the output,
    line endings replaced, split on the line feed; there is such an element
    exactly when that text contains a line feed, and otherwise, as for an
    output without any line ending and for the empty output, [exec_] raises
    [IndexError], which is not an [execjs.Error]. *)
Theorem exec_reads_second_to_last_line (h : host) (self : context) (source : text)
  (w w1 : world) (output : bytes) (encoding decoded : text) :
  Context.engine_output h self (Context.with_preamble self source) w = (Return output, w1) ->
  encoding_at w (_runtime self) = Some encoding ->
  bytes_decode h encoding output = Return decoded ->
  (In LF (Context.normalize decoded) ->
   exists line,
     split LF (Context.normalize decoded)
       !! (List.length (split LF (Context.normalize decoded)) - 2)%nat = Some line
     /\ Context.exec_ h self source w = (Context._extract_result line, w1))
  /\ (~ In LF (Context.normalize decoded) ->
      Context.exec_ h self source w = (Raise IndexError, w1))
  /\ (~ In LF decoded /\ ~ In CR decoded ->
      Context.exec_ h self source w = (Raise IndexError, w1))
  /\ is_library_error IndexError = false.
Proof.
  intros Hrun Henc Hdec.
  assert (Hexec : Context.exec_ h self source w =
                  match Context.last_line decoded with
                  | None => (Raise IndexError, w1)
                  | Some line => (Context._extract_result line, w1)
                  end).
  { unfold Context.exec_, bind.
    pose proof (engine_output_encoding h self (Context.with_preamble self source) w
                  encoding Henc) as Hget.
    rewrite Hrun in *. cbn [snd] in Hget. rewrite Hget.
    unfold lift. rewrite Hdec.
    destruct (Context.last_line decoded); reflexivity. }
  assert (Hno : ~ In LF (Context.normalize decoded) ->
                Context.exec_ h self source w = (Raise IndexError, w1)).
  { intros Hn. rewrite Hexec. unfold Context.last_line, second_to_last.
    rewrite split_without by exact Hn. reflexivity. }
  repeat split.
  - intros Hin. pose proof (split_with LF _ Hin) as Hlen.
    rewrite Hexec. unfold Context.last_line, second_to_last.
    destruct (Nat.ltb_spec (List.length (split LF (Context.normalize decoded))) 2);
      [lia|].
    destruct (lookup_lt_is_Some_2 (split LF (Context.normalize decoded))
                (List.length (split LF (Context.normalize decoded)) - 2)%nat
                ltac:(lia)) as [line Hline].
    exists line. rewrite Hline. split; reflexivity.
  - exact Hno.
  - intros [Hlf Hcr]. apply Hno. intros Hin.
    destruct (normalize_newline _ Hin); contradiction.
Qed.

(** On the POSIX host: an engine that prints a blank line and the envelope
    of [3] has the envelope read; an engine that prints [boom] without a
    line ending and exits with status 0 makes [exec_] raise [IndexError]. *)
Lemma exec_reads_second_to_last_line_witness :
  (Context.engine_output (demo_engine ok3_output 0) node_context
     (Context.with_preamble node_context (u "return 3")) demo_world
   = (Return (ascii_bytes ok3_output),
      snd (Context.engine_output (demo_engine ok3_output 0) node_context
             (Context.with_preamble node_context (u "return 3")) demo_world))
   /\ encoding_at demo_world (_runtime node_context) = Some (u "UTF-8")
   /\ bytes_decode (demo_engine ok3_output 0) (u "UTF-8") (ascii_bytes ok3_output)
      = Return ok3_output
   /\ fst (Context.exec_ (demo_engine ok3_output 0) node_context (u "return 3") demo_world)
      = Context._extract_result (u "[" ++ q "ok" ++ u ", 3]"))
  /\ fst (Context.exec_ (demo_engine (u "boom") 0) node_context (u "return 3") demo_world)
     = Raise IndexError.
Proof.
  split.
  - assert (H1 : Context.engine_output (demo_engine ok3_output 0) node_context
                   (Context.with_preamble node_context (u "return 3")) demo_world
                 = (Return (ascii_bytes ok3_output),
                    snd (Context.engine_output (demo_engine ok3_output 0) node_context
                           (Context.with_preamble node_context (u "return 3")) demo_world)))
      by (vm_compute; reflexivity).
    assert (H2 : encoding_at demo_world (_runtime node_context) = Some (u "UTF-8"))
      by reflexivity.
    assert (H3 : bytes_decode (demo_engine ok3_output 0) (u "UTF-8") (ascii_bytes ok3_output)
                 = Return ok3_output) by reflexivity.
    repeat (split; [assumption|]).
    destruct (exec_reads_second_to_last_line _ _ _ _ _ _ _ _ H1 H2 H3) as [Hsel _].
    assert (Hin : In LF (Context.normalize ok3_output))
      by (vm_compute; left; reflexivity).
    destruct (Hsel Hin) as (line & Hline & Hexec).
    rewrite Hexec. cbn [fst]. vm_compute in Hline. injection Hline as <-.
    reflexivity.
  - assert (Hno : ~ In LF (u "boom") /\ ~ In CR (u "boom")).
    { split; intros Hin; vm_compute in Hin;
        repeat (destruct Hin as [Hin|Hin]; [discriminate Hin|]); exact Hin. }
    assert (H1 : Context.engine_output (demo_engine (u "boom") 0) node_context
                   (Context.with_preamble node_context (u "return 3")) demo_world
                 = (Return (ascii_bytes (u "boom")),
                    snd (Context.engine_output (demo_engine (u "boom") 0) node_context
                           (Context.with_preamble node_context (u "return 3")) demo_world)))
      by (vm_compute; reflexivity).
    destruct (exec_reads_second_to_last_line _ _ (u "return 3") _ _ _ (u "UTF-8") (u "boom")
                H1 eq_refl eq_refl) as (_ & _ & Hraw & _).
    rewrite (Hraw Hno). reflexivity.
Defined.

(** ** Registry construction *)

Lemma od_get_set {V} (d : list (text * V)) k v k' :
  od_get (od_set d k v) k' = if text_eqb k k' then Some v else od_get d k'.
Proof.
  unfold text_eqb.
  induction d as [|[k0 v0] d IH]; cbn [od_set od_get]; unfold text_eqb.
  - reflexivity.
  - repeat case_bool_decide; subst; cbn [od_get]; unfold text_eqb;
      repeat case_bool_decide; subst; congruence.
Qed.

Lemma bind_names_in names r : forall d n,
  In n names -> od_get (bind_names names r d) n = Some r.
Proof.
  unfold bind_names.
  induction names as [|a names IH] using rev_ind; intros d n Hin; [destruct Hin|].
  rewrite fold_left_app. cbn [fold_left]. rewrite od_get_set. unfold text_eqb.
  case_bool_decide; [reflexivity|].
  apply in_app_or in Hin. destruct Hin as [Hin|[->|[]]]; [|congruence].
  apply IH. exact Hin.
Qed.

Lemma bind_names_out names r : forall d n,
  ~ In n names -> od_get (bind_names names r d) n = od_get d n.
Proof.
  unfold bind_names.
  induction names as [|a names IH] using rev_ind; intros d n Hin; [reflexivity|].
  rewrite fold_left_app. cbn [fold_left]. rewrite od_get_set. unfold text_eqb.
  case_bool_decide.
  - subst. exfalso. apply Hin. apply in_or_app. right. left. reflexivity.
  - apply IH. intros H'. apply Hin. apply in_or_app. left. exact H'.
Qed.

Section Registry.

Variable h : host.

Lemma set_heap_twice w hp hp' : set_heap (set_heap w hp) hp' = set_heap w hp'.
Proof. reflexivity. Qed.

Lemma new_runtime_run cls c kw o w :
  init_runtime h cls c kw = Some o ->
  new_runtime h cls c kw w
  = (Return (List.length (heap w)), set_heap w (heap w ++ [o])).
Proof. intros H. unfold new_runtime. rewrite H. reflexivity. Qed.

(** [is_available] on the object just built. *)
Lemma is_available_fresh o w :
  is_available h (List.length (heap w)) (set_heap w (heap w ++ [o]))
  = (available h o, set_heap w (heap w ++ [probed h o])).
Proof.
  rewrite (is_available_run h _ _ o).
  - cbn [heap set_heap]. rewrite set_heap_twice. do 2 f_equal.
    rewrite insert_app_r_alt by reflexivity.
    rewrite Nat.sub_diag. reflexivity.
  - cbn [heap set_heap]. apply list_lookup_middle. reflexivity.
Qed.

Lemma which_returns c :
  well_formed_command ClsExternalRuntime c = true ->
  exists b, _which h (as_list c) = Return b.
Proof.
  destruct c as [|s|[|name args]]; try discriminate; intros _; cbn;
    unfold _which; cbn;
    match goal with
    | |- context [if ?b then ?x else ?y] => destruct (if b then x else y) as [[|]|]
    end; eexists; reflexivity.
Qed.

(** A well-formed candidate is built without an error and its
    availability is a truth value. *)
Lemma candidate_probe cls kw c :
  well_formed_kwargs cls kw = true ->
  well_formed_command cls c = true ->
  exists o,
    init_runtime h cls c kw = Some o
    /\ candidate_object h cls kw c = Some (probed h o)
    /\ available h o = Return (candidate_available h cls kw c)
    /\ available h (probed h o) = Return (candidate_available h cls kw c).
Proof.
  intros Hkw Hc.
  assert (Hex : exists o b, init_runtime h cls c kw = Some o /\ available h o = Return b).
  { destruct cls; cbn in *.
    - destruct (kw_name kw) as [n|]; [|discriminate].
      destruct (kw_runner_source kw) as [rs|]; [|discriminate].
      destruct (which_returns c Hc) as [b Hb].
      eexists _, _. split; [reflexivity|]. cbn. rewrite Hb. reflexivity.
    - eexists _, _. split; reflexivity. }
  destruct Hex as (o & b & Hinit & Hav).
  exists o. unfold candidate_available, candidate_object.
  rewrite Hinit. cbn. rewrite available_probed, Hav.
  repeat split; destruct b; reflexivity.
Qed.

End Registry.

Section RegistryLoops.

Variable h : host.

Lemma forallb_cons_inv {A} (f : A -> bool) a l :
  forallb f (a :: l) = true -> f a = true /\ forallb f l = true.
Proof. intros H. apply andb_true_iff. exact H. Qed.

Lemma try_commands_cons cls kw names c rest d :
  try_commands h cls kw names (c :: rest) d
  = (r <- new_runtime h cls c kw ;;
     a <- is_available h r ;;
     if a then ret (bind_names names r d)
     else try_commands h cls kw names rest (bind_names names r d)).
Proof. reflexivity. Qed.

Lemma probed_candidates_cons avail c rest :
  probed_candidates avail (c :: rest)
  = if avail c then [c] else c :: probed_candidates avail rest.
Proof. reflexivity. Qed.

Lemma omap_cons_Some {A B} (f : A -> option B) a y l :
  f a = Some y -> omap f (a :: l) = y :: omap f l.
Proof. intros H. cbn. rewrite H. reflexivity. Qed.

(** One turn of the loop over the candidates. *)
Lemma try_commands_step cls kw names c rest d w :
  well_formed_kwargs cls kw = true ->
  well_formed_command cls c = true ->
  exists o,
    candidate_object h cls kw c = Some o
    /\ available h o = Return (candidate_available h cls kw c)
    /\ try_commands h cls kw names (c :: rest) d w
       = if candidate_available h cls kw c
         then (Return (bind_names names (List.length (heap w)) d),
               set_heap w (heap w ++ [o]))
         else try_commands h cls kw names rest
                (bind_names names (List.length (heap w)) d)
                (set_heap w (heap w ++ [o])).
Proof.
  intros Hkw Hc.
  destruct (candidate_probe h cls kw c Hkw Hc) as (o0 & Hinit & Hobj & Hav0 & Hav1).
  exists (probed h o0). split; [exact Hobj|]. split; [exact Hav1|].
  rewrite try_commands_cons. unfold bind.
  rewrite (new_runtime_run h _ _ _ _ w Hinit), is_available_fresh, Hav0.
  destruct (candidate_available h cls kw c); reflexivity.
Qed.

(** The loop over the candidates of one family: the objects of the probed
    candidates are built in order, and the names of the family are left
    bound to the object of the last of them, which is the first
    available candidate, or the last candidate when none is available. *)
Lemma try_commands_spec cls kw names :
  well_formed_kwargs cls kw = true ->
  forall rest c d w,
    forallb (well_formed_command cls) (c :: rest) = true ->
    exists d' r o chosen pre post,
      try_commands h cls kw names (c :: rest) d w
      = (Return d',
         set_heap w
           (heap w ++ omap (candidate_object h cls kw)
                        (probed_candidates (candidate_available h cls kw) (c :: rest))))
      /\ c :: rest = pre ++ chosen :: post
      /\ Forall (fun x => candidate_available h cls kw x = false) pre
      /\ (candidate_available h cls kw chosen = true \/ post = [])
      /\ candidate_object h cls kw chosen = Some o
      /\ available h o = Return (candidate_available h cls kw chosen)
      /\ (heap w ++ omap (candidate_object h cls kw)
                      (probed_candidates (candidate_available h cls kw) (c :: rest)))
           !! r = Some o
      /\ (forall n, In n names -> od_get d' n = Some r)
      /\ (forall n, ~ In n names -> od_get d' n = od_get d n).
Proof.
  intros Hkw. induction rest as [|c2 rest IH]; intros c d w Hwf;
    apply forallb_cons_inv in Hwf; destruct Hwf as [Hc Hrest];
    match goal with
    | |- context [try_commands h cls kw names (c :: ?r) d w] =>
        destruct (try_commands_step cls kw names c r d w Hkw Hc)
          as (o0 & Hobj & Hav & Hstep)
    end;
    rewrite Hstep, probed_candidates_cons;
    destruct (candidate_available h cls kw c) eqn:Ha.
  - exists (bind_names names (List.length (heap w)) d), (List.length (heap w)),
      o0, c, [], [].
    rewrite (omap_cons_Some _ _ _ _ Hobj). cbn [omap list_omap app].
    rewrite Ha.
    split; [reflexivity|]. split; [reflexivity|]. split; [constructor|].
    split; [left; reflexivity|]. split; [exact Hobj|]. split; [exact Hav|].
    split; [apply list_lookup_middle; reflexivity|].
    split; intros n Hn; [apply bind_names_in|apply bind_names_out]; exact Hn.
  - exists (bind_names names (List.length (heap w)) d), (List.length (heap w)),
      o0, c, [], [].
    rewrite (omap_cons_Some _ _ _ _ Hobj). cbn [omap list_omap app probed_candidates try_commands].
    rewrite Ha.
    split; [reflexivity|]. split; [reflexivity|]. split; [constructor|].
    split; [right; reflexivity|]. split; [exact Hobj|]. split; [exact Hav|].
    split; [apply list_lookup_middle; reflexivity|].
    split; intros n Hn; [apply bind_names_in|apply bind_names_out]; exact Hn.
  - exists (bind_names names (List.length (heap w)) d), (List.length (heap w)),
      o0, c, [], (c2 :: rest).
    rewrite (omap_cons_Some _ _ _ _ Hobj). cbn [omap list_omap app].
    rewrite Ha.
    split; [reflexivity|]. split; [reflexivity|]. split; [constructor|].
    split; [left; reflexivity|]. split; [exact Hobj|]. split; [exact Hav|].
    split; [apply list_lookup_middle; reflexivity|].
    split; intros n Hn; [apply bind_names_in|apply bind_names_out]; exact Hn.
  - destruct (IH c2 (bind_names names (List.length (heap w)) d)
                (set_heap w (heap w ++ [o0])) Hrest)
      as (d' & r & o & chosen & pre & post & Hrun & Hdec & Hpre & Hlast & Hco & Hav' & Hlk & Hin & Hout).
    exists d', r, o, chosen, (c :: pre), post.
    cbn [heap set_heap] in Hrun, Hlk. rewrite set_heap_twice in Hrun.
    rewrite <- app_assoc in Hrun, Hlk. cbn [app] in Hrun, Hlk.
    rewrite (omap_cons_Some _ _ _ _ Hobj).
    split; [exact Hrun|]. split; [rewrite Hdec; reflexivity|].
    split; [constructor; assumption|].
    split; [exact Hlast|]. split; [exact Hco|]. split; [exact Hav'|].
    split; [exact Hlk|].
    split; [exact Hin|].
    intros n Hn. rewrite (Hout n Hn). apply bind_names_out. exact Hn.
Qed.

End RegistryLoops.

Section RegistryConstruction.

Variable h : host.
Variable cfg : list (text * family_config).

Lemma family_names_in_all nm c order n :
  In nm order -> od_get cfg nm = Some c -> In n (family_names nm c) ->
  In n (all_names cfg order).
Proof.
  intros Hnm Hc Hn. unfold all_names. apply in_flat_map.
  exists nm. split; [exact Hnm|]. rewrite Hc. exact Hn.
Qed.

(** The loop over the families. *)
Lemma setup_families_spec : forall order d w,
  well_formed cfg order ->
  exists d',
    setup_families h cfg order d w
    = (Return d', set_heap w (heap w ++ flat_map (family_objects h cfg) order))
    /\ (forall n, ~ In n (all_names cfg order) -> od_get d' n = od_get d n)
    /\ forall nm c,
         In nm order -> od_get cfg nm = Some c ->
         exists r o chosen pre post,
           commands_to_try c = pre ++ chosen :: post
           /\ Forall (fun x => candidate_available h (class_of c) (kwargs c) x = false) pre
           /\ (candidate_available h (class_of c) (kwargs c) chosen = true \/ post = [])
           /\ candidate_object h (class_of c) (kwargs c) chosen = Some o
           /\ available h o = Return (candidate_available h (class_of c) (kwargs c) chosen)
           /\ (heap w ++ flat_map (family_objects h cfg) order) !! r = Some o
           /\ (forall n, In n (family_names nm c) -> od_get d' n = Some r).
Proof.
  induction order as [|nm0 rest IH]; intros d w [Hfam Hnodup].
  - exists d. cbn. rewrite app_nil_r. repeat split.
    + destruct w; reflexivity.
    + intros nm c [].
  - inversion Hfam as [|? ? (c0 & Hc0 & Hwf0) Hfam']; subst.
    cbn [all_names flat_map] in Hnodup. rewrite Hc0 in Hnodup.
    fold (all_names cfg rest) in Hnodup.
    assert (Hsep : forall n, In n (family_names nm0 c0) -> ~ In n (all_names cfg rest)).
    { intros n Hn Hn'. apply NoDup_app in Hnodup. destruct Hnodup as (_ & Hdis & _).
      apply (Hdis n); apply list_elem_of_In; assumption. }
    assert (Hnodup' : NoDup (all_names cfg rest)).
    { apply NoDup_app in Hnodup. tauto. }
    unfold well_formed_family in Hwf0.
    apply andb_true_iff in Hwf0. destruct Hwf0 as [Hwf0 Hkw].
    apply andb_true_iff in Hwf0. destruct Hwf0 as [Hne Hcmds].
    destruct (commands_to_try c0) as [|c cs] eqn:Hcs; [discriminate|].
    destruct (try_commands_spec h (class_of c0) (kwargs c0) (family_names nm0 c0)
                Hkw cs c d w Hcmds)
      as (d1 & r & o & chosen & pre & post & Hrun & Hdec & Hpre & Hlast & Hco & Hav & Hlk & Hin & Hout).
    destruct (IH d1
                (set_heap w
                   (heap w ++ omap (candidate_object h (class_of c0) (kwargs c0))
                                (probed_candidates
                                   (candidate_available h (class_of c0) (kwargs c0))
                                   (c :: cs))))
                (conj Hfam' Hnodup')) as (d' & Hrun' & Hout' & Hfams).
    exists d'.
    assert (Hobjs : family_objects h cfg nm0
                    = omap (candidate_object h (class_of c0) (kwargs c0))
                        (probed_candidates
                           (candidate_available h (class_of c0) (kwargs c0)) (c :: cs))).
    { unfold family_objects. rewrite Hc0, Hcs. reflexivity. }
    cbn [setup_families flat_map]. rewrite Hc0. unfold bind.
    fold (class_of c0). rewrite Hcs, Hrun, Hrun', Hobjs.
    cbn [heap set_heap]. rewrite set_heap_twice, <- app_assoc.
    split; [reflexivity|]. split.
    + intros n Hn. rewrite Hout'.
      * apply Hout. intros Hn'. apply Hn. cbn [all_names flat_map].
        rewrite Hc0. apply in_or_app. left. exact Hn'.
      * intros Hn'. apply Hn. cbn [all_names flat_map].
        rewrite Hc0. apply in_or_app. right. exact Hn'.
    + intros nm c1 Hnm Hc1.
      destruct (text_eqb nm nm0) eqn:Heq.
      * unfold text_eqb in Heq. apply bool_decide_eq_true in Heq. subst nm.
        rewrite Hc0 in Hc1. injection Hc1 as <-. rewrite Hcs.
        exists r, o, chosen, pre, post.
        repeat split; auto.
        -- rewrite app_assoc. apply lookup_app_l_Some. exact Hlk.
        -- intros n Hn. rewrite Hout' by (apply Hsep; exact Hn). apply Hin. exact Hn.
      * destruct Hnm as [->|Hnm].
        { unfold text_eqb in Heq. rewrite bool_decide_true in Heq by reflexivity.
          discriminate. }
        destruct (Hfams nm c1 Hnm Hc1)
          as (r1 & o1 & ch1 & pre1 & post1 & H1 & H2 & H3 & H4 & H5 & H6 & H7).
        exists r1, o1, ch1, pre1, post1.
        cbn [heap set_heap] in H6. rewrite <- app_assoc in H6.
        repeat split; auto.
Qed.

End RegistryConstruction.

(** [_setup_runtimes] over any well-formed tables: it returns a registry;
    the objects it builds are, family by family in the order given, those
    of the candidates up to the first available one; every family is bound
    to the object of the candidate [chosen], the first one found available
    or else the last one; the alternate names share that object. *)
Lemma setup_runtimes_with_spec (h : host) (cfg : list (text * family_config))
  (order : list text) (w : world) :
  well_formed cfg order ->
  exists d,
    setup_runtimes_with h cfg order w
    = (Return d, set_heap w (heap w ++ flat_map (family_objects h cfg) order))
    /\ forall nm c,
         In nm order -> od_get cfg nm = Some c ->
         exists r o chosen pre post,
           commands_to_try c = pre ++ chosen :: post
           /\ Forall (fun x => candidate_available h (class_of c) (kwargs c) x = false) pre
           /\ (candidate_available h (class_of c) (kwargs c) chosen = true \/ post = [])
           /\ candidate_object h (class_of c) (kwargs c) chosen = Some o
           /\ available h o = Return (candidate_available h (class_of c) (kwargs c) chosen)
           /\ (heap w ++ flat_map (family_objects h cfg) order) !! r = Some o
           /\ od_get d nm = Some r
           /\ Forall (fun a => od_get d a = Some r) (default [] (alternate_names c)).
Proof.
  intros Hwf. unfold setup_runtimes_with.
  destruct (setup_families_spec h cfg order [] w Hwf) as (d & Hrun & _ & Hfams).
  exists d. split; [exact Hrun|].
  intros nm c Hnm Hc.
  destruct (Hfams nm c Hnm Hc)
    as (r & o & chosen & pre & post & H1 & H2 & H3 & H4 & H5 & H6 & H7).
  exists r, o, chosen, pre, post.
  repeat split; auto.
  - apply H7. left. reflexivity.
  - apply List.Forall_forall. intros a Ha. apply H7. right. exact Ha.
Qed.

(** The tables of [runtimes_config.py] are well formed, whatever the
    runner templates. *)
Lemma config_well_formed (rs : runner_sources) :
  well_formed (config rs) runtime_preferred_order.
Proof.
  split.
  - repeat constructor; eexists; split; reflexivity.
  - apply (bool_decide_unpack _). vm_compute. exact I.
Qed.

(** C6: on every host, [_setup_runtimes()] returns a registry.  The
    objects it builds are, family by family in the priority order, those of
    the candidate commands up to the first one found available: probing a
    family stops there.  Every family [nm] of the order, with entry [c], is
    bound to the object [o] of the candidate [chosen], where the candidates
    before [chosen] are not available and [chosen] is available or is the
    last candidate; [is_available()] of [o] says whether [chosen] is
    available, so it reports false for a family without an available
    candidate; and every alternate name of the family is bound to the same
    object [r] as its primary name. *)
Theorem setup_runtimes_registry (h : host) (rs : runner_sources) (w : world) :
  exists d,
    _setup_runtimes h rs w
    = (Return d,
       set_heap w
         (heap w ++ flat_map (family_objects h (config rs)) runtime_preferred_order))
    /\ forall nm c,
         In nm runtime_preferred_order -> od_get (config rs) nm = Some c ->
         exists r o chosen pre post,
           commands_to_try c = pre ++ chosen :: post
           /\ Forall (fun x => candidate_available h (class_of c) (kwargs c) x = false) pre
           /\ (candidate_available h (class_of c) (kwargs c) chosen = true \/ post = [])
           /\ candidate_object h (class_of c) (kwargs c) chosen = Some o
           /\ available h o = Return (candidate_available h (class_of c) (kwargs c) chosen)
           /\ (heap w ++ flat_map (family_objects h (config rs)) runtime_preferred_order)
                !! r = Some o
           /\ od_get d nm = Some r
           /\ Forall (fun a => od_get d a = Some r) (default [] (alternate_names c)).
Proof.
  exact (setup_runtimes_with_spec h (config rs) runtime_preferred_order w
           (config_well_formed rs)).
Qed.

(** On the POSIX host: the family Node, whose candidates are [nodejs] and
    [node], is bound to the object of [node], which is available, after
    [nodejs], which is not; the family JavaScriptCore is bound to the object
    of its only candidate, which is not available; SpiderMonkey and its
    alternate name share one object. *)
Lemma setup_runtimes_registry_witness :
  exists d,
    fst (_setup_runtimes demo demo_templates empty_world) = Return d
    /\ (exists r o,
          od_get d RuntimeNames.node = Some r
          /\ heap demo_world !! r = Some o
          /\ candidate_object demo ClsExternalRuntime
               (Kwargs (Some (u "Node.js (V8)")) (Some (node demo_templates))
                  (Some (u "UTF-8")))
               (CmdStr (u "node")) = Some o
          /\ available demo o = Return true)
    /\ (exists r o,
          od_get d RuntimeNames.javascriptcore = Some r
          /\ heap demo_world !! r = Some o
          /\ available demo o = Return false)
    /\ (exists r,
          od_get d RuntimeNames.spidermonkey = Some r
          /\ od_get d (u "Spidermonkey") = Some r).
Proof.
  destruct (setup_runtimes_registry demo demo_templates empty_world)
    as (d & Hrun & Hfams).
  exists d. split; [rewrite Hrun; reflexivity|].
  assert (Hheap : heap empty_world
                    ++ flat_map (family_objects demo (config demo_templates))
                         runtime_preferred_order
                  = heap demo_world) by (vm_compute; reflexivity).
  rewrite Hheap in Hfams.
  split; [|split].
  - destruct (Hfams RuntimeNames.node _ ltac:(cbn; tauto) eq_refl)
      as (r & o & chosen & pre & post & Hdec & Hpre & Hlast & Hobj & Hav & Hlk & Hr & _).
    exists r, o. split; [exact Hr|]. split; [exact Hlk|].
    cbn [commands_to_try] in Hdec.
    destruct pre as [|c1 [|c2 pre]].
    + injection Hdec as <- <-.
      destruct Hlast as [Hl|Hl]; [vm_compute in Hl|]; discriminate Hl.
    + injection Hdec as <- <- <-. split; [exact Hobj|]. rewrite Hav. reflexivity.
    + exfalso. injection Hdec as _ _ Hnil. destruct pre; discriminate Hnil.
  - destruct (Hfams RuntimeNames.javascriptcore _ ltac:(cbn; tauto) eq_refl)
      as (r & o & chosen & pre & post & Hdec & _ & _ & _ & Hav & Hlk & Hr & _).
    exists r, o. split; [exact Hr|]. split; [exact Hlk|].
    cbn [commands_to_try] in Hdec.
    destruct pre as [|c1 pre].
    + injection Hdec as <- <-. rewrite Hav. reflexivity.
    + exfalso. injection Hdec as _ Hnil. destruct pre; discriminate Hnil.
  - destruct (Hfams RuntimeNames.spidermonkey _ ltac:(cbn; tauto) eq_refl)
      as (r & o & chosen & pre & post & _ & _ & _ & _ & _ & _ & Hr & Hal).
    exists r. split; [exact Hr|].
    cbn [alternate_names default] in Hal.
    inversion Hal; subst. assumption.
Defined.

(** The registry of [demo_world]: Node is bound to the object of its
    second candidate, [node], the first one, [nodejs], being absent; the
    alternate name of SpiderMonkey has the object of its primary name. *)
Example demo_registry :
  od_keys (_runtimes demo_world)
  = [u "PyV8"; u "Node"; u "JavaScriptCore"; u "SpiderMonkey"; u "Spidermonkey";
     u "JScript"; u "PhantomJS"; u "SlimerJS"]
  /\ od_values (_runtimes demo_world) = [0; 2; 3; 4; 4; 5; 6; 7]%nat
  /\ heap demo_world !! 2%nat
     = Some (ExternalRuntime (u "Node.js (V8)") (CmdList [u "node"])
               (node demo_templates) (u "UTF-8") (Some (Some [u "/usr/bin/node"]))).
Proof. repeat split; vm_compute; reflexivity. Qed.

(** * Further properties of the module *)

(** ** Text handed to the engines *)

Lemma printable_ascii c : printable c -> is_ascii c.
Proof. unfold printable, is_ascii. lia. Qed.

Lemma codepoint_is_ascii c : Forall is_ascii (codepoint c).
Proof.
  unfold codepoint. apply Forall_app. split.
  - repeat constructor; unfold is_ascii; simpl; lia.
  - eapply Forall_impl; [apply format_04x_printable|].
    intros x Hx. apply printable_ascii. exact Hx.
Qed.

Lemma encode_output_ascii s : Forall is_ascii (encode_unicode_codepoints s).
Proof.
  induction s as [|c s IH]; [constructor|].
  rewrite encode_cons. apply Forall_app. split; [|exact IH].
  destruct (N.leb_spec c 127).
  - repeat constructor. unfold is_ascii. lia.
  - apply codepoint_is_ascii.
Qed.

(** Whatever the string, astral code points included, the output of
    [encode_unicode_codepoints] is ASCII; hence encoding it again changes
    nothing, and a concatenation is encoded piece by piece. *)
Theorem encode_unicode_codepoints_ascii_output (s t : text) :
  Forall is_ascii (encode_unicode_codepoints s)
  /\ encode_unicode_codepoints (encode_unicode_codepoints s)
     = encode_unicode_codepoints s
  /\ encode_unicode_codepoints (s ++ t)
     = encode_unicode_codepoints s ++ encode_unicode_codepoints t.
Proof.
  split; [apply encode_output_ascii|]. split.
  - apply encode_ascii_identity. apply encode_output_ascii.
  - unfold encode_unicode_codepoints. apply flat_map_app.
Qed.

(** The program [eval] synthesizes is made of printable ASCII characters,
    whatever the expression. *)
Theorem eval_code_printable (source : text) :
  Forall printable (Context.eval_code source).
Proof.
  unfold Context.eval_code.
  apply Forall_app. split; [repeat constructor; unfold printable; simpl; lia|].
  apply Forall_app. split; [|repeat constructor; unfold printable; simpl; lia].
  destruct (is_empty (strip source)).
  - repeat constructor; unfold printable; simpl; lia.
  - apply Forall_app. split; [repeat constructor; unfold printable; simpl; lia|].
    apply Forall_app. split; [apply json_dumps_str_printable|].
    repeat constructor; unfold printable; simpl; lia.
Qed.

(** ** Lines of the output *)

Lemma split_pieces sep s : Forall (fun p => ~ In sep p) (split sep s).
Proof.
  induction s as [|c s IH]; [repeat constructor; auto|].
  cbn [split]. destruct (N.eqb_spec c sep) as [->|Hne].
  - constructor; [auto|exact IH].
  - destruct (split sep s) as [|w ws]; [repeat constructor; intros [H|[]]; congruence|].
    inversion IH as [|? ? Hw Hws]; subst.
    constructor; [|exact Hws]. intros [H|H]; [congruence|auto].
Qed.

Lemma join_split sep s : join [sep] (split sep s) = s.
Proof.
  induction s as [|c s IH]; [reflexivity|].
  cbn [split]. destruct (N.eqb_spec c sep) as [->|Hne].
  - pose proof (split_nonempty sep s) as Hn.
    destruct (split sep s) as [|w ws]; [congruence|].
    change (join [sep] ([] :: w :: ws)) with (sep :: join [sep] (w :: ws)).
    rewrite IH. reflexivity.
  - pose proof (split_nonempty sep s) as Hn.
    destruct (split sep s) as [|w ws]; [congruence|].
    destruct ws as [|w' ws]; cbn [join] in *; rewrite <- IH; reflexivity.
Qed.

Lemma split_piece_app sep p t :
  ~ In sep p ->
  split sep (p ++ t) =
  match split sep t with
  | w :: ws => (p ++ w) :: ws
  | [] => [p]
  end.
Proof.
  induction p as [|c p IH]; intros Hp.
  - cbn [app]. pose proof (split_nonempty sep t).
    destruct (split sep t); [congruence|reflexivity].
  - cbn [app split]. destruct (N.eqb_spec c sep) as [->|Hne].
    + exfalso. apply Hp. left. reflexivity.
    + rewrite IH by (intros H; apply Hp; right; exact H).
      pose proof (split_nonempty sep t).
      destruct (split sep t); [congruence|reflexivity].
Qed.

Lemma split_join sep pieces :
  pieces <> [] ->
  Forall (fun p => ~ In sep p) pieces ->
  split sep (join [sep] pieces) = pieces.
Proof.
  induction pieces as [|p rest IH]; intros Hne Hall; [congruence|].
  inversion Hall as [|? ? Hp Hrest]; subst.
  destruct rest as [|q rest].
  - cbn [join]. rewrite <- (app_nil_r p) at 1. rewrite split_piece_app by exact Hp.
    cbn. rewrite app_nil_r. reflexivity.
  - change (join [sep] (p :: q :: rest)) with (p ++ sep :: join [sep] (q :: rest)).
    rewrite split_piece_app by exact Hp.
    cbn [split]. rewrite N.eqb_refl. rewrite IH by (congruence || exact Hrest).
    rewrite app_nil_r. reflexivity.
Qed.

(** The search path is cut at every separator and nowhere else: no piece
    contains the separator, and the pieces joined by it give the string
    back; a list of pieces without separator is recovered from its join. *)
Theorem split_round_trip (sep : N) (s : text) (pieces : list text) :
  Forall (fun p => ~ In sep p) (split sep s)
  /\ join [sep] (split sep s) = s
  /\ (pieces <> [] -> Forall (fun p => ~ In sep p) pieces ->
      split sep (join [sep] pieces) = pieces).
Proof.
  split; [apply split_pieces|]. split; [apply join_split|apply split_join].
Qed.

Lemma replace_crlf_no_cr s : Forall (fun c => c <> CR) s -> replace_crlf s = s.
Proof.
  induction 1 as [|c s Hc _ IH]; [reflexivity|].
  cbn [replace_crlf]. destruct s as [|d r]; [reflexivity|].
  destruct (N.eqb_spec c CR); [congruence|]. cbn [andb]. rewrite IH. reflexivity.
Qed.

Lemma replace_crlf_no_lf s : Forall (fun c => c <> LF) s -> replace_crlf s = s.
Proof.
  induction 1 as [|c s Hc Hs IH]; [reflexivity|].
  cbn [replace_crlf]. destruct s as [|d r]; [reflexivity|].
  inversion Hs; subst.
  destruct (N.eqb_spec d LF); [congruence|]. rewrite andb_false_r, IH. reflexivity.
Qed.

Lemma replace_crlf_app p t :
  Forall (fun c => c <> CR) p -> replace_crlf (p ++ t) = p ++ replace_crlf t.
Proof.
  induction 1 as [|c p Hc _ IH]; [reflexivity|].
  cbn [app replace_crlf]. destruct (p ++ t) as [|d r] eqn:E.
  - apply app_eq_nil in E. destruct E; subst. reflexivity.
  - destruct (N.eqb_spec c CR); [congruence|]. cbn [andb]. rewrite IH. reflexivity.
Qed.

Lemma replace_cr_inline s : Forall (fun c => c <> CR) s -> replace_cr s = s.
Proof.
  induction 1 as [|c s Hc _ IH]; [reflexivity|].
  unfold replace_cr in *. cbn [List.map]. rewrite IH.
  destruct (N.eqb_spec c CR); [congruence|reflexivity].
Qed.

Lemma replace_cr_app s t : replace_cr (s ++ t) = replace_cr s ++ replace_cr t.
Proof. apply List.map_app. Qed.

Lemma replace_cr_no_cr s : Forall (fun c => c <> CR) (replace_cr s).
Proof.
  induction s as [|c s IH]; [constructor|].
  unfold replace_cr in *. cbn [List.map]. constructor; [|exact IH].
  destruct (N.eqb_spec c CR); [discriminate|assumption].
Qed.

Lemma join_forall (P : N -> Prop) sep pieces :
  Forall P sep -> Forall (Forall P) pieces -> Forall P (join sep pieces).
Proof.
  intros Hsep Hall. induction Hall as [|p rest Hp Hrest IH]; [constructor|].
  destruct rest as [|q rest]; [exact Hp|].
  change (join sep (p :: q :: rest)) with (p ++ sep ++ join sep (q :: rest)).
  repeat (apply Forall_app; split); assumption.
Qed.

Lemma inline_lines_no_cr lines :
  Forall (Forall inline) lines -> Forall (Forall (fun c => c <> CR)) lines.
Proof.
  intros H. eapply Forall_impl; [exact H|]. intros l Hl.
  eapply Forall_impl; [exact Hl|]. intros c [Hc _]. exact Hc.
Qed.

Lemma inline_lines_no_lf lines :
  Forall (Forall inline) lines -> Forall (Forall (fun c => c <> LF)) lines.
Proof.
  intros H. eapply Forall_impl; [exact H|]. intros l Hl.
  eapply Forall_impl; [exact Hl|]. intros c [_ Hc]. exact Hc.
Qed.

(** Lines ended the Unix way are left as they are. *)
Lemma normalize_lf lines :
  Forall (Forall inline) lines ->
  Context.normalize (join [LF] lines) = join [LF] lines.
Proof.
  intros H. unfold Context.normalize.
  assert (Hcr : Forall (fun c => c <> CR) (join [LF] lines)).
  { apply join_forall; [repeat constructor; discriminate|].
    apply inline_lines_no_cr. exact H. }
  rewrite replace_crlf_no_cr by exact Hcr. apply replace_cr_inline. exact Hcr.
Qed.

(** Lines ended the old Macintosh way. *)
Lemma normalize_cr lines :
  Forall (Forall inline) lines ->
  Context.normalize (join [CR] lines) = join [LF] lines.
Proof.
  intros H. unfold Context.normalize.
  rewrite replace_crlf_no_lf
    by (apply join_forall; [repeat constructor; discriminate|];
        apply inline_lines_no_lf; exact H).
  induction H as [|p rest Hp Hrest IH]; [reflexivity|].
  destruct rest as [|q rest].
  - cbn [join]. apply replace_cr_inline.
    eapply Forall_impl; [exact Hp|]. intros c [Hc _]. exact Hc.
  - change (join [CR] (p :: q :: rest)) with (p ++ CR :: join [CR] (q :: rest)).
    change (join [LF] (p :: q :: rest)) with (p ++ LF :: join [LF] (q :: rest)).
    rewrite replace_cr_app. f_equal.
    + apply replace_cr_inline.
      eapply Forall_impl; [exact Hp|]. intros c [Hc _]. exact Hc.
    + unfold replace_cr in *. cbn [List.map]. rewrite IH. reflexivity.
Qed.

(** Lines ended the DOS way: a carriage return and a line feed count for
    one line ending. *)
Lemma normalize_crlf lines :
  Forall (Forall inline) lines ->
  Context.normalize (join [CR; LF] lines) = join [LF] lines.
Proof.
  intros H. unfold Context.normalize.
  induction H as [|p rest Hp Hrest IH]; [reflexivity|].
  assert (Hpcr : Forall (fun c => c <> CR) p)
    by (eapply Forall_impl; [exact Hp|]; intros c [Hc _]; exact Hc).
  destruct rest as [|q rest].
  - cbn [join]. rewrite replace_crlf_no_cr by exact Hpcr.
    apply replace_cr_inline. exact Hpcr.
  - change (join [CR; LF] (p :: q :: rest))
      with (p ++ CR :: LF :: join [CR; LF] (q :: rest)).
    change (join [LF] (p :: q :: rest)) with (p ++ LF :: join [LF] (q :: rest)).
    rewrite replace_crlf_app by exact Hpcr.
    cbn [replace_crlf]. change ((CR =? CR) && (LF =? LF)) with true. cbn iota.
    rewrite replace_cr_app, replace_cr_inline by exact Hpcr.
    unfold replace_cr in *. cbn [List.map]. rewrite IH. reflexivity.
Qed.

(** Whatever the line-ending convention of the engine (LF, CR or CR LF),
    [exec_] reads the same line of its output: the second to last of the
    lines printed, a final line ending counting for an empty last line. *)
Theorem last_line_any_convention (lines : list text) :
  Forall (Forall inline) lines ->
  Context.last_line (join [LF] lines) = second_to_last lines
  /\ Context.last_line (join [CR] lines) = second_to_last lines
  /\ Context.last_line (join [CR; LF] lines) = second_to_last lines.
Proof.
  intros H.
  assert (Hsel : second_to_last (split LF (join [LF] lines)) = second_to_last lines).
  { destruct lines as [|l ls]; [reflexivity|].
    rewrite split_join; [reflexivity|discriminate|].
    eapply Forall_impl; [exact H|]. intros p Hp Hin.
    apply (proj1 (List.Forall_forall _ _) Hp) in Hin. destruct Hin as [_ Hlf].
    apply Hlf. reflexivity. }
  unfold Context.last_line.
  rewrite normalize_lf, normalize_cr, normalize_crlf by exact H.
  auto.
Qed.

(** The envelope and the blank line before it, printed with CR LF. *)
Lemma last_line_any_convention_witness :
  Forall (Forall inline) [u "warning"; []; u "[1]"; []]
  /\ Context.last_line (join [CR; LF] [u "warning"; []; u "[1]"; []])
     = Some (u "[1]").
Proof.
  assert (H : Forall (Forall inline) [u "warning"; []; u "[1]"; []])
    by (repeat constructor; discriminate).
  split; [exact H|].
  destruct (last_line_any_convention _ H) as (_ & _ & H3).
  rewrite H3. reflexivity.
Defined.

(** The line [exec_] hands to [_extract_result] holds no line ending. *)
Theorem last_line_inline (output line : text) :
  Context.last_line output = Some line -> Forall inline line.
Proof.
  unfold Context.last_line, second_to_last, Context.normalize.
  destruct (List.length _ <? 2)%nat; [discriminate|].
  intros Hl. apply list_elem_of_lookup_2 in Hl. apply list_elem_of_In in Hl.
  pose proof (split_pieces LF (replace_cr (replace_crlf output))) as Hp.
  pose proof (proj1 (List.Forall_forall _ _) Hp _ Hl) as Hlf.
  assert (Hcr : Forall (fun c => c <> CR) line).
  { apply List.Forall_forall. intros c Hc Heq. subst c.
    pose proof (replace_cr_no_cr (replace_crlf output)) as Hall.
    rewrite <- (join_split LF (replace_cr (replace_crlf output))) in Hall.
    revert Hall Hl Hc. generalize (split LF (replace_cr (replace_crlf output))).
    intros pieces. induction pieces as [|p rest IH]; [intros _ []|].
    destruct rest as [|q rest].
    - cbn [join]. intros Hall [->|[]] Hc.
      apply (proj1 (List.Forall_forall _ _) Hall) in Hc. congruence.
    - change (join [LF] (p :: q :: rest)) with (p ++ LF :: join [LF] (q :: rest)).
      intros Hall Hin Hc. apply Forall_app in Hall. destruct Hall as [Hp' Hrest].
      inversion Hrest; subst.
      destruct Hin as [->|Hin].
      + apply (proj1 (List.Forall_forall _ _) Hp') in Hc. congruence.
      + apply IH; assumption. }
  apply List.Forall_forall. intros c Hc. split.
  - apply (proj1 (List.Forall_forall _ _) Hcr). exact Hc.
  - intros ->. apply Hlf. exact Hc.
Qed.

Lemma last_line_inline_witness :
  Context.last_line (u "a" ++ [CR; LF] ++ u "b" ++ [CR] ++ u "c") = Some (u "b")
  /\ Forall inline (u "b").
Proof.
  assert (H : Context.last_line (u "a" ++ [CR; LF] ++ u "b" ++ [CR] ++ u "c")
              = Some (u "b")) by reflexivity.
  split; [exact H|].
  exact (last_line_inline _ _ H).
Defined.

(** ** Result extraction on every line *)

Lemma is_ok_iff status : Context.is_ok status = true <-> status = JStr (u "ok").
Proof.
  destruct status; cbn; try (split; [discriminate|intros H; discriminate H]).
  unfold text_eqb. rewrite bool_decide_eq_true. split; congruence.
Qed.

Lemma json_loads_empty : json_loads [] = Raise ValueError.
Proof. reflexivity. Qed.

Lemma json_loads_raises line e : json_loads line = Raise e -> e = ValueError.
Proof.
  unfold json_loads. destruct line as [|c line].
  - cbn. congruence.
  - repeat match goal with
      | |- context [match ?x with _ => _ end] => destruct x
      end; congruence.
Qed.

(** [_extract_result] on a line that [json.loads] decodes, in terms of the
    decoded value. *)
Lemma extract_result_decoded line ret0 :
  json_loads line = Return ret0 ->
  Context._extract_result line =
  match
    match Context.py_len ret0 with
    | Raise e => Raise e
    | Return n =>
        if (n =? 1)%nat then
          match Context.first_item ret0 with
          | Raise e => Raise e
          | Return x => Context.unpack2 (JArr [x; JNull])
          end
        else Context.unpack2 ret0
    end
  with
  | Raise e => Raise e
  | Return (status, value) =>
      if Context.is_ok status then Return value
      else
        match value with
        | JStr s =>
            if startswith (u "SyntaxError:") s
            then Raise (RuntimeError (TextArg s))
            else Raise (ProgramError (TextArg s))
        | _ => Raise AttributeError
        end
  end.
Proof.
  intros H. unfold Context._extract_result.
  destruct line as [|c line]; [rewrite json_loads_empty in H; discriminate|].
  cbn [is_empty]. rewrite H. reflexivity.
Qed.

Lemma failure_no_return (value v : json) :
  match value with
  | JStr s =>
      if startswith (u "SyntaxError:") s
      then Raise (RuntimeError (TextArg s))
      else Raise (ProgramError (TextArg s))
  | _ => Raise AttributeError
  end <> Return v.
Proof. destruct value; try discriminate. destruct (startswith _ _); discriminate. Qed.

Lemma classify_returns (status value v : json) :
  (if Context.is_ok status then Return value
   else
     match value with
     | JStr s =>
         if startswith (u "SyntaxError:") s
         then Raise (RuntimeError (TextArg s))
         else Raise (ProgramError (TextArg s))
     | _ => Raise AttributeError
     end) = Return v ->
  status = JStr (u "ok") /\ value = v.
Proof.
  destruct (Context.is_ok status) eqn:Hok.
  - apply is_ok_iff in Hok. intros H. injection H as <-. auto.
  - intros H. exfalso. exact (failure_no_return _ _ H).
Qed.

Ltac classify H :=
  match type of H with
  | (if Context.is_ok ?st then Return ?val else _) = Return ?v =>
      apply (classify_returns st val v) in H
  end.

(** The lines for which [_extract_result] returns a value: an array of
    two items whose first is ["ok"], whose second item is returned; the array
    of the single item ["ok"], for which [None] is returned; and, as
    unpacking iterates a dict over its keys, an object of two keys whose
    first is ["ok"], for which the second key is returned. *)
Theorem extract_result_returns (line : text) (v : json) :
  Context._extract_result line = Return v <->
  json_loads line = Return (JArr [JStr (u "ok"); v])
  \/ (json_loads line = Return (JArr [JStr (u "ok")]) /\ v = JNull)
  \/ (exists x k y,
        json_loads line = Return (JObj [(u "ok", x); (k, y)]) /\ v = JStr k).
Proof.
  split.
  - intros H. destruct (json_loads line) as [ret0|e] eqn:Hl.
    + rewrite (extract_result_decoded _ _ Hl) in H.
      destruct ret0 as [| | | |s|items|members];
        cbn [Context.py_len] in H; try discriminate H.
      * destruct s as [|a [|b [|c s]]];
          cbn [List.length Nat.eqb Context.first_item Context.unpack2] in H;
          try discriminate H;
          classify H; destruct H as [H _]; discriminate H.
      * destruct items as [|a [|b [|c items]]];
          cbn [List.length Nat.eqb Context.first_item Context.unpack2] in H;
          try discriminate H;
          classify H; destruct H as [-> <-]; auto.
      * destruct members as [|[k1 x1] [|[k2 x2] [|m members]]];
          cbn [List.length Nat.eqb Context.first_item Context.unpack2] in H;
          try discriminate H.
        classify H. destruct H as [H <-].
        injection H as ->. right. right. eauto.
    + exfalso. unfold Context._extract_result in H.
      destruct line as [|c line]; [discriminate|].
      cbn [is_empty] in H. rewrite Hl in H. discriminate.
  - intros [H|[[H ->]|(x & k & y & H & ->)]];
      rewrite (extract_result_decoded _ _ H); reflexivity.
Qed.

(** A two-item array whose status is not ["ok"]: a message that starts
    with [SyntaxError:] raises [RuntimeError], any other message raises
    [ProgramError], both with the message as it is; a value that is not a
    string raises [AttributeError]. *)
Theorem extract_result_failure (line : text) (status value : json) :
  json_loads line = Return (JArr [status; value]) ->
  Context.is_ok status = false ->
  Context._extract_result line =
  match value with
  | JStr msg =>
      if startswith (u "SyntaxError:") msg
      then Raise (RuntimeError (TextArg msg))
      else Raise (ProgramError (TextArg msg))
  | _ => Raise AttributeError
  end.
Proof.
  intros H Hok. rewrite (extract_result_decoded _ _ H). cbn. rewrite Hok. reflexivity.
Qed.

(** The status need not be ["err"], and a number is no message. *)
Lemma extract_result_failure_witness :
  Context._extract_result (u "[" ++ q "failed" ++ u ", " ++ q "TypeError: y" ++ u "]")
  = Raise (ProgramError (TextArg (u "TypeError: y")))
  /\ Context._extract_result (u "[" ++ q "err" ++ u ", 42]") = Raise AttributeError.
Proof.
  split.
  - exact (extract_result_failure
             (u "[" ++ q "failed" ++ u ", " ++ q "TypeError: y" ++ u "]")
             (JStr (u "failed")) (JStr (u "TypeError: y")) eq_refl eq_refl).
  - exact (extract_result_failure (u "[" ++ q "err" ++ u ", 42]")
             (JStr (u "err")) (JInt 42) eq_refl eq_refl).
Defined.

(** Lines that are no envelope raise built-in exceptions, none of them an
    [execjs.Error]: a line that is not JSON raises the [ValueError] of the
    decoder; an array of no item, or of more than two, raises the
    [ValueError] of the unpacking; a number, a boolean or [null] raises the
    [TypeError] of [len]. *)
Theorem extract_result_malformed (line : text) :
  (line <> [] -> forall e,
     json_loads line = Raise e ->
     Context._extract_result line = Raise ValueError)
  /\ (forall items,
        json_loads line = Return (JArr items) ->
        List.length items <> 1%nat -> List.length items <> 2%nat ->
        Context._extract_result line = Raise ValueError)
  /\ (forall v,
        json_loads line = Return v ->
        Context.py_len v = Raise TypeError ->
        Context._extract_result line = Raise TypeError)
  /\ is_library_error ValueError = false
  /\ is_library_error TypeError = false.
Proof.
  split; [|split; [|split; [|split; reflexivity]]].
  - intros Hne e H. rewrite (json_loads_raises _ _ H) in H.
    unfold Context._extract_result. destruct line as [|c line]; [congruence|].
    cbn [is_empty]. rewrite H. reflexivity.
  - intros items H H1 H2. rewrite (extract_result_decoded _ _ H).
    destruct items as [|a [|b [|c items]]]; cbn in *; congruence.
  - intros v H Hlen. rewrite (extract_result_decoded _ _ H), Hlen. reflexivity.
Qed.

Lemma extract_result_malformed_witness :
  Context._extract_result (u "Segmentation fault") = Raise ValueError
  /\ Context._extract_result (u "[]") = Raise ValueError
  /\ Context._extract_result (u "[1, 2, 3]") = Raise ValueError
  /\ Context._extract_result (u "null") = Raise TypeError.
Proof.
  split; [|split; [|split]].
  - exact (proj1 (extract_result_malformed (u "Segmentation fault"))
             ltac:(discriminate) ValueError eq_refl).
  - exact (proj1 (proj2 (extract_result_malformed (u "[]"))) [] eq_refl
             ltac:(discriminate) ltac:(discriminate)).
  - exact (proj1 (proj2 (extract_result_malformed (u "[1, 2, 3]")))
             [JInt 1; JInt 2; JInt 3] eq_refl ltac:(discriminate) ltac:(discriminate)).
  - exact (proj1 (proj2 (proj2 (extract_result_malformed (u "null")))) JNull
             eq_refl eq_refl).
Defined.

(** An object of two keys passes for an envelope. *)
Lemma extract_result_returns_witness :
  Context._extract_result (u "{" ++ q "ok" ++ u ": 1, " ++ q "b" ++ u ": 2}")
  = Return (JStr (u "b")).
Proof.
  apply extract_result_returns. right. right.
  exists (JInt 1), (u "b"), (JInt 2). split; reflexivity.
Defined.

(** ** Rendering of the runner templates *)

Section Render.

Variables source encoded json2 : text.

Lemma render_skip : forall k s,
  Context.render source encoded json2 k s
  = Context.render source encoded json2 0 (drop k s).
Proof.
  intros k s. revert k. induction s as [|c s IH]; intros k.
  - destruct k; reflexivity.
  - destruct k as [|k]; [reflexivity|]. cbn [Context.render drop]. apply IH.
Qed.

Lemma render_plain pre s :
  slot_free pre ->
  Context.render source encoded json2 0 (pre ++ s)
  = pre ++ Context.render source encoded json2 0 s.
Proof.
  induction 1 as [|c pre Hc _ IH]; [reflexivity|].
  cbn [app Context.render].
  assert (Hs : forall k r, startswith (35 :: k) (c :: r) = false).
  { intros k r. cbn [startswith]. destruct (N.eqb_spec 35 c); [congruence|reflexivity]. }
  change (u "#{source}") with (35 :: u "{source}").
  change (u "#{encoded_source}") with (35 :: u "{encoded_source}").
  change (u "#{json2_source}") with (35 :: u "{json2_source}").
  rewrite !Hs, IH. reflexivity.
Qed.

Lemma render_plain_all s :
  slot_free s -> Context.render source encoded json2 0 s = s.
Proof.
  intros H. rewrite <- (app_nil_r s) at 1. rewrite render_plain by exact H.
  cbn. apply app_nil_r.
Qed.

Lemma render_source_slot s :
  Context.render source encoded json2 0 (u "#{source}" ++ s)
  = source ++ Context.render source encoded json2 0 s.
Proof.
  change (u "#{source}" ++ s) with (35 :: (u "{source}" ++ s)).
  cbn [Context.render].
  change (startswith (u "#{source}") (35 :: u "{source}" ++ s))
    with (startswith [] s).
  destruct s; cbn [startswith]; rewrite render_skip; reflexivity.
Qed.

Lemma render_encoded_slot s :
  Context.render source encoded json2 0 (u "#{encoded_source}" ++ s)
  = encoded ++ Context.render source encoded json2 0 s.
Proof.
  change (u "#{encoded_source}" ++ s) with (35 :: (u "{encoded_source}" ++ s)).
  cbn [Context.render].
  change (startswith (u "#{source}") (35 :: u "{encoded_source}" ++ s)) with false.
  change (startswith (u "#{encoded_source}") (35 :: u "{encoded_source}" ++ s))
    with (startswith [] s).
  destruct s; cbn [startswith]; rewrite render_skip; reflexivity.
Qed.

Lemma render_json2_slot s :
  Context.render source encoded json2 0 (u "#{json2_source}" ++ s)
  = json2 ++ Context.render source encoded json2 0 s.
Proof.
  change (u "#{json2_source}" ++ s) with (35 :: (u "{json2_source}" ++ s)).
  cbn [Context.render].
  change (startswith (u "#{source}") (35 :: u "{json2_source}" ++ s)) with false.
  change (startswith (u "#{encoded_source}") (35 :: u "{json2_source}" ++ s)) with false.
  change (startswith (u "#{json2_source}") (35 :: u "{json2_source}" ++ s))
    with (startswith [] s).
  destruct s; cbn [startswith]; rewrite render_skip; reflexivity.
Qed.

End Render.

(** The substitution of [_compile] goes through the template once, from
    left to right: text without [#] is kept, each slot is replaced by its
    text, and the text put in place of a slot is not looked at again, so
    slot names inside the program stay as they are. *)
Theorem render_slots (source encoded json2 pre rest : text) :
  slot_free pre ->
  Context.render source encoded json2 0 pre = pre
  /\ Context.render source encoded json2 0 (pre ++ u "#{source}" ++ rest)
     = pre ++ source ++ Context.render source encoded json2 0 rest
  /\ Context.render source encoded json2 0 (pre ++ u "#{encoded_source}" ++ rest)
     = pre ++ encoded ++ Context.render source encoded json2 0 rest
  /\ Context.render source encoded json2 0 (pre ++ u "#{json2_source}" ++ rest)
     = pre ++ json2 ++ Context.render source encoded json2 0 rest.
Proof.
  intros Hpre. split; [apply render_plain_all; exact Hpre|].
  split; [|split].
  - rewrite (render_plain _ _ _ pre) by exact Hpre.
    rewrite render_source_slot. reflexivity.
  - rewrite (render_plain _ _ _ pre) by exact Hpre.
    rewrite render_encoded_slot. reflexivity.
  - rewrite (render_plain _ _ _ pre) by exact Hpre.
    rewrite render_json2_slot. reflexivity.
Qed.

(** A program that holds the name of a slot is put in place untouched. *)
Lemma render_slots_witness :
  slot_free (u "run(")
  /\ Context.render (u "x = '#{json2_source}'") (u "E") (u "J") 0
       (u "run(" ++ u "#{source}" ++ u ")")
     = u "run(x = '#{json2_source}')".
Proof.
  assert (H : slot_free (u "run(")) by (repeat constructor; discriminate).
  split; [exact H|].
  destruct (render_slots (u "x = '#{json2_source}'") (u "E") (u "J") (u "run(") (u ")") H)
    as (_ & H2 & _).
  rewrite H2. reflexivity.
Defined.

Lemma slot_free_check s :
  forallb (fun c => negb (c =? 35)) s = true -> slot_free s.
Proof.
  intros H. apply List.Forall_forall. intros c Hc.
  apply (proj1 (forallb_forall _ _) H) in Hc.
  destruct (N.eqb_spec c 35); [discriminate|assumption].
Qed.

Lemma is_ascii_check s :
  forallb (fun c => c <? 128) s = true -> Forall is_ascii s.
Proof.
  intros H. apply List.Forall_forall. intros c Hc.
  apply (proj1 (forallb_forall _ _) H) in Hc. apply N.ltb_lt. exact Hc.
Qed.

Lemma compile_run h r P source w n c tpl enc cache :
  heap w !! r = Some (ExternalRuntime n c tpl enc cache) ->
  Context._compile h (MkContext r P) source w
  = (Return (Context.render source (encoded_source source) (_json2_source h) 0 tpl), w).
Proof.
  intros H. unfold Context._compile, runner_source, bind, get_object.
  cbn [_runtime]. rewrite H. reflexivity.
Qed.

(** The five templates, cut at their slots. *)
Lemma node_template_parts :
  node_template = take 61 node_template ++ u "#{source}" ++ drop 70 node_template.
Proof. vm_compute. reflexivity. Qed.

Lemma spidermonkey_template_parts :
  spidermonkey_template
  = take 61 spidermonkey_template ++ u "#{source}"
    ++ take 26 (drop 70 spidermonkey_template) ++ u "#{json2_source}"
    ++ drop 111 spidermonkey_template.
Proof. vm_compute. reflexivity. Qed.

Lemma javascriptcore_template_parts :
  javascriptcore_template
  = take 75 javascriptcore_template ++ u "#{encoded_source}"
    ++ drop 92 javascriptcore_template.
Proof. vm_compute. reflexivity. Qed.

Lemma jscript_template_parts :
  jscript_template
  = take 75 jscript_template ++ u "#{encoded_source}"
    ++ take 28 (drop 92 jscript_template) ++ u "#{json2_source}"
    ++ drop 135 jscript_template.
Proof. vm_compute. reflexivity. Qed.

Lemma phantomjs_template_parts :
  phantomjs_template
  = take 76 phantomjs_template ++ u "#{encoded_source}" ++ drop 93 phantomjs_template.
Proof. vm_compute. reflexivity. Qed.

Section CompiledPrograms.

Variables source json2 : text.

Lemma render_node :
  Context.render source (encoded_source source) json2 0 node_template
  = take 61 node_template ++ source ++ drop 70 node_template.
Proof.
  rewrite node_template_parts at 1.
  rewrite render_plain by (apply slot_free_check; vm_compute; reflexivity).
  rewrite render_source_slot.
  rewrite render_plain_all by (apply slot_free_check; vm_compute; reflexivity).
  reflexivity.
Qed.

Lemma render_spidermonkey :
  Context.render source (encoded_source source) json2 0 spidermonkey_template
  = take 61 spidermonkey_template ++ source
    ++ take 26 (drop 70 spidermonkey_template) ++ json2
    ++ drop 111 spidermonkey_template.
Proof.
  rewrite spidermonkey_template_parts at 1.
  rewrite render_plain by (apply slot_free_check; vm_compute; reflexivity).
  rewrite render_source_slot.
  rewrite render_plain by (apply slot_free_check; vm_compute; reflexivity).
  rewrite render_json2_slot.
  rewrite render_plain_all by (apply slot_free_check; vm_compute; reflexivity).
  reflexivity.
Qed.

Lemma render_javascriptcore :
  Context.render source (encoded_source source) json2 0 javascriptcore_template
  = take 75 javascriptcore_template ++ encoded_source source
    ++ drop 92 javascriptcore_template.
Proof.
  rewrite javascriptcore_template_parts at 1.
  rewrite render_plain by (apply slot_free_check; vm_compute; reflexivity).
  rewrite render_encoded_slot.
  rewrite render_plain_all by (apply slot_free_check; vm_compute; reflexivity).
  reflexivity.
Qed.

Lemma render_jscript :
  Context.render source (encoded_source source) json2 0 jscript_template
  = take 75 jscript_template ++ encoded_source source
    ++ take 28 (drop 92 jscript_template) ++ json2
    ++ drop 135 jscript_template.
Proof.
  rewrite jscript_template_parts at 1.
  rewrite render_plain by (apply slot_free_check; vm_compute; reflexivity).
  rewrite render_encoded_slot.
  rewrite render_plain by (apply slot_free_check; vm_compute; reflexivity).
  rewrite render_json2_slot.
  rewrite render_plain_all by (apply slot_free_check; vm_compute; reflexivity).
  reflexivity.
Qed.

Lemma render_phantomjs :
  Context.render source (encoded_source source) json2 0 phantomjs_template
  = take 76 phantomjs_template ++ encoded_source source
    ++ drop 93 phantomjs_template.
Proof.
  rewrite phantomjs_template_parts at 1.
  rewrite render_plain by (apply slot_free_check; vm_compute; reflexivity).
  rewrite render_encoded_slot.
  rewrite render_plain_all by (apply slot_free_check; vm_compute; reflexivity).
  reflexivity.
Qed.

End CompiledPrograms.

Lemma encoded_source_ascii source : Forall is_ascii (encoded_source source).
Proof.
  eapply Forall_impl; [apply json_dumps_str_printable|].
  intros c Hc. apply printable_ascii. exact Hc.
Qed.

(** For the templates of Node and SpiderMonkey, [_compile] returns the
    template with the program, as it is, in place of the slot [#{source}]:
    right after the opening of the wrapping function, [#{json2_source}]
    being replaced by the polyfill in the template of SpiderMonkey. *)
Theorem compile_raw_templates (h : host) (w : world) (r : nat) (preamble : text)
  (n : text) (c : command) (enc : text) (cache : option (option (list text)))
  (source : text) :
  (heap w !! r = Some (ExternalRuntime n c node_template enc cache) ->
   Context._compile h (MkContext r preamble) source w
   = (Return (take 61 node_template ++ source ++ drop 70 node_template), w))
  /\ (heap w !! r = Some (ExternalRuntime n c spidermonkey_template enc cache) ->
      Context._compile h (MkContext r preamble) source w
      = (Return (take 61 spidermonkey_template ++ source
                 ++ take 26 (drop 70 spidermonkey_template) ++ _json2_source h
                 ++ drop 111 spidermonkey_template), w))
  /\ take 61 node_template
     = u "(function(program, execJS) { execJS(program) })(function() { "
  /\ take 61 spidermonkey_template = take 61 node_template.
Proof.
  split; [|split; [|split; vm_compute; reflexivity]].
  - intros H. rewrite (compile_run _ _ _ _ _ _ _ _ _ _ H), render_node. reflexivity.
  - intros H. rewrite (compile_run _ _ _ _ _ _ _ _ _ _ H), render_spidermonkey.
    reflexivity.
Qed.

(** The Node runtime of [repo_world], on a program that is not ASCII. *)
Lemma compile_raw_templates_witness :
  heap repo_world !! 2%nat
  = Some (ExternalRuntime (u "Node.js (V8)") (CmdList [u "node"]) node_template
            (u "UTF-8") (Some (Some [u "/usr/bin/node"])))
  /\ Context._compile demo (MkContext 2 []) [114; 233] repo_world
     = (Return (take 61 node_template ++ [114; 233] ++ drop 70 node_template),
        repo_world).
Proof.
  assert (H : heap repo_world !! 2%nat
              = Some (ExternalRuntime (u "Node.js (V8)") (CmdList [u "node"])
                        node_template (u "UTF-8") (Some (Some [u "/usr/bin/node"]))))
    by (vm_compute; reflexivity).
  split; [exact H|].
  exact (proj1 (compile_raw_templates demo repo_world 2 [] _ _ _ _ [114; 233]) H).
Defined.

(** For the templates of JavaScriptCore, JScript and PhantomJS (which is
    also the template of SlimerJS), the program [_compile] returns is ASCII
    whatever the source, provided the polyfill is: the source only enters it
    through [#{encoded_source}]. *)
Theorem compile_encoded_templates_ascii (h : host) (w : world) (r : nat)
  (preamble : text) (n : text) (c : command) (tpl enc : text)
  (cache : option (option (list text))) (source : text) :
  heap w !! r = Some (ExternalRuntime n c tpl enc cache) ->
  tpl = javascriptcore_template \/ tpl = jscript_template \/ tpl = phantomjs_template ->
  Forall is_ascii (_json2_source h) ->
  exists program,
    Context._compile h (MkContext r preamble) source w = (Return program, w)
    /\ Forall is_ascii program.
Proof.
  intros H Htpl Hjs. eexists. split; [apply (compile_run _ _ _ _ _ _ _ _ _ _ H)|].
  pose proof (encoded_source_ascii source) as He.
  destruct Htpl as [-> | [-> | ->]].
  - rewrite render_javascriptcore.
    repeat (apply Forall_app; split); try assumption;
      apply is_ascii_check; vm_compute; reflexivity.
  - rewrite render_jscript.
    repeat (apply Forall_app; split); try assumption;
      apply is_ascii_check; vm_compute; reflexivity.
  - rewrite render_phantomjs.
    repeat (apply Forall_app; split); try assumption;
      apply is_ascii_check; vm_compute; reflexivity.
Qed.

(** The JScript runtime of [repo_world], whose encoding is [ascii]. *)
Lemma compile_encoded_templates_ascii_witness :
  heap repo_world !! 5%nat
  = Some (ExternalRuntime (u "JScript")
            (CmdList [u "cscript"; u "//E:jscript"; u "//Nologo"]) jscript_template
            (u "ascii") (Some None))
  /\ Forall is_ascii (_json2_source demo)
  /\ exists program,
       Context._compile demo (MkContext 5 []) [114; 233; 128512] repo_world
       = (Return program, repo_world)
       /\ Forall is_ascii program.
Proof.
  assert (H : heap repo_world !! 5%nat
              = Some (ExternalRuntime (u "JScript")
                        (CmdList [u "cscript"; u "//E:jscript"; u "//Nologo"])
                        jscript_template (u "ascii") (Some None)))
    by (vm_compute; reflexivity).
  assert (Hjs : Forall is_ascii (_json2_source demo)) by constructor.
  split; [exact H|]. split; [exact Hjs|].
  exact (compile_encoded_templates_ascii demo repo_world 5 [] _ _ _ _ _
           [114; 233; 128512] H (or_intror (or_introl eq_refl)) Hjs).
Defined.

(** ** What the locator returns *)

(** A file [_find_executable] returns lies in a directory of the search
    path, is named by the program and one of the suffixes, and is a regular
    file with an execute permission bit; when it returns [None] no such
    file exists for any directory and suffix. *)
Theorem find_executable_sound_complete (h : host) (prog : text) (pathext : list text) :
  (forall filename,
     _find_executable h prog pathext = Some filename ->
     exists dir ext mode,
       In dir (split (pathsep h) (environ_get h (u "PATH") []))
       /\ In ext pathext
       /\ filename = path_join h dir (prog ++ ext)
       /\ os_stat h filename = Some mode
       /\ S_ISREG mode = true
       /\ N.land (S_IMODE mode) 73 <> 0)
  /\ (_find_executable h prog pathext = None ->
      forall dir ext,
        In dir (split (pathsep h) (environ_get h (u "PATH") [])) ->
        In ext pathext ->
        match os_stat h (path_join h dir (prog ++ ext)) with
        | Some mode => regular_executable mode = false
        | None => True
        end).
Proof.
  rewrite find_executable_first_match. unfold candidate_files. split.
  - intros filename H. apply find_some in H. destruct H as [Hin Hm].
    apply in_flat_map in Hin. destruct Hin as (dir & Hdir & Hin).
    apply in_map_iff in Hin. destruct Hin as (ext & <- & Hext).
    unfold is_match in Hm.
    destruct (os_stat h (path_join h dir (prog ++ ext))) as [mode|] eqn:Hs;
      [|discriminate].
    exists dir, ext, mode. repeat split; auto.
    + unfold regular_executable in Hm. apply andb_true_iff in Hm. tauto.
    + unfold regular_executable in Hm. apply andb_true_iff in Hm.
      destruct Hm as [_ Hm]. apply negb_true_iff in Hm. apply N.eqb_neq. exact Hm.
  - intros H dir ext Hdir Hext.
    pose proof (find_none _ _ H (path_join h dir (prog ++ ext))) as Hn.
    unfold is_match in Hn.
    destruct (os_stat h (path_join h dir (prog ++ ext))); [|exact I].
    apply Hn. apply in_flat_map. exists dir. split; [exact Hdir|].
    apply in_map_iff. exists ext. auto.
Qed.

Lemma find_executable_sound_complete_witness :
  _find_executable demo (u "node") [[]] = Some (u "/usr/bin/node")
  /\ exists dir ext mode,
       In dir (split (pathsep demo) (environ_get demo (u "PATH") []))
       /\ In ext [[]]
       /\ u "/usr/bin/node" = path_join demo dir (u "node" ++ ext)
       /\ os_stat demo (u "/usr/bin/node") = Some mode
       /\ S_ISREG mode = true
       /\ N.land (S_IMODE mode) 73 <> 0.
Proof.
  assert (H : _find_executable demo (u "node") [[]] = Some (u "/usr/bin/node"))
    by reflexivity.
  split; [exact H|].
  exact (proj1 (find_executable_sound_complete demo (u "node") [[]]) _ H).
Defined.

(** Without the variable [PATH], or with an empty one, the search path is
    the single directory of the empty name: the program is looked up by its
    bare name, that is in the current directory. *)
Theorem find_executable_without_path (h : host) (prog : text) (pathext : list text) :
  environ h (u "PATH") = None \/ environ h (u "PATH") = Some [] ->
  _find_executable h prog pathext = find_in_dir h prog [] pathext.
Proof.
  intros H. unfold _find_executable, environ_get.
  destruct H as [-> | ->]; cbn [split find_in_path];
    destruct (find_in_dir h prog [] pathext); reflexivity.
Qed.

Lemma find_executable_without_path_witness :
  (environ demo_no_path (u "PATH") = None
   \/ environ demo_no_path (u "PATH") = Some [])
  /\ _which demo_no_path (CmdStr (u "node")) = Return (Some [u "node"]).
Proof.
  split; [left; reflexivity|].
  unfold _which. cbn [command_tokens is_windows demo_no_path].
  rewrite (find_executable_without_path demo_no_path (u "node") [[]]
             (or_introl eq_refl)).
  reflexivity.
Defined.

(** ** Availability is decided once *)

Lemma available_settles h o b : available h o = Return b -> settled (probed h o).
Proof.
  destruct o as [n c rs enc [x|]|a]; cbn; auto.
  destruct (_which h c); cbn; [auto|discriminate].
Qed.

Lemma settled_available h h' o :
  settled o ->
  available h' o = available h o
  /\ probed h' o = o
  /\ exists b, available h o = Return b.
Proof.
  destruct o as [n c rs enc [x|]|a]; cbn; intros H; try contradiction; eauto.
Qed.

(** Once [is_available()] has returned for a runtime, every later call
    returns the same answer and changes nothing, whatever has become of the
    files and of the environment in between: the located binary is kept in
    [_binary_cache]. *)
Theorem is_available_cached (h h' : host) (r : nat) (w : world) (a : bool) :
  fst (is_available h r w) = Return a ->
  is_available h' r (snd (is_available h r w))
  = (Return a, snd (is_available h r w)).
Proof.
  destruct (heap w !! r) as [o|] eqn:Ho.
  - rewrite (is_available_run h r w o Ho). cbn [fst snd]. intros Ha.
    pose proof (available_settles h o a Ha) as Hs.
    destruct (settled_available h h' _ Hs) as (Hav & Hpr & _).
    assert (Hlk : heap (set_heap w (<[r := probed h o]> (heap w))) !! r
                  = Some (probed h o)).
    { cbn [heap set_heap]. apply list_lookup_insert_eq.
      eapply lookup_lt_Some. exact Ho. }
    rewrite (is_available_run h' r _ _ Hlk), Hpr, Hav, available_probed, Ha.
    rewrite set_heap_same by exact Hlk. reflexivity.
  - rewrite (is_available_dangling h r w Ho). discriminate.
Qed.

(** A runtime found available where [js] is installed still says so on a
    host where it is not. *)
Lemma is_available_cached_witness :
  fst (is_available demo 0 fresh_js_world) = Return true
  /\ fst (is_available demo_no_path 0 fresh_js_world) = Return false
  /\ fst (is_available demo_no_path 0 (snd (is_available demo 0 fresh_js_world)))
     = Return true.
Proof.
  assert (H : fst (is_available demo 0 fresh_js_world) = Return true)
    by (vm_compute; reflexivity).
  split; [exact H|]. split; [vm_compute; reflexivity|].
  rewrite (is_available_cached demo demo_no_path 0 fresh_js_world true H).
  reflexivity.
Defined.

(** ** The registry after the import *)

Lemma od_set_in_inv {V} (d : list (text * V)) k0 v k r :
  In (k, r) (od_set d k0 v) -> (k = k0 /\ r = v) \/ In (k, r) d.
Proof.
  induction d as [|[k1 v1] d IH]; cbn [od_set].
  - intros [H|[]]. injection H as <- <-. auto.
  - destruct (text_eqb k1 k0).
    + intros [H|H]; [injection H as <- <-; auto|right; right; exact H].
    + intros [H|H]; [right; left; exact H|].
      destruct (IH H); [auto|right; right; assumption].
Qed.

Lemma bind_names_in_inv names r0 : forall d k r,
  In (k, r) (bind_names names r0 d) -> r = r0 \/ In (k, r) d.
Proof.
  unfold bind_names. induction names as [|n names IH]; intros d k r H; [auto|].
  cbn [fold_left] in H. apply IH in H. destruct H as [H|H]; [auto|].
  apply od_set_in_inv in H. tauto.
Qed.

Lemma od_get_in {V} (d : list (text * V)) k v : od_get d k = Some v -> In (k, v) d.
Proof.
  induction d as [|[k1 v1] d IH]; cbn [od_get]; [discriminate|].
  unfold text_eqb. case_bool_decide as Hk.
  - intros Hv. injection Hv as <-. subst. left. reflexivity.
  - intros Hv. right. apply IH. exact Hv.
Qed.

Section Settled.

Variable h : host.

Lemma candidate_object_settled cls kw c o b :
  candidate_object h cls kw c = Some o ->
  available h o = Return b ->
  settled o.
Proof.
  unfold candidate_object. destruct (init_runtime h cls c kw) as [o0|]; [|discriminate].
  cbn. intros H Hav. injection H as <-.
  rewrite available_probed in Hav. eapply available_settles. exact Hav.
Qed.

(** The loop over the candidates keeps the registry settled. *)
Lemma try_commands_settled cls kw names :
  well_formed_kwargs cls kw = true ->
  forall commands d w,
    forallb (well_formed_command cls) commands = true ->
    (forall k r, In (k, r) d -> exists o, heap w !! r = Some o /\ settled o) ->
    exists d' w',
      try_commands h cls kw names commands d w = (Return d', w')
      /\ (forall k r, In (k, r) d' -> exists o, heap w' !! r = Some o /\ settled o)
      /\ files w' = files w.
Proof.
  intros Hkw. induction commands as [|c rest IH]; intros d w Hwf Hinv.
  - exists d, w. auto.
  - apply forallb_cons_inv in Hwf. destruct Hwf as [Hc Hrest].
    destruct (try_commands_step h cls kw names c rest d w Hkw Hc)
      as (o & Hobj & Hav & Hstep).
    pose proof (candidate_object_settled _ _ _ _ _ Hobj Hav) as Hso.
    assert (Hinv1 : forall k r,
               In (k, r) (bind_names names (List.length (heap w)) d) ->
               exists o', heap (set_heap w (heap w ++ [o])) !! r = Some o'
                          /\ settled o').
    { intros k r Hin. cbn [heap set_heap].
      apply bind_names_in_inv in Hin. destruct Hin as [->|Hin].
      - exists o. split; [apply list_lookup_middle; reflexivity|exact Hso].
      - destruct (Hinv k r Hin) as (o' & Hlk & Hs).
        exists o'. split; [apply lookup_app_l_Some; exact Hlk|exact Hs]. }
    rewrite Hstep. destruct (candidate_available h cls kw c).
    + eexists _, _. split; [reflexivity|]. split; [exact Hinv1|reflexivity].
    + destruct (IH _ _ Hrest Hinv1) as (d' & w' & Hrun & Hinv' & Hf).
      exists d', w'. split; [exact Hrun|]. split; [exact Hinv'|].
      rewrite Hf. reflexivity.
Qed.

(** The loop over the families keeps the registry settled. *)
Lemma setup_families_settled cfg : forall order d w,
  Forall (fun nm => exists c, od_get cfg nm = Some c /\ well_formed_family c = true)
    order ->
  (forall k r, In (k, r) d -> exists o, heap w !! r = Some o /\ settled o) ->
  exists d' w',
    setup_families h cfg order d w = (Return d', w')
    /\ (forall k r, In (k, r) d' -> exists o, heap w' !! r = Some o /\ settled o)
    /\ files w' = files w.
Proof.
  induction order as [|nm rest IH]; intros d w Hfam Hinv.
  - exists d, w. auto.
  - inversion Hfam as [|? ? (c & Hc & Hwf) Hfam']; subst.
    unfold well_formed_family in Hwf.
    apply andb_true_iff in Hwf. destruct Hwf as [Hwf Hkw].
    apply andb_true_iff in Hwf. destruct Hwf as [_ Hcmds].
    destruct (try_commands_settled (class_of c) (kwargs c) (family_names nm c) Hkw
                (commands_to_try c) d w Hcmds Hinv)
      as (d1 & w1 & Hrun & Hinv1 & Hf1).
    destruct (IH d1 w1 Hfam' Hinv1) as (d' & w' & Hrun' & Hinv' & Hf').
    exists d', w'. cbn [setup_families]. rewrite Hc. unfold bind.
    fold (class_of c). rewrite Hrun, Hrun'.
    split; [reflexivity|]. split; [exact Hinv'|]. congruence.
Qed.

End Settled.

(** After the import every runtime of the registry has its availability
    decided, and the files are as before. *)
Lemma module_init_settled h rs w :
  fst (module_init h rs w) = Return tt
  /\ registry_settled (snd (module_init h rs w))
  /\ files (snd (module_init h rs w)) = files w.
Proof.
  destruct (config_well_formed rs) as [Hfam _].
  destruct (setup_families_settled h (config rs) runtime_preferred_order [] w Hfam)
    as (d & w' & Hrun & Hinv & Hf); [intros k r []|].
  unfold module_init, bind, _setup_runtimes, setup_runtimes_with. rewrite Hrun.
  cbn [fst snd]. split; [reflexivity|]. split; [|exact Hf].
  intros k r Hin. cbn [_runtimes set_runtimes heap] in *. exact (Hinv k r Hin).
Qed.

Section SettledSelector.

Variable h : host.

Lemma is_available_settled r w o :
  heap w !! r = Some o -> settled o ->
  is_available h r w = (available h o, w).
Proof.
  intros Ho Hs. rewrite (is_available_run h r w o Ho).
  destruct (settled_available h h o Hs) as (_ & -> & _).
  rewrite set_heap_same by exact Ho. reflexivity.
Qed.

Lemma first_available_settled : forall vals w,
  (forall r, In r vals -> exists o, heap w !! r = Some o /\ settled o) ->
  (exists r, first_available h vals w = (Return r, w))
  \/ first_available h vals w
     = (Raise (RuntimeUnavailable (TextArg (u "Could not find a JavaScript runtime."))), w).
Proof.
  induction vals as [|x vals IH]; intros w Hall; cbn [first_available].
  - right. reflexivity.
  - destruct (Hall x (or_introl eq_refl)) as (o & Ho & Hs).
    unfold bind. rewrite (is_available_settled x w o Ho Hs).
    destruct (settled_available h h o Hs) as (_ & _ & b & ->).
    destruct b.
    + left. exists x. reflexivity.
    + apply IH. intros r Hr. apply Hall. right. exact Hr.
Qed.

Lemma get_named_settled nm w :
  registry_settled w ->
  get_named h nm w =
  (match od_get (_runtimes w) nm with
   | None => Raise (RuntimeUnavailable (TextArg (nm ++ u " runtime is not defined")))
   | Some r =>
       match heap w !! r with
       | Some o =>
           match available h o with
           | Return true => Return r
           | Return false =>
               Raise (RuntimeUnavailable
                        (TextArg (name o ++ u " runtime is not available on this system")))
           | Raise e => Raise e
           end
       | None => Raise AttributeError
       end
   end, w).
Proof.
  intros Hreg. unfold get_named, bind, runtimes.
  destruct (od_get (_runtimes w) nm) as [r|] eqn:Hr; [|reflexivity].
  destruct (Hreg nm r (od_get_in _ _ _ Hr)) as (o & Ho & Hs).
  rewrite (is_available_settled r w o Ho Hs), Ho.
  destruct (settled_available h h o Hs) as (_ & _ & b & ->).
  destruct b; cbn; [reflexivity|].
  unfold get_object. rewrite Ho. reflexivity.
Qed.

Lemma get_named_settled_outcome nm w :
  registry_settled w ->
  snd (get_named h nm w) = w
  /\ ((exists r, fst (get_named h nm w) = Return r)
      \/ (exists msg, fst (get_named h nm w) = Raise (RuntimeUnavailable msg))).
Proof.
  intros Hreg. rewrite (get_named_settled nm w Hreg). cbn [fst snd].
  split; [reflexivity|].
  destruct (od_get (_runtimes w) nm) as [r|] eqn:Hr; [|eauto].
  destruct (Hreg nm r (od_get_in _ _ _ Hr)) as (o & Ho & Hs). rewrite Ho.
  destruct (settled_available h h o Hs) as (_ & _ & b & ->).
  destruct b; eauto.
Qed.

(** On a settled registry [get] changes nothing and either returns a
    runtime or raises [RuntimeUnavailable]. *)
Lemma get_settled nm w :
  registry_settled w ->
  snd (get h nm w) = w
  /\ ((exists r, fst (get h nm w) = Return r)
      \/ (exists msg, fst (get h nm w) = Raise (RuntimeUnavailable msg))).
Proof.
  intros Hreg. destruct nm as [nm|]; cbn [get].
  - apply get_named_settled_outcome. exact Hreg.
  - unfold _auto_detect, bind, get_from_environment.
    assert (Hauto : snd (first_available h (od_values (_runtimes w)) w) = w
              /\ ((exists r, fst (first_available h (od_values (_runtimes w)) w) = Return r)
                  \/ (exists msg, fst (first_available h (od_values (_runtimes w)) w)
                                  = Raise (RuntimeUnavailable msg)))).
    { destruct (first_available_settled (od_values (_runtimes w)) w) as [(r & ->)| ->].
      - intros r Hr. unfold od_values in Hr. apply in_map_iff in Hr.
        destruct Hr as ([k r'] & <- & Hin). exact (Hreg k r' Hin).
      - cbn. eauto.
      - cbn. eauto. }
    destruct (environ h (u "EXECJS_RUNTIME")) as [[|c nm]|]; cbn [is_empty ret];
      try exact Hauto.
    unfold bind.
    destruct (get_named_settled_outcome (c :: nm) w Hreg) as (Hw & Hout).
    destruct (get_named h (c :: nm) w) as [[r|e] w']; cbn [fst snd] in *; subst w'.
    + split; [reflexivity|]. left. eauto.
    + split; [reflexivity|]. exact Hout.
Qed.

End SettledSelector.

(** After the import, on whatever host it was done, a call of [get] on any
    later host changes nothing, probes nothing and either returns a runtime
    or raises [RuntimeUnavailable]; and [get(name)] has the outcome it had at
    the import: a binary installed or removed since then goes unnoticed. *)
Theorem get_after_import (h h' : host) (rs : runner_sources) (w0 : world)
  (nm : option text) (n : text) :
  snd (get h' nm (snd (module_init h rs w0))) = snd (module_init h rs w0)
  /\ ((exists r, fst (get h' nm (snd (module_init h rs w0))) = Return r)
      \/ (exists msg, fst (get h' nm (snd (module_init h rs w0)))
                      = Raise (RuntimeUnavailable msg)))
  /\ fst (get h' (Some n) (snd (module_init h rs w0)))
     = fst (get h (Some n) (snd (module_init h rs w0))).
Proof.
  destruct (module_init_settled h rs w0) as (_ & Hreg & _).
  destruct (get_settled h' nm _ Hreg) as (Hw & Hout).
  split; [exact Hw|]. split; [exact Hout|].
  cbn [get]. rewrite !get_named_settled by exact Hreg. cbn [fst].
  destruct (od_get _ n) as [r|] eqn:Hr; [|reflexivity].
  destruct (Hreg n r (od_get_in _ _ _ Hr)) as (o & Ho & Hs). rewrite Ho.
  destruct (settled_available h h' o Hs) as (-> & _ & _). reflexivity.
Qed.

(** SpiderMonkey was found at the import; on a host without [js] it is
    still returned. *)
Lemma get_after_import_witness :
  fst (get demo_no_path (Some (u "SpiderMonkey")) (snd (module_init demo demo_templates empty_world)))
  = Return 4%nat.
Proof.
  destruct (get_after_import demo demo_no_path demo_templates empty_world None
              (u "SpiderMonkey")) as (_ & _ & H).
  rewrite H. vm_compute. reflexivity.
Defined.

(** ** [register] *)

Lemma is_available_set_runtimes h r w d :
  is_available h r (set_runtimes w d)
  = (fst (is_available h r w), set_runtimes (snd (is_available h r w)) d).
Proof.
  destruct (heap w !! r) as [o|] eqn:Ho.
  - rewrite (is_available_run h r (set_runtimes w d) o) by exact Ho.
    rewrite (is_available_run h r w o Ho). reflexivity.
  - rewrite (is_available_dangling h r (set_runtimes w d)) by exact Ho.
    rewrite (is_available_dangling h r w Ho). reflexivity.
Qed.

(** The outcome of [get(name)] is read off the entry of the name and the
    objects, whatever else the registry holds. *)
Lemma get_named_outcome h nm w :
  fst (get_named h nm w) =
  match od_get (_runtimes w) nm with
  | None => Raise (RuntimeUnavailable (TextArg (nm ++ u " runtime is not defined")))
  | Some r =>
      match heap w !! r with
      | Some o =>
          match available h o with
          | Return true => Return r
          | Return false =>
              Raise (RuntimeUnavailable
                       (TextArg (name o ++ u " runtime is not available on this system")))
          | Raise e => Raise e
          end
      | None => Raise AttributeError
      end
  end.
Proof.
  destruct (od_get (_runtimes w) nm) as [r|] eqn:Hr.
  - destruct (heap w !! r) as [o|] eqn:Ho.
    + apply get_named_known; assumption.
    + unfold get_named, bind, runtimes. rewrite Hr.
      rewrite (is_available_dangling h r w Ho). reflexivity.
  - rewrite get_named_unknown by exact Hr. reflexivity.
Qed.

(** After [register(name, runtime)], [get(name)] returns that runtime when
    it is available and raises [RuntimeUnavailable] with its name when it is
    not, whether the name was known or not; the outcome of [get] for every
    other name is as before. *)
Theorem register_then_get (h : host) (w : world) (nm other : text) (r : nat)
  (o : runtime) :
  heap w !! r = Some o ->
  fst (get h (Some nm) (snd (register nm r w)))
  = match available h o with
    | Return true => Return r
    | Return false =>
        Raise (RuntimeUnavailable
                 (TextArg (name o ++ u " runtime is not available on this system")))
    | Raise e => Raise e
    end
  /\ (other <> nm ->
      fst (get h (Some other) (snd (register nm r w))) = fst (get h (Some other) w)).
Proof.
  intros Ho. cbn [get register snd]. rewrite !get_named_outcome.
  cbn [_runtimes set_runtimes heap]. rewrite !od_get_set. unfold text_eqb. split.
  - rewrite bool_decide_true by reflexivity. rewrite Ho. reflexivity.
  - intros Hne. rewrite bool_decide_false by congruence. reflexivity.
Qed.

(** On [demo_world]: the object of the absent [nodejs], registered as
    [Legacy], is known and unavailable; Node is untouched. *)
Lemma register_then_get_witness :
  fst (get demo (Some (u "Legacy")) (snd (register (u "Legacy") 1 demo_world)))
  = Raise (RuntimeUnavailable
             (TextArg (u "Node.js (V8) runtime is not available on this system")))
  /\ fst (get demo (Some (u "Node")) (snd (register (u "Legacy") 1 demo_world)))
     = Return 2%nat.
Proof.
  destruct (register_then_get demo demo_world (u "Legacy") (u "Node") 1
              (ExternalRuntime (u "Node.js (V8)") (CmdList [u "nodejs"])
                 (node demo_templates) (u "UTF-8") (Some None)) eq_refl)
    as [H1 H2].
  split; [rewrite H1; reflexivity|].
  rewrite (H2 ltac:(discriminate)). vm_compute. reflexivity.
Defined.

Lemma od_set_fresh {V} (d : list (text * V)) k v :
  od_get d k = None -> od_set d k v = d ++ [(k, v)].
Proof.
  induction d as [|[k1 v1] d IH]; cbn [od_get od_set app]; [reflexivity|].
  destruct (text_eqb k1 k); [discriminate|]. intros H. rewrite IH by exact H.
  reflexivity.
Qed.

Lemma od_set_keys_known {V} (d : list (text * V)) k v v0 :
  od_get d k = Some v0 -> od_keys (od_set d k v) = od_keys d.
Proof.
  unfold od_keys.
  induction d as [|[k1 v1] d IH]; cbn [od_get od_set List.map]; [discriminate|].
  unfold text_eqb. case_bool_decide as Hk.
  - subst. reflexivity.
  - intros H. cbn [List.map fst]. rewrite IH by exact H. reflexivity.
Qed.

Lemma first_available_app h vals extra : forall w r0,
  fst (first_available h vals w) = Return r0 ->
  fst (first_available h (vals ++ extra) w) = Return r0.
Proof.
  induction vals as [|x vals IH]; intros w r0; cbn [app first_available].
  - discriminate.
  - unfold bind. destruct (is_available h x w) as [[[|]|e] w'].
    + auto.
    + apply IH.
    + auto.
Qed.

Lemma first_available_set_runtimes h vals d : forall w,
  fst (first_available h vals (set_runtimes w d)) = fst (first_available h vals w).
Proof.
  induction vals as [|x vals IH]; intros w; cbn [first_available]; [reflexivity|].
  unfold bind. rewrite is_available_set_runtimes.
  destruct (is_available h x w) as [[[|]|e] w']; cbn [fst snd]; auto.
Qed.

Lemma get_none_override h w c n :
  environ h (u "EXECJS_RUNTIME") = Some (c :: n) ->
  fst (get h None w) = fst (get_named h (c :: n) w).
Proof.
  intros Henv. cbn [get]. unfold _auto_detect, bind at 1, get_from_environment.
  rewrite Henv. cbn [is_empty]. unfold bind.
  destruct (get_named h (c :: n) w) as [[r|e] w']; reflexivity.
Qed.

Lemma get_none_auto h w :
  environ h (u "EXECJS_RUNTIME") = None \/ environ h (u "EXECJS_RUNTIME") = Some [] ->
  get h None w = first_available h (od_values (_runtimes w)) w.
Proof.
  intros Henv. cbn [get]. unfold _auto_detect, bind, get_from_environment.
  destruct Henv as [-> | ->]; reflexivity.
Qed.

(** A runtime registered under a new name comes last in the registry: when
    [get()] returned a runtime, it returns the same one afterwards.  A
    runtime registered under a name of the registry takes the place of the
    former one, the order of the names being unchanged. *)
Theorem register_order (h : host) (w : world) (nm : text) (r : nat) :
  (od_get (_runtimes w) nm = None ->
   od_keys (_runtimes (snd (register nm r w))) = od_keys (_runtimes w) ++ [nm]
   /\ forall r0,
        fst (get h None w) = Return r0 ->
        fst (get h None (snd (register nm r w))) = Return r0)
  /\ (forall r1,
        od_get (_runtimes w) nm = Some r1 ->
        od_keys (_runtimes (snd (register nm r w))) = od_keys (_runtimes w)).
Proof.
  cbn [register snd _runtimes set_runtimes]. split.
  - intros Hnew. rewrite (od_set_fresh _ _ _ Hnew). split.
    + unfold od_keys. rewrite List.map_app. reflexivity.
    + intros r0 H0.
      destruct (environ h (u "EXECJS_RUNTIME")) as [[|c n]|] eqn:Henv.
      * rewrite (get_none_auto h w) in H0 by auto.
        rewrite get_none_auto by auto.
        cbn [_runtimes set_runtimes]. rewrite first_available_set_runtimes.
        unfold od_values. rewrite List.map_app. apply first_available_app. exact H0.
      * rewrite (get_none_override h w _ _ Henv), get_named_outcome in H0.
        rewrite (get_none_override _ _ _ _ Henv), get_named_outcome.
        cbn [_runtimes set_runtimes heap].
        destruct (decide (c :: n = nm)) as [Heq|Hne].
        -- rewrite Heq, Hnew in H0. discriminate.
        -- assert (Hsame : od_get (_runtimes w ++ [(nm, r)]) (c :: n)
                           = od_get (_runtimes w) (c :: n)).
           { rewrite <- (od_set_fresh _ _ _ Hnew), od_get_set. unfold text_eqb.
             rewrite bool_decide_false by congruence. reflexivity. }
           rewrite Hsame. exact H0.
      * rewrite (get_none_auto h w) in H0 by auto.
        rewrite get_none_auto by auto.
        cbn [_runtimes set_runtimes]. rewrite first_available_set_runtimes.
        unfold od_values. rewrite List.map_app. apply first_available_app. exact H0.
  - intros r1 H1. apply (od_set_keys_known _ _ _ _ H1).
Qed.

(** On [demo_world], registering the SpiderMonkey object under a new name
    leaves Node the default; registering it as [Node] keeps the names. *)
Lemma register_order_witness :
  fst (get demo None demo_world) = Return 2%nat
  /\ fst (get demo None (snd (register (u "Mine") 4 demo_world))) = Return 2%nat
  /\ od_keys (_runtimes (snd (register (u "Node") 4 demo_world)))
     = od_keys (_runtimes demo_world).
Proof.
  assert (H0 : fst (get demo None demo_world) = Return 2%nat) by (vm_compute; reflexivity).
  split; [exact H0|].
  destruct (register_order demo demo_world (u "Mine") 4) as [Hnew _].
  destruct (Hnew eq_refl) as [_ Hget].
  split; [exact (Hget _ H0)|].
  destruct (register_order demo demo_world (u "Node") 4) as [_ Hold].
  exact (Hold 2%nat eq_refl).
Defined.

(** ** [available_runtimes] *)

Lemma od_get_none {V} (d : list (text * V)) k :
  ~ In k (od_keys d) -> od_get d k = None.
Proof.
  unfold od_keys. induction d as [|[k1 v1] d IH]; cbn [od_get List.map In fst];
    [reflexivity|].
  intros H. unfold text_eqb. case_bool_decide as Hk; [tauto|].
  apply IH. tauto.
Qed.

Lemma dict_of_app {V} (pairs : list (text * V)) : forall acc,
  NoDup (od_keys (acc ++ pairs)) ->
  fold_left (fun d kv => od_set d (fst kv) (snd kv)) pairs acc = acc ++ pairs.
Proof.
  induction pairs as [|[k v] pairs IH]; intros acc Hnd; cbn [fold_left fst snd].
  - rewrite app_nil_r. reflexivity.
  - assert (Hk : ~ In k (od_keys acc)).
    { unfold od_keys in *. rewrite List.map_app in Hnd. cbn [List.map fst] in Hnd.
      apply NoDup_app in Hnd. destruct Hnd as (_ & Hdis & _).
      intros Hin. apply (Hdis k); [apply list_elem_of_In; exact Hin|].
      left. }
    rewrite (od_set_fresh _ _ _ (od_get_none _ _ Hk)).
    rewrite IH by (rewrite <- app_assoc; exact Hnd).
    rewrite <- app_assoc. reflexivity.
Qed.

(** [dict(pairs)] of pairs with distinct keys is the list of the pairs. *)
Lemma dict_of_nodup {V} (pairs : list (text * V)) :
  NoDup (od_keys pairs) -> dict_of pairs = pairs.
Proof. intros H. unfold dict_of. rewrite dict_of_app by exact H. reflexivity. Qed.

Lemma filter_keys_in {V} (p : text * V -> bool) (d : list (text * V)) k :
  In k (od_keys (List.filter p d)) -> In k (od_keys d).
Proof.
  unfold od_keys. intros H. apply in_map_iff in H. destruct H as (kv & <- & Hin).
  apply filter_In in Hin. apply in_map. tauto.
Qed.

Lemma filter_keys_nodup {V} (p : text * V -> bool) (d : list (text * V)) :
  NoDup (od_keys d) -> NoDup (od_keys (List.filter p d)).
Proof.
  induction d as [|[k v] d IH]; cbn [List.filter]; [auto|].
  unfold od_keys in *. cbn [List.map fst]. intros Hnd.
  apply NoDup_cons in Hnd. destruct Hnd as [Hk Hnd].
  destruct (p (k, v)); [|auto].
  cbn [List.map fst]. apply NoDup_cons. split; [|auto].
  intros Hin. apply Hk. apply list_elem_of_In. apply list_elem_of_In in Hin.
  exact (filter_keys_in p d k Hin).
Qed.

Lemma od_get_filter {V} (p : text * V -> bool) (d : list (text * V)) k :
  NoDup (od_keys d) ->
  od_get (List.filter p d) k =
  match od_get d k with
  | Some v => if p (k, v) then Some v else None
  | None => None
  end.
Proof.
  induction d as [|[k1 v1] d IH]; cbn [List.filter od_get]; [reflexivity|].
  unfold od_keys in *. cbn [List.map fst]. intros Hnd.
  apply NoDup_cons in Hnd. destruct Hnd as [Hk Hnd].
  unfold text_eqb. case_bool_decide as Heq.
  - subst k1. destruct (p (k, v1)).
    + cbn [od_get]. unfold text_eqb. rewrite bool_decide_true by reflexivity.
      reflexivity.
    + apply od_get_none. intros Hin. apply Hk. apply list_elem_of_In.
      exact (filter_keys_in p d k Hin).
  - destruct (p (k1, v1)); [|auto].
    cbn [od_get]. unfold text_eqb. rewrite bool_decide_false by exact Heq. auto.
Qed.

Lemma available_items_settled h : forall items w,
  (forall k r, In (k, r) items -> exists o, heap w !! r = Some o /\ settled o) ->
  available_items h items w
  = (Return (List.filter (fun kr => is_usable h w (snd kr)) items), w).
Proof.
  induction items as [|[k r] items IH]; intros w Hall; [reflexivity|].
  cbn [available_items List.filter snd]. unfold bind.
  destruct (Hall k r (or_introl eq_refl)) as (o & Ho & Hs).
  rewrite (is_available_settled h r w o Ho Hs).
  destruct (settled_available h h o Hs) as (_ & _ & b & Hb). rewrite Hb.
  rewrite IH by (intros k' r' Hin; apply (Hall k' r'); right; exact Hin).
  assert (Hu : is_usable h w r = b)
    by (unfold is_usable, available_at; rewrite Ho, Hb; destruct b; reflexivity).
  rewrite Hu. reflexivity.
Qed.

(** On a registry whose runtimes have their availability decided,
    [available_runtimes()] changes nothing and returns the entries of the
    registry whose runtime is available, in the order of the registry; a
    name is among them exactly when [get(name)] returns, and with the same
    runtime. *)
Theorem available_runtimes_usable (h : host) (w : world) :
  registry_settled w ->
  NoDup (od_keys (_runtimes w)) ->
  available_runtimes h w
  = (Return (List.filter (fun kr => is_usable h w (snd kr)) (_runtimes w)), w)
  /\ forall nm r,
       od_get (List.filter (fun kr => is_usable h w (snd kr)) (_runtimes w)) nm = Some r
       <-> fst (get h (Some nm) w) = Return r.
Proof.
  intros Hreg Hnd. split.
  - unfold available_runtimes, bind.
    rewrite (available_items_settled h _ w Hreg). cbn [ret].
    rewrite dict_of_nodup by (apply filter_keys_nodup; exact Hnd). reflexivity.
  - intros nm r. rewrite od_get_filter by exact Hnd.
    cbn [get]. rewrite get_named_outcome.
    destruct (od_get (_runtimes w) nm) as [r1|] eqn:Hr; [|split; discriminate].
    cbn [snd]. unfold is_usable, available_at.
    destruct (Hreg nm r1 (od_get_in _ _ _ Hr)) as (o & Ho & _). rewrite Ho.
    destruct (available h o) as [[|]|e]; split; congruence.
Qed.

(** On [demo_world] Node and SpiderMonkey, under its two names, are the
    available runtimes. *)
Lemma available_runtimes_usable_witness :
  registry_settled demo_world
  /\ NoDup (od_keys (_runtimes demo_world))
  /\ fst (available_runtimes demo demo_world)
     = Return [(u "Node", 2%nat); (u "SpiderMonkey", 4%nat); (u "Spidermonkey", 4%nat)].
Proof.
  assert (Hreg : registry_settled demo_world)
    by exact (proj1 (proj2 (module_init_settled demo demo_templates empty_world))).
  assert (Hnd : NoDup (od_keys (_runtimes demo_world)))
    by (apply (bool_decide_unpack _); vm_compute; exact I).
  split; [exact Hreg|]. split; [exact Hnd|].
  rewrite (proj1 (available_runtimes_usable demo demo_world Hreg Hnd)).
  vm_compute. reflexivity.
Defined.

(** ** The methods of [ExternalRuntime] *)

Section ExternalMethods.

Variable h : host.

(** The three methods start alike: [is_available()] decides, and leaves the
    object probed. *)
Lemma external_exec_run r w o source :
  heap w !! r = Some o ->
  External.exec_ h r source w
  = match available h o with
    | Return true =>
        Context.exec_ h (MkContext r []) source
          (set_heap w (<[r := probed h o]> (heap w)))
    | Return false =>
        (Raise (RuntimeUnavailable NoArg), set_heap w (<[r := probed h o]> (heap w)))
    | Raise e => (Raise e, set_heap w (<[r := probed h o]> (heap w)))
    end.
Proof.
  intros Ho. unfold External.exec_, bind. rewrite (is_available_run h r w o Ho).
  destruct (available h o) as [[|]|e]; reflexivity.
Qed.

Lemma external_eval_run r w o source :
  heap w !! r = Some o ->
  External.eval h r source w
  = match available h o with
    | Return true =>
        Context.eval h (MkContext r []) source
          (set_heap w (<[r := probed h o]> (heap w)))
    | Return false =>
        (Raise (RuntimeUnavailable NoArg), set_heap w (<[r := probed h o]> (heap w)))
    | Raise e => (Raise e, set_heap w (<[r := probed h o]> (heap w)))
    end.
Proof.
  intros Ho. unfold External.eval, bind. rewrite (is_available_run h r w o Ho).
  destruct (available h o) as [[|]|e]; reflexivity.
Qed.

Lemma external_compile_run r w o source :
  heap w !! r = Some o ->
  External.compile h r source w
  = match available h o with
    | Return true =>
        (Return (MkContext r source), set_heap w (<[r := probed h o]> (heap w)))
    | Return false =>
        (Raise (RuntimeUnavailable NoArg), set_heap w (<[r := probed h o]> (heap w)))
    | Raise e => (Raise e, set_heap w (<[r := probed h o]> (heap w)))
    end.
Proof.
  intros Ho. unfold External.compile, bind. rewrite (is_available_run h r w o Ho).
  destruct (available h o) as [[|]|e]; reflexivity.
Qed.

End ExternalMethods.

(** [exec_], [eval] and [compile] of a runtime whose command is not found
    raise [RuntimeUnavailable], without a message, before anything is done
    for the program: no file is created and the registry is as it was; the
    only change is that the runtime remembers that it has no binary. *)
Theorem external_methods_unavailable (h : host) (w : world) (r : nat)
  (o : runtime) (source : text) :
  heap w !! r = Some o ->
  available h o = Return false ->
  External.exec_ h r source w
  = (Raise (RuntimeUnavailable NoArg), set_heap w (<[r := probed h o]> (heap w)))
  /\ External.eval h r source w
     = (Raise (RuntimeUnavailable NoArg), set_heap w (<[r := probed h o]> (heap w)))
  /\ External.compile h r source w
     = (Raise (RuntimeUnavailable NoArg), set_heap w (<[r := probed h o]> (heap w)))
  /\ files (set_heap w (<[r := probed h o]> (heap w))) = files w
  /\ _runtimes (set_heap w (<[r := probed h o]> (heap w))) = _runtimes w.
Proof.
  intros Ho Ha.
  rewrite (external_exec_run h r w o source Ho),
          (external_eval_run h r w o source Ho),
          (external_compile_run h r w o source Ho), Ha.
  repeat split.
Qed.

(** On the POSIX host there is no [js] on an empty search path: the fresh
    SpiderMonkey runtime refuses the program and records the failed
    search. *)
Lemma external_methods_unavailable_witness :
  fst (External.exec_ demo_no_path 0 (u "return 1") fresh_js_world)
  = Raise (RuntimeUnavailable NoArg)
  /\ heap (snd (External.exec_ demo_no_path 0 (u "return 1") fresh_js_world))
     = [ExternalRuntime (u "SpiderMonkey") (CmdList [u "js"])
          spidermonkey_template (u "utf8") (Some None)].
Proof.
  destruct (external_methods_unavailable demo_no_path fresh_js_world 0
              (ExternalRuntime (u "SpiderMonkey") (CmdList [u "js"])
                 spidermonkey_template (u "utf8") None)
              (u "return 1") eq_refl eq_refl) as (Hexec & _).
  rewrite Hexec. split; reflexivity.
Defined.

(** ** The run of the engine *)

Section EngineRun.

Variable h : host.

(** [_binary()] returns what [located] says of the object and leaves the
    object [probed]. *)
Lemma binary_run r w n c tpl enc cache :
  heap w !! r = Some (ExternalRuntime n c tpl enc cache) ->
  _binary h r w
  = (located h (ExternalRuntime n c tpl enc cache),
     set_heap w (<[r := probed h (ExternalRuntime n c tpl enc cache)]> (heap w))).
Proof.
  intros H. unfold _binary, bind, get_object, lift. rewrite H.
  destruct cache as [b|]; cbn [located probed].
  - rewrite set_heap_same by exact H. reflexivity.
  - destruct (_which h c) as [b|e]; cbn.
    + reflexivity.
    + rewrite set_heap_same by exact H. reflexivity.
Qed.

(** The object of a runtime once its binary is known. *)
Lemma located_probed n c tpl enc cache binary :
  located h (ExternalRuntime n c tpl enc cache) = Return binary ->
  probed h (ExternalRuntime n c tpl enc cache)
  = ExternalRuntime n c tpl enc (Some binary).
Proof.
  destruct cache as [b|]; cbn [located probed]; intros H.
  - congruence.
  - rewrite H. reflexivity.
Qed.

(** The body of [try ... finally] up to the call of [_execfile]: the
    compiled program is in the temporary file. *)
Lemma program_written r P n c tpl enc cache source program filename w :
  heap w !! r = Some (ExternalRuntime n c tpl enc cache) ->
  str_encode h enc
    (Context.render source (encoded_source source) (_json2_source h) 0 tpl)
  = Return program ->
  (encoding <- get_encoding (_runtime (MkContext r P)) ;;
   compiled <- Context._compile h (MkContext r P) source ;;
   Context.write_file h filename encoding compiled ;;;
   _execfile h (_runtime (MkContext r P)) filename) w
  = _execfile h r filename (set_files w (<[filename := program]> (files w))).
Proof.
  intros Ho Henc. unfold bind at 1. unfold get_encoding, bind at 1, get_object.
  cbn [_runtime]. rewrite Ho. cbn [ret]. unfold bind at 1.
  rewrite (compile_run h r P source w n c tpl enc cache Ho).
  unfold bind, Context.write_file. rewrite Henc. reflexivity.
Qed.

End EngineRun.

(** [exec_] up to the start of the engine, for a runtime with a binary:
    the compiled program is in the temporary file, the binary is known to
    the runtime, and what remains is the call of [Popen] inside
    [try ... finally]. *)
Lemma engine_started (h : host) (w : world) (r : nat) (P : text)
  (n : text) (c : command) (tpl enc : text)
  (cache : option (option (list text))) (binary : list text)
  (filename source : text) (program : bytes) :
  heap w !! r = Some (ExternalRuntime n c tpl enc cache) ->
  located h (ExternalRuntime n c tpl enc cache) = Return (Some binary) ->
  mkstemp h (files w) = Return filename ->
  str_encode h enc
    (Context.render source (encoded_source source) (_json2_source h) 0 tpl)
  = Return program ->
  Context.engine_output h (MkContext r P) source w
  = try_finally
      (fun w1 =>
         match popen h (binary ++ [filename]) (files w1) with
         | (Return (out, status), fs) =>
             (if (status =? 0)%Z then Return out
              else Raise (RuntimeError (BytesArg out)), set_files w1 fs)
         | (Raise e, fs) => (Raise e, set_files w1 fs)
         end)
      (Context.os_remove filename)
      (World (<[r := ExternalRuntime n c tpl enc (Some (Some binary))]> (heap w))
         (_runtimes w) (<[filename := program]> (files w))).
Proof.
  intros Ho Hloc Hmk Henc.
  unfold Context.engine_output, bind at 1, Context.make_tempfile. rewrite Hmk.
  unfold try_finally.
  rewrite (program_written h r P n c tpl enc cache source program filename
             (set_files w (<[filename := []]> (files w))) Ho Henc).
  unfold set_files. cbn [files heap _runtimes]. rewrite insert_insert_eq.
  unfold _execfile, bind at 1.
  rewrite (binary_run h r (World (heap w) (_runtimes w)
                             (<[filename := program]> (files w)))
             n c tpl enc cache Ho), Hloc,
          (located_probed h n c tpl enc cache _ Hloc).
  unfold set_heap, bind. cbn [files heap _runtimes].
  destruct (popen h (binary ++ [filename]) (<[filename := program]> (files w)))
    as [[[out status]|e] fs]; [|reflexivity].
  destruct (status =? 0)%Z; reflexivity.
Qed.

(** With a binary for the runtime, [exec_] starts the engine once, on the
    command of the binary followed by the name of the temporary file, and
    this file then holds the compiled program in the encoding of the
    runtime.  An exit status other than 0 raises [RuntimeError] with the
    bytes the engine printed, whatever they are; an exception of the start
    of the process is let through.  The temporary file is removed in every
    case; when the engine has removed it itself, [OSError] takes the place
    of the outcome, of a successful run too. *)
Theorem engine_output_runs (h : host) (w : world) (r : nat) (P : text)
  (n : text) (c : command) (tpl enc : text)
  (cache : option (option (list text))) (binary : list text)
  (filename source : text) (program : bytes) :
  heap w !! r = Some (ExternalRuntime n c tpl enc cache) ->
  located h (ExternalRuntime n c tpl enc cache) = Return (Some binary) ->
  mkstemp h (files w) = Return filename ->
  str_encode h enc
    (Context.render source (encoded_source source) (_json2_source h) 0 tpl)
  = Return program ->
  Context.engine_output h (MkContext r P) source w
  = (match popen h (binary ++ [filename]) (<[filename := program]> (files w)) with
     | (res, fs) =>
         match fs !! filename, res with
         | None, _ => Raise OSError
         | Some _, Raise e => Raise e
         | Some _, Return (out, status) =>
             if (status =? 0)%Z then Return out
             else Raise (RuntimeError (BytesArg out))
         end
     end,
     World (<[r := ExternalRuntime n c tpl enc (Some (Some binary))]> (heap w))
       (_runtimes w)
       (delete filename
          (snd (popen h (binary ++ [filename]) (<[filename := program]> (files w)))))).
Proof.
  intros Ho Hloc Hmk Henc.
  rewrite (engine_started h w r P n c tpl enc cache binary filename source
             program Ho Hloc Hmk Henc).
  unfold try_finally. cbn [files].
  destruct (popen h (binary ++ [filename]) (<[filename := program]> (files w)))
    as [res fs]. cbn [snd].
  unfold Context.os_remove, set_files.
  destruct res as [[out status]|e]; cbn [files heap _runtimes];
    destruct (fs !! filename) eqn:Hf; try reflexivity;
    rewrite (delete_id _ _ Hf); reflexivity.
Qed.

(** On the POSIX host, an engine that prints [boom] and exits with status 1:
    the program of the Node runtime is run and [RuntimeError] carries the
    bytes of [boom]. *)
Lemma engine_output_runs_witness :
  heap demo_world !! 2%nat
  = Some (ExternalRuntime (u "Node.js (V8)") (CmdList [u "node"])
            (u "run(function() { #{source} })") (u "UTF-8")
            (Some (Some [u "/usr/bin/node"])))
  /\ str_encode (demo_engine (u "boom") 1) (u "UTF-8")
       (Context.render (u "return 3") (encoded_source (u "return 3"))
          (_json2_source (demo_engine (u "boom") 1)) 0
          (u "run(function() { #{source} })"))
     = Return (ascii_bytes (u "run(function() { return 3 })"))
  /\ fst (Context.engine_output (demo_engine (u "boom") 1) node_context
            (u "return 3") demo_world)
     = Raise (RuntimeError (BytesArg (ascii_bytes (u "boom")))).
Proof.
  assert (H1 : heap demo_world !! 2%nat
               = Some (ExternalRuntime (u "Node.js (V8)") (CmdList [u "node"])
                         (u "run(function() { #{source} })") (u "UTF-8")
                         (Some (Some [u "/usr/bin/node"]))))
    by (vm_compute; reflexivity).
  assert (H2 : str_encode (demo_engine (u "boom") 1) (u "UTF-8")
                 (Context.render (u "return 3") (encoded_source (u "return 3"))
                    (_json2_source (demo_engine (u "boom") 1)) 0
                    (u "run(function() { #{source} })"))
               = Return (ascii_bytes (u "run(function() { return 3 })")))
    by (vm_compute; reflexivity).
  split; [exact H1|]. split; [exact H2|].
  unfold node_context.
  rewrite (engine_output_runs (demo_engine (u "boom") 1) demo_world 2 []
             _ _ _ _ _ [u "/usr/bin/node"] demo_tempfile (u "return 3") _
             H1 eq_refl eq_refl H2).
  vm_compute. reflexivity.
Defined.

(** A context made directly on a runtime that has no binary, as
    [ExternalRuntime.Context(runtime)], is not stopped by the check of the
    methods of the runtime: [exec_] writes the program to the temporary
    file and then fails on [None + [filename]] with [TypeError], which is
    not an error of the library; no process is started and the temporary
    file is removed. *)
Theorem context_without_binary (h : host) (w : world) (r : nat) (P : text)
  (n : text) (c : command) (tpl enc : text)
  (cache : option (option (list text)))
  (filename source : text) (program : bytes) :
  heap w !! r = Some (ExternalRuntime n c tpl enc cache) ->
  located h (ExternalRuntime n c tpl enc cache) = Return None ->
  mkstemp h (files w) = Return filename ->
  str_encode h enc
    (Context.render (Context.with_preamble (MkContext r P) source)
       (encoded_source (Context.with_preamble (MkContext r P) source))
       (_json2_source h) 0 tpl)
  = Return program ->
  Context.exec_ h (MkContext r P) source w
  = (Raise TypeError,
     World (<[r := ExternalRuntime n c tpl enc (Some None)]> (heap w))
       (_runtimes w) (delete filename (files w)))
  /\ is_library_error TypeError = false.
Proof.
  intros Ho Hloc Hmk Henc. split; [|reflexivity].
  unfold Context.exec_, bind at 1.
  unfold Context.engine_output, bind at 1, Context.make_tempfile. rewrite Hmk.
  unfold try_finally.
  rewrite (program_written h r P n c tpl enc cache _ program filename
             (set_files w (<[filename := []]> (files w))) Ho Henc).
  unfold set_files. cbn [files heap _runtimes]. rewrite insert_insert_eq.
  unfold _execfile, bind at 1.
  rewrite (binary_run h r (World (heap w) (_runtimes w)
                             (<[filename := program]> (files w)))
             n c tpl enc cache Ho), Hloc,
          (located_probed h n c tpl enc cache _ Hloc).
  unfold set_heap, raise, Context.os_remove, set_files. cbn [files heap _runtimes].
  rewrite lookup_insert_eq, delete_insert_eq. reflexivity.
Qed.

(** The PhantomJS runtime of [demo_world] has no binary: a context on it
    fails with [TypeError] and leaves no file. *)
Lemma context_without_binary_witness :
  fst (Context.exec_ demo phantomjs_context (u "return 3") demo_world)
  = Raise TypeError
  /\ files (snd (Context.exec_ demo phantomjs_context (u "return 3") demo_world))
     = files demo_world.
Proof.
  assert (H1 : heap demo_world !! 6%nat
               = Some (ExternalRuntime (u "PhantomJS") (CmdList [u "phantomjs"])
                         (u "run(#{encoded_source}); phantom.exit();") (u "utf8")
                         (Some None)))
    by (vm_compute; reflexivity).
  unfold phantomjs_context.
  rewrite (proj1 (context_without_binary demo demo_world 6 []
             _ _ _ _ _ demo_tempfile (u "return 3")
             (ascii_bytes (u "run(" ++ encoded_source (u "return 3")
                           ++ u "); phantom.exit();"))
             H1 eq_refl eq_refl ltac:(vm_compute; reflexivity))).
  split; vm_compute; reflexivity.
Defined.

(** ** Compiled contexts *)

(** A context that [compile(P)] returns keeps nothing but the text [P]:
    its [exec_(S)] is [exec_] of the runtime on [P], a line feed and [S] as
    one program, and its [eval(S)] is [exec_] of the runtime on [P], a line
    feed and the program of [eval]; so the preamble is run again by each
    call, in a new engine process, and what a call has defined is gone at
    the next.  After [compile('')] the program goes unchanged. *)
Theorem compile_then_exec (h : host) (w : world) (r : nat) (n : text)
  (c : command) (tpl enc : text) (binary : list text) (P S : text) :
  heap w !! r = Some (ExternalRuntime n c tpl enc (Some (Some binary))) ->
  External.compile h r P w = (Return (MkContext r P), w)
  /\ Context.exec_ h (MkContext r P) S w
     = External.exec_ h r (if is_empty P then S else P ++ [LF] ++ S) w
  /\ Context.eval h (MkContext r P) S w
     = External.exec_ h r
         (if is_empty P then Context.eval_code S
          else P ++ [LF] ++ Context.eval_code S) w.
Proof.
  intros Ho.
  assert (Hsame : set_heap w (<[r := probed h (ExternalRuntime n c tpl enc
                                                 (Some (Some binary)))]> (heap w)) = w)
    by (cbn [probed]; apply set_heap_same; exact Ho).
  rewrite (external_compile_run h r w _ P Ho).
  rewrite !(external_exec_run h r w _ _ Ho).
  cbn [available located]. rewrite Hsame.
  rewrite bool_decide_true by discriminate.
  split; [reflexivity|]. split; reflexivity.
Qed.

(** On [demo_world] with an engine that answers 3: the context compiled
    from a declaration returns 3 for a program, as the runtime does for
    the declaration and the program together. *)
Lemma compile_then_exec_witness :
  External.compile (demo_engine ok3_output 0) 2 (u "var a = 3") demo_world
  = (Return (MkContext 2 (u "var a = 3")), demo_world)
  /\ fst (Context.exec_ (demo_engine ok3_output 0) (MkContext 2 (u "var a = 3"))
            (u "return a") demo_world)
     = Return (JInt 3).
Proof.
  assert (H1 : heap demo_world !! 2%nat
               = Some (ExternalRuntime (u "Node.js (V8)") (CmdList [u "node"])
                         (u "run(function() { #{source} })") (u "UTF-8")
                         (Some (Some [u "/usr/bin/node"]))))
    by (vm_compute; reflexivity).
  destruct (compile_then_exec (demo_engine ok3_output 0) demo_world 2 _ _ _ _ _
              (u "var a = 3") (u "return a") H1) as (Hc & He & _).
  split; [exact Hc|]. rewrite He. vm_compute. reflexivity.
Defined.

(** ** [ExternalRuntime.__str__] *)

(** [str(runtime)] raises [KeyError] for every [ExternalRuntime], whatever
    its name: the format string has the field [runtime_name] and the
    keyword that is passed is [uuntime_name]. *)
Theorem str_raises_key_error (n : text) (c : command) (tpl enc : text)
  (cache : option (option (list text))) :
  __str__ (ExternalRuntime n c tpl enc cache) = Raise KeyError.
Proof. reflexivity. Qed.

(** ** The string literals of [json.dumps] read back *)

(** Bits that do not meet add up. *)
Lemma lor_shiftl_add a x k :
  x < 2 ^ k -> N.lor (N.shiftl a k) x = a * 2 ^ k + x.
Proof.
  intros Hx.
  assert (Hland : N.land (N.shiftl a k) x = 0).
  { apply N.bits_inj. intros m. rewrite N.land_spec, N.bits_0.
    destruct (N.lt_ge_cases m k) as [Hm|Hm].
    - rewrite N.shiftl_spec_low by exact Hm. reflexivity.
    - rewrite <- (N.mod_small x (2 ^ k)) by exact Hx.
      rewrite N.mod_pow2_bits_high by exact Hm. apply andb_false_r. }
  rewrite <- N.lxor_lor by exact Hland.
  rewrite <- N.add_nocarry_lxor by exact Hland.
  rewrite N.shiftl_mul_pow2. reflexivity.
Qed.

(** The surrogate pair of [encode_basestring_ascii]. *)
Lemma surrogate_pair c :
  65536 <= c -> c < 1114112 ->
  N.lor 55296 (N.land (N.shiftr (c - 65536) 10) 1023) = 55296 + (c - 65536) / 1024
  /\ N.lor 56320 (N.land (c - 65536) 1023) = 56320 + (c - 65536) mod 1024
  /\ (c - 65536) / 1024 < 1024.
Proof.
  intros Hlo Hhi.
  assert (Hq : (c - 65536) / 1024 < 1024)
    by (apply N.Div0.div_lt_upper_bound; lia).
  assert (Hm : (c - 65536) mod 1024 < 1024) by (apply N.mod_lt; lia).
  change 1023 with (N.ones 10). rewrite !N.land_ones, N.shiftr_div_pow2.
  change (2 ^ 10) with 1024.
  rewrite (N.mod_small _ 1024 Hq).
  change 55296 with (N.shiftl 54 10) at 1. change 56320 with (N.shiftl 55 10) at 1.
  rewrite !lor_shiftl_add by assumption.
  change (2 ^ 10) with 1024. repeat split; lia.
Qed.

Lemma lower_hex_is_hex c :
  is_lower_hex c = true -> is_hex c = true /\ hex_val_any c = hex_val c.
Proof.
  unfold is_lower_hex, is_hex, is_digit, hex_val_any, hex_val. intros H.
  repeat match goal with
    | |- context [?a <=? ?b] => destruct (N.leb_spec a b)
    | H : context [?a <=? ?b] |- _ => destruct (N.leb_spec a b)
    end; simpl in *; try discriminate; split; try reflexivity; lia.
Qed.

(** [format(n, '04x')] is read back by the scanner of [\uXXXX]. *)
Lemma scan_u4_format n r :
  n < 65536 -> scan_u4 (format_04x n ++ r) = Some (n, r).
Proof.
  intros Hn. destruct (format_04x_bmp n Hn) as (Hlen & Hall & Hval).
  destruct (format_04x n) as [|a [|b [|c [|d [|e l]]]]]; try discriminate Hlen.
  apply List.Forall_cons_iff in Hall. destruct Hall as [Ha Hall].
  apply List.Forall_cons_iff in Hall. destruct Hall as [Hb Hall].
  apply List.Forall_cons_iff in Hall. destruct Hall as [Hc Hall].
  apply List.Forall_cons_iff in Hall. destruct Hall as [Hd _].
  destruct (lower_hex_is_hex a Ha) as [Ha1 Ha2].
  destruct (lower_hex_is_hex b Hb) as [Hb1 Hb2].
  destruct (lower_hex_is_hex c Hc) as [Hc1 Hc2].
  destruct (lower_hex_is_hex d Hd) as [Hd1 Hd2].
  cbn [app scan_u4]. rewrite Ha1, Hb1, Hc1, Hd1, Ha2, Hb2, Hc2, Hd2.
  cbn [andb]. unfold hex_value in Hval. cbn [fold_left] in Hval.
  f_equal. f_equal. lia.
Qed.

(** One character that the scanner takes as it is. *)
Lemma scanstring_plain f c r :
  32 <= c -> c <> 34 -> c <> 92 ->
  scanstring (S f) (c :: r)
  = match scanstring f r with
    | Some (t, r') => Some (c :: t, r')
    | None => None
    end.
Proof.
  intros Hlo H34 H92.
  assert (Hlt : (c <? 32) = false) by (apply N.ltb_ge; exact Hlo).
  cbn [scanstring].
  destruct c as [|p]; [lia|].
  repeat match goal with
    | |- context [match ?p with xI _ => _ | xO _ => _ | xH => _ end] =>
        is_var p; destruct p
    end;
    try (rewrite Hlt; reflexivity); try (exfalso; lia).
Qed.

(** The scanner after [\u]. *)
Lemma scanstring_u f r :
  scanstring (S f) (92 :: 117 :: r)
  = match scan_u4 r with
    | None => None
    | Some (hi, r1) =>
        let lone :=
          match scanstring f r1 with
          | Some (t, r') => Some (hi :: t, r')
          | None => None
          end in
        if (55296 <=? hi) && (hi <=? 56319) then
          match r1 with
          | 92 :: 117 :: r2 =>
              match scan_u4 r2 with
              | Some (lo, r3) =>
                  if (56320 <=? lo) && (lo <=? 57343) then
                    match scanstring f r3 with
                    | Some (t, r') =>
                        Some (65536 + N.lor (N.shiftl (hi - 55296) 10)
                                            (lo - 56320) :: t, r')
                    | None => None
                    end
                  else lone
              | None => lone
              end
          | _ => lone
          end
        else lone
    end.
Proof. reflexivity. Qed.

(** What [encode_basestring_ascii] writes for one character is read back
    as this character. *)
Lemma scanstring_escape f c rest :
  carried c ->
  scanstring (S f) (escape_ascii c ++ rest)
  = match scanstring f rest with
    | Some (t, r') => Some (c :: t, r')
    | None => None
    end.
Proof.
  intros [Hmax Hhigh]. unfold escape_ascii.
  destruct (N.eqb_spec c 92) as [->|H92]; [reflexivity|].
  destruct (N.eqb_spec c 34) as [->|H34]; [reflexivity|].
  destruct (N.eqb_spec c 8) as [->|H8]; [reflexivity|].
  destruct (N.eqb_spec c 12) as [->|H12]; [reflexivity|].
  destruct (N.eqb_spec c 10) as [->|H10]; [reflexivity|].
  destruct (N.eqb_spec c 13) as [->|H13]; [reflexivity|].
  destruct (N.eqb_spec c 9) as [->|H9]; [reflexivity|].
  destruct (N.leb_spec 32 c) as [Hlo|Hlo];
    [destruct (N.leb_spec c 126) as [Hhi|Hhi]|]; cbn [andb].
  - apply scanstring_plain; assumption.
  - destruct (N.ltb_spec c 65536) as [Hbmp|Hast].
    + change (u "\u" ++ format_04x c) with (92 :: 117 :: format_04x c).
      cbn [app]. rewrite scanstring_u, scan_u4_format by exact Hbmp.
      cbv zeta.
      destruct (N.leb_spec 55296 c); destruct (N.leb_spec c 56319); cbn [andb];
        try reflexivity. exfalso. apply Hhigh. split; assumption.
    + destruct (surrogate_pair c Hast Hmax) as (-> & -> & Hq).
      assert (Hm : (c - 65536) mod 1024 < 1024) by (apply N.mod_lt; lia).
      pose proof (N.div_mod (c - 65536) 1024 ltac:(lia)) as Hdm.
      pose proof (N.le_0_l ((c - 65536) / 1024)) as Hq0.
      pose proof (N.le_0_l ((c - 65536) mod 1024)) as Hm0.
      change (u "\u" ++ format_04x (55296 + (c - 65536) / 1024)
              ++ u "\u" ++ format_04x (56320 + (c - 65536) mod 1024))
        with (92 :: 117 :: format_04x (55296 + (c - 65536) / 1024)
              ++ 92 :: 117 :: format_04x (56320 + (c - 65536) mod 1024)).
      cbn [app]. rewrite <- app_assoc. cbn [app].
      rewrite scanstring_u, scan_u4_format by lia. cbv zeta.
      rewrite scan_u4_format by lia.
      replace ((55296 <=? 55296 + (c - 65536) / 1024)
               && (55296 + (c - 65536) / 1024 <=? 56319)) with true
        by (symmetry; apply andb_true_intro; split; apply N.leb_le; lia).
      replace ((56320 <=? 56320 + (c - 65536) mod 1024)
               && (56320 + (c - 65536) mod 1024 <=? 57343)) with true
        by (symmetry; apply andb_true_intro; split; apply N.leb_le; lia).
      replace (55296 + (c - 65536) / 1024 - 55296) with ((c - 65536) / 1024) by lia.
      replace (56320 + (c - 65536) mod 1024 - 56320) with ((c - 65536) mod 1024) by lia.
      change 10 with (N.log2 1024) at 1.
      rewrite (lor_shiftl_add _ _ 10) by exact Hm.
      change (2 ^ 10) with 1024.
      replace (65536 + ((c - 65536) / 1024 * 1024 + (c - 65536) mod 1024)) with c by lia.
      reflexivity.
  - destruct (N.ltb_spec c 65536) as [Hbmp|Hast]; [|lia].
    change (u "\u" ++ format_04x c) with (92 :: 117 :: format_04x c).
    cbn [app]. rewrite scanstring_u, scan_u4_format by lia.
    cbv zeta.
    destruct (N.leb_spec 55296 c); [lia|]. reflexivity.
Qed.

Lemma escape_ascii_length c : (1 <= List.length (escape_ascii c))%nat.
Proof.
  unfold escape_ascii.
  repeat match goal with
    | |- context [if ?b then _ else _] => destruct b
    end; cbn [List.length app u]; simpl; lia.
Qed.

Lemma escaped_length s :
  (List.length s <= List.length (flat_map escape_ascii s))%nat.
Proof.
  induction s as [|c s IH]; [reflexivity|].
  cbn [flat_map List.length]. rewrite length_app.
  pose proof (escape_ascii_length c). lia.
Qed.

(** The body of a literal is read back up to its closing quote, with one
    unit of fuel for each character and one for the quote. *)
Lemma scanstring_escaped s : forall f rest,
  Forall carried s -> (List.length s < f)%nat ->
  scanstring f (flat_map escape_ascii s ++ dq :: rest) = Some (s, rest).
Proof.
  induction s as [|c s IH]; intros f rest Hall Hf.
  - destruct f as [|f]; [lia|]. reflexivity.
  - destruct f as [|f]; [simpl in Hf; lia|].
    apply List.Forall_cons_iff in Hall. destruct Hall as [Hc Hall].
    cbn [flat_map]. rewrite <- app_assoc.
    rewrite scanstring_escape by exact Hc.
    rewrite IH by (simpl in Hf; auto; lia). reflexivity.
Qed.

(** [json.loads(json.dumps(s, ensure_ascii=True))] is [s]. *)
Lemma json_loads_dumps s :
  Forall carried s -> json_loads (json_dumps_str s) = Return (JStr s).
Proof.
  intros Hall. unfold json_dumps_str, json_loads, dq.
  assert (Hscan : scanstring (S (List.length (flat_map escape_ascii s ++ [34])))
                    (flat_map escape_ascii s ++ [34]) = Some (s, []))
    by (apply (scanstring_escaped s _ [] Hall); rewrite length_app;
        pose proof (escaped_length s); simpl; lia).
  set (body := flat_map escape_ascii s ++ [34]) in *.
  replace (2 * List.length (34%N :: body) + 2)%nat
    with (S (2 * List.length (34%N :: body) + 1))%nat by lia.
  cbn [skip_ws is_json_ws N.eqb Pos.eqb orb scan_once].
  rewrite Hscan. reflexivity.
Qed.

Lemma ascii_carried c : is_ascii c -> carried c.
Proof. unfold is_ascii, carried. lia. Qed.

(** A non-blank expression goes into the program of [eval] as a literal
    that reads back as the expression, character for character: the
    quotes, backslashes, line ends and characters outside ASCII of the
    expression are all restored by the reader of the literal.  This holds of
    every expression without a high surrogate. *)
Theorem eval_code_literal (source : text) :
  is_empty (strip source) = false ->
  Forall carried source ->
  Context.eval_code source
  = u "return eval('('+" ++ json_dumps_str source ++ u "+')')"
  /\ json_loads (json_dumps_str source) = Return (JStr source).
Proof.
  intros Hne Hall. split.
  - unfold Context.eval_code. rewrite Hne. rewrite <- !app_assoc. reflexivity.
  - apply json_loads_dumps. exact Hall.
Qed.

(** An expression with a quote, a backslash, a line feed, an accented
    letter and a character outside the Basic Multilingual Plane. *)
Lemma eval_code_literal_witness :
  is_empty (strip [dq; 92; LF; 233; 128512]) = false
  /\ json_loads (json_dumps_str [dq; 92; LF; 233; 128512])
     = Return (JStr [dq; 92; LF; 233; 128512]).
Proof.
  split; [reflexivity|].
  refine (proj2 (eval_code_literal [dq; 92; LF; 233; 128512] eq_refl _)).
  repeat (apply List.Forall_cons; [unfold carried, dq, LF; lia|]).
  apply List.Forall_nil.
Defined.

(** A high surrogate and a low surrogate that follow each other are not
    restored: they are read back as one character. *)
Example surrogates_merge :
  json_loads (json_dumps_str [55357; 56832]) = Return (JStr [128512]).
Proof. vm_compute. reflexivity. Qed.

(** The text that takes the place of [#{encoded_source}] is, for every
    program, a literal that reads back as the program in its function
    wrapper, its characters outside ASCII written as [\uXXXX] by
    [encode_unicode_codepoints]. *)
Theorem encoded_source_literal (source : text) :
  json_loads (encoded_source source)
  = Return (JStr (u "(function(){ " ++ encode_unicode_codepoints source
                  ++ u " })()")).
Proof.
  unfold encoded_source. apply json_loads_dumps.
  apply Forall_app. split; [|apply Forall_app; split].
  - apply List.Forall_forall. intros c Hc. apply ascii_carried.
    revert c Hc. apply List.Forall_forall. apply is_ascii_check. reflexivity.
  - eapply Forall_impl; [apply encode_output_ascii|]. exact ascii_carried.
  - apply List.Forall_forall. intros c Hc. apply ascii_carried.
    revert c Hc. apply List.Forall_forall. apply is_ascii_check. reflexivity.
Qed.

(** ** From the runtime to the value *)

(** [exec_] of an available runtime, from end to end.  The program is
    compiled from the template of the runtime, written in its encoding and
    run by its binary; when the engine exits with status 0 and what it
    printed decodes, the outcome of [exec_] is the outcome of
    [_extract_result] on the line before the last line end, or
    [IndexError] when there is no line end; the files are those the engine
    left, without the temporary file, and nothing else has changed. *)
Theorem exec_end_to_end (h : host) (w : world) (r : nat) (n : text)
  (c : command) (tpl enc : text) (binary : list text)
  (filename source : text) (program out : bytes) (fs : gmap text bytes)
  (decoded : text) :
  heap w !! r = Some (ExternalRuntime n c tpl enc (Some (Some binary))) ->
  mkstemp h (files w) = Return filename ->
  str_encode h enc
    (Context.render source (encoded_source source) (_json2_source h) 0 tpl)
  = Return program ->
  popen h (binary ++ [filename]) (<[filename := program]> (files w))
  = (Return (out, 0%Z), fs) ->
  is_Some (fs !! filename) ->
  bytes_decode h enc out = Return decoded ->
  External.exec_ h r source w
  = (match Context.last_line decoded with
     | Some line => Context._extract_result line
     | None => Raise IndexError
     end,
     set_files w (delete filename fs)).
Proof.
  intros Ho Hmk Henc Hrun [b Hb] Hdec.
  rewrite (external_exec_run h r w _ source Ho).
  cbn [available located probed]. rewrite bool_decide_true by discriminate.
  rewrite set_heap_same by exact Ho.
  unfold Context.exec_, bind at 1.
  cbn [Context.with_preamble _source is_empty].
  rewrite (engine_started h w r [] n c tpl enc _ binary filename source program
             Ho eq_refl Hmk Henc).
  unfold try_finally. cbn [files]. rewrite Hrun. cbn [Z.eqb].
  unfold Context.os_remove, set_files. cbn [files heap _runtimes]. rewrite Hb.
  rewrite list_insert_id by exact Ho.
  unfold get_encoding, get_object, bind. cbn [_runtime heap].
  rewrite Ho. cbn [ret]. unfold lift. rewrite Hdec.
  unfold set_files, raise.
  destruct (Context.last_line decoded); reflexivity.
Qed.

(** On [demo_world], with an engine that prints a blank line and the
    envelope of 3: [exec_] of the Node runtime returns 3 and leaves the
    files as they were. *)
Lemma exec_end_to_end_witness :
  External.exec_ (demo_engine ok3_output 0) 2 (u "return 3") demo_world
  = (Return (JInt 3), demo_world).
Proof.
  assert (H1 : heap demo_world !! 2%nat
               = Some (ExternalRuntime (u "Node.js (V8)") (CmdList [u "node"])
                         (u "run(function() { #{source} })") (u "UTF-8")
                         (Some (Some [u "/usr/bin/node"]))))
    by (vm_compute; reflexivity).
  rewrite (exec_end_to_end (demo_engine ok3_output 0) demo_world 2 _ _ _ _
             [u "/usr/bin/node"] demo_tempfile (u "return 3")
             (ascii_bytes (u "run(function() { return 3 })"))
             (ascii_bytes ok3_output)
             (<[demo_tempfile := ascii_bytes (u "run(function() { return 3 })")]>
                (files demo_world))
             ok3_output
             H1 eq_refl ltac:(vm_compute; reflexivity) eq_refl
             ltac:(rewrite lookup_insert_eq; eexists; reflexivity)
             ltac:(vm_compute; reflexivity)).
  vm_compute. reflexivity.
Defined.
